(** * HyperDbg kernel debugger commands: memory read, MSR access, memory edit
      and pattern search (hyperkd/code/debugger/commands/DebuggerCommands.c)

    A shallow embedding of the command handlers and theorems about them.

    Conventions of the embedding.
    - Fixed-width C integers are [Z]; where the C arithmetic can wrap, the
      wrap is written with [wrap32] / [wrap64].
    - A C pointer used as an array ([UCHAR *], [UINT64 *], the payload that
      trails a request header) is a [Buffer]: the view of memory through that
      pointer, a function from the index to the element stored there.  A store
      through the pointer is [store]; an index past the intended extent of
      the array reads or writes the memory that follows it, exactly as in C.
    - Routines, constants and globals that live in other files of the driver
      are fields of a [Services] record of the module that uses them.
    - Loops whose iterator is a 64-bit address that is advanced with
      wrap-around take a [fuel] argument and return [None] when it runs out.
*)

From Stdlib Require Import ZArith List Bool Lia.
From stdpp Require Import base decidable list.

Local Open Scope Z_scope.

(** ** Machine integers and memory views *)

Definition wrap32 (z : Z) : Z := z mod 2 ^ 32.
Definition wrap64 (z : Z) : Z := z mod 2 ^ 64.

Definition Buffer : Type := Z -> Z.

Definition store (b : Buffer) (i v : Z) : Buffer :=
  fun j => if j =? i then v else b j.

(** Status codes written to the [KernelStatus] / [Result] field of a request. *)
Inductive DEBUGGER_STATUS : Type :=
| DEBUGGER_OPERATION_WAS_SUCCESSFUL
| DEBUGGER_ERROR_READING_MEMORY_INVALID_PARAMETER
| DEBUGGER_ERROR_INVALID_PHYSICAL_ADDRESS
| DEBUGGER_ERROR_INVALID_ADDRESS
| DEBUGGER_ERROR_MEMORY_TYPE_INVALID
| DEBUGGER_ERROR_EDIT_MEMORY_STATUS_INVALID_PARAMETER
| DEBUGGER_STATUS_RAW (code : Z).

Inductive NTSTATUS : Type :=
| STATUS_SUCCESS
| STATUS_UNSUCCESSFUL
| STATUS_INVALID_PARAMETER
| STATUS_INSUFFICIENT_RESOURCES
| NTSTATUS_RAW (code : Z).

#[global] Instance NTSTATUS_eq_dec : EqDecision NTSTATUS.
Proof. solve_decision. Defined.

(** ** Breakpoint descriptors ([DEBUGGEE_BP_DESCRIPTOR]) *)

Module Bp.

Record DEBUGGEE_BP_DESCRIPTOR : Type := {
  Address : Z;
  PreviousByte : Z
}.

End Bp.

(** ** Reading memory: [DebuggerCommandReadMemory] and
       [DebuggerCommandReadMemoryVmxRoot] *)

Module Read.

Inductive DEBUGGER_READ_MEMORY_TYPE : Type :=
| DEBUGGER_READ_PHYSICAL_ADDRESS
| DEBUGGER_READ_VIRTUAL_ADDRESS
| DEBUGGER_READ_MEMORY_TYPE_RAW (code : Z).

#[global] Instance DEBUGGER_READ_MEMORY_TYPE_eq_dec :
  EqDecision DEBUGGER_READ_MEMORY_TYPE.
Proof. solve_decision. Defined.

Inductive DEBUGGER_READ_MEMORY_ADDRESS_MODE : Type :=
| DEBUGGER_READ_ADDRESS_MODE_32_BIT
| DEBUGGER_READ_ADDRESS_MODE_64_BIT
| DEBUGGER_READ_ADDRESS_MODE_RAW (code : Z).

Record DEBUGGER_READ_MEMORY : Type := {
  Pid : Z;
  Address : Z;
  Size : Z;
  GetAddressMode : bool;
  AddressMode : DEBUGGER_READ_MEMORY_ADDRESS_MODE;
  MemoryType : DEBUGGER_READ_MEMORY_TYPE;
  KernelStatus : DEBUGGER_STATUS
}.

Definition set_AddressMode (m : DEBUGGER_READ_MEMORY_ADDRESS_MODE)
  (r : DEBUGGER_READ_MEMORY) : DEBUGGER_READ_MEMORY :=
  {| Pid := Pid r; Address := Address r; Size := Size r;
     GetAddressMode := GetAddressMode r; AddressMode := m;
     MemoryType := MemoryType r; KernelStatus := KernelStatus r |}.

Definition set_KernelStatus (s : DEBUGGER_STATUS)
  (r : DEBUGGER_READ_MEMORY) : DEBUGGER_READ_MEMORY :=
  {| Pid := Pid r; Address := Address r; Size := Size r;
     GetAddressMode := GetAddressMode r; AddressMode := AddressMode r;
     MemoryType := MemoryType r; KernelStatus := s |}.

(** What a call leaves behind: the BOOLEAN it returns, the request, the
    caller's buffer and [*ReturnSize]. *)
Record Outcome : Type := {
  Returned : bool;
  Request : DEBUGGER_READ_MEMORY;
  UserBuffer : Buffer;
  ReturnSize : Z
}.

(** Routines of the memory manager and of the process layer.

    - [MemoryManagerReadProcessMemoryNormal Pid Address MemType UserBuffer
      Size ReturnSize] gives the BOOLEAN it returns, the buffer and
      [*ReturnSize] as it leaves them.
    - The two WOW64 queries give [Some Is32BitProcess] when they return TRUE
      and [None] when they return FALSE.
    - The two safe readers give the buffer as they leave it. *)
Record Services : Type := {
  MemoryManagerReadProcessMemoryNormal :
    Z -> Z -> DEBUGGER_READ_MEMORY_TYPE -> Buffer -> Z -> Z -> bool * Buffer * Z;
  UserAccessIsWow64Process : Z -> option bool;
  PsGetCurrentProcess : Z;
  UserAccessIsWow64ProcessByEprocess : Z -> option bool;
  CheckAddressPhysical : Z -> bool;
  CheckAccessValidityAndSafety : Z -> Z -> bool;
  MemoryMapperReadMemorySafeByPhysicalAddress : Z -> Buffer -> Z -> Buffer;
  MemoryMapperReadMemorySafeOnTargetProcess : Z -> Buffer -> Z -> Buffer
}.

Definition DebuggerCommandReadMemory (K : Services)
  (ReadMemRequest : DEBUGGER_READ_MEMORY) (UserBuffer : Buffer) (ReturnSize : Z)
  : Outcome :=
  let Pid_ := Pid ReadMemRequest in
  let Size_ := Size ReadMemRequest in
  let Address_ := Address ReadMemRequest in
  let MemType := MemoryType ReadMemRequest in
  if negb (Size_ =? 0) && negb (Address_ =? 0) then
    let '(ok, UserBuffer', ReturnSize') :=
      MemoryManagerReadProcessMemoryNormal K Pid_ Address_ MemType
        UserBuffer Size_ ReturnSize in
    if ok then
      let ReadMemRequest' :=
        if bool_decide (MemoryType ReadMemRequest = DEBUGGER_READ_VIRTUAL_ADDRESS)
           && GetAddressMode ReadMemRequest
        then
          if (0xFFFF800000000000 <=? Address ReadMemRequest)
             && (Address ReadMemRequest <=? 0xFFFFFFFFFFFFFFFF)
          then set_AddressMode DEBUGGER_READ_ADDRESS_MODE_64_BIT ReadMemRequest
          else
            match UserAccessIsWow64Process K (Pid ReadMemRequest) with
            | Some Is32BitProcess =>
                if Is32BitProcess
                then set_AddressMode DEBUGGER_READ_ADDRESS_MODE_32_BIT ReadMemRequest
                else set_AddressMode DEBUGGER_READ_ADDRESS_MODE_64_BIT ReadMemRequest
            | None =>
                set_AddressMode DEBUGGER_READ_ADDRESS_MODE_64_BIT ReadMemRequest
            end
        else ReadMemRequest in
      {| Returned := true;
         Request := set_KernelStatus DEBUGGER_OPERATION_WAS_SUCCESSFUL ReadMemRequest';
         UserBuffer := UserBuffer'; ReturnSize := ReturnSize' |}
    else
      {| Returned := false;
         Request := set_KernelStatus DEBUGGER_ERROR_READING_MEMORY_INVALID_PARAMETER
                      ReadMemRequest;
         UserBuffer := UserBuffer'; ReturnSize := ReturnSize' |}
  else
    {| Returned := false;
       Request := set_KernelStatus DEBUGGER_ERROR_READING_MEMORY_INVALID_PARAMETER
                    ReadMemRequest;
       UserBuffer := UserBuffer; ReturnSize := ReturnSize |}.

(** The test of one descriptor against the range of the read:
    [Desc->Address >= Address && Desc->Address <= Address + Size], the sum
    taken in UINT64. *)
Definition BreakpointInRange (Address_ Size_ : Z)
  (CurrentBreakpointDesc : Bp.DEBUGGEE_BP_DESCRIPTOR) : bool :=
  (Address_ <=? Bp.Address CurrentBreakpointDesc)
  && (Bp.Address CurrentBreakpointDesc <=? wrap64 (Address_ + Size_)).

(** One turn of the [while] loop over [g_BreakpointsListHead]. *)
Definition RestoreBreakpointByte (Address_ Size_ : Z)
  (UserBuffer : Buffer) (CurrentBreakpointDesc : Bp.DEBUGGEE_BP_DESCRIPTOR)
  : Buffer :=
  if BreakpointInRange Address_ Size_ CurrentBreakpointDesc then
    let OffsetInUserBuffer := Bp.Address CurrentBreakpointDesc - Address_ in
    if UserBuffer OffsetInUserBuffer =? 0xcc
    then store UserBuffer OffsetInUserBuffer (Bp.PreviousByte CurrentBreakpointDesc)
    else UserBuffer
  else UserBuffer.

(** The [while] loop: the list is walked from its head along [Flink]. *)
Fixpoint RestoreBreakpointBytes (TempList : list Bp.DEBUGGEE_BP_DESCRIPTOR)
  (Address_ Size_ : Z) (UserBuffer : Buffer) : Buffer :=
  match TempList with
  | [] => UserBuffer
  | CurrentBreakpointDesc :: Flink =>
      RestoreBreakpointBytes Flink Address_ Size_
        (RestoreBreakpointByte Address_ Size_ UserBuffer CurrentBreakpointDesc)
  end.

Definition DebuggerCommandReadMemoryVmxRoot (K : Services)
  (g_BreakpointsListHead : list Bp.DEBUGGEE_BP_DESCRIPTOR)
  (ReadMemRequest : DEBUGGER_READ_MEMORY) (UserBuffer : Buffer) (ReturnSize : Z)
  : Outcome :=
  let Size_ := Size ReadMemRequest in
  let Address_ := Address ReadMemRequest in
  let MemType := MemoryType ReadMemRequest in
  let fail status buf :=
    {| Returned := false; Request := set_KernelStatus status ReadMemRequest;
       UserBuffer := buf; ReturnSize := ReturnSize |} in
  let finish buf :=
    let ReadMemRequest' :=
      if bool_decide (MemoryType ReadMemRequest = DEBUGGER_READ_VIRTUAL_ADDRESS)
         && GetAddressMode ReadMemRequest
      then
        if (0xFFFF800000000000 <=? Address ReadMemRequest)
           && (Address ReadMemRequest <=? 0xFFFFFFFFFFFFFFFF)
        then set_AddressMode DEBUGGER_READ_ADDRESS_MODE_64_BIT ReadMemRequest
        else
          match UserAccessIsWow64ProcessByEprocess K (PsGetCurrentProcess K) with
          | Some Is32BitProcess =>
              if Is32BitProcess
              then set_AddressMode DEBUGGER_READ_ADDRESS_MODE_32_BIT ReadMemRequest
              else set_AddressMode DEBUGGER_READ_ADDRESS_MODE_64_BIT ReadMemRequest
          | None =>
              set_AddressMode DEBUGGER_READ_ADDRESS_MODE_64_BIT ReadMemRequest
          end
      else ReadMemRequest in
    {| Returned := true;
       Request := set_KernelStatus DEBUGGER_OPERATION_WAS_SUCCESSFUL ReadMemRequest';
       UserBuffer := buf; ReturnSize := Size_ |} in
  if bool_decide (MemType = DEBUGGER_READ_PHYSICAL_ADDRESS) then
    if negb (CheckAddressPhysical K Address_)
    then fail DEBUGGER_ERROR_INVALID_PHYSICAL_ADDRESS UserBuffer
    else finish (MemoryMapperReadMemorySafeByPhysicalAddress K Address_ UserBuffer Size_)
  else if bool_decide (MemType = DEBUGGER_READ_VIRTUAL_ADDRESS) then
    if negb (CheckAccessValidityAndSafety K Address_ Size_)
    then fail DEBUGGER_ERROR_INVALID_ADDRESS UserBuffer
    else
      finish (RestoreBreakpointBytes g_BreakpointsListHead Address_ Size_
                (MemoryMapperReadMemorySafeOnTargetProcess K Address_ UserBuffer Size_))
  else fail DEBUGGER_ERROR_MEMORY_TYPE_INVALID UserBuffer.

End Read.

(** ** MSR access: [DebuggerReadOrWriteMsr] *)

(** The [MsrState] member of one entry of [g_DbgState]. *)
Module MsrState.

Record t : Type := {
  Msr : Z;
  Value : Z
}.

#[global] Instance eq_dec : EqDecision t.
Proof. solve_decision. Defined.

Definition set_Msr (m : Z) (s : t) : t := {| Msr := m; Value := Value s |}.
Definition set_Value (v : Z) (s : t) : t := {| Msr := Msr s; Value := v |}.

End MsrState.

Module Msr.

Inductive DEBUGGER_MSR_ACTION_TYPE : Type :=
| DEBUGGER_MSR_READ
| DEBUGGER_MSR_WRITE
| DEBUGGER_MSR_ACTION_RAW (code : Z).

#[global] Instance DEBUGGER_MSR_ACTION_TYPE_eq_dec :
  EqDecision DEBUGGER_MSR_ACTION_TYPE.
Proof. solve_decision. Defined.

Record DEBUGGER_READ_AND_WRITE_ON_MSR : Type := {
  Msr : Z;
  CoreNumber : Z;
  ActionType : DEBUGGER_MSR_ACTION_TYPE;
  Value : Z
}.

Inductive DPC_ROUTINE : Type :=
| DpcRoutineWriteMsrToAllCores
| DpcRoutineReadMsrToAllCores
| DpcRoutinePerformWriteMsr
| DpcRoutinePerformReadMsr.

(** [g_DbgState] is the array of per-core states, one entry per logical
    processor; every index the function uses is below [ProcessorsCount].
    The DPC primitives run a routine on all cores or on one core and give
    the array as the routine leaves it (and, for one core, the status). *)
Record Services : Type := {
  KeQueryActiveProcessorCount : Z;
  DEBUGGER_READ_AND_WRITE_ON_MSR_APPLY_ALL_CORES : Z;
  KeGenericCallDpc : DPC_ROUTINE -> list MsrState.t -> list MsrState.t;
  DpcRoutineRunTaskOnSingleCore :
    Z -> DPC_ROUTINE -> list MsrState.t -> NTSTATUS * list MsrState.t
}.

Record Outcome : Type := {
  Status : NTSTATUS;
  g_DbgState : list MsrState.t;
  UserBuffer : Buffer;
  ReturnSize : Z
}.

(** [g_DbgState[i].MsrState.Value], read. *)
Definition SlotValue (g : list MsrState.t) (i : Z) : Z :=
  default 0 (MsrState.Value <$> g !! Z.to_nat i).

Definition DebuggerReadOrWriteMsr (K : Services) (g_DbgState : list MsrState.t)
  (ReadOrWriteMsrRequest : DEBUGGER_READ_AND_WRITE_ON_MSR)
  (UserBuffer : Buffer) (ReturnSize : Z) : Outcome :=
  let ProcessorsCount := KeQueryActiveProcessorCount K in
  let Core := CoreNumber ReadOrWriteMsrRequest in
  if bool_decide (ActionType ReadOrWriteMsrRequest = DEBUGGER_MSR_WRITE) then
    if Core =? DEBUGGER_READ_AND_WRITE_ON_MSR_APPLY_ALL_CORES K then
      let g1 :=
        fold_left
          (fun g i =>
             alter (fun s => MsrState.set_Value (Value ReadOrWriteMsrRequest)
                               (MsrState.set_Msr (Msr ReadOrWriteMsrRequest) s))
                   (Z.to_nat i) g)
          (seqZ 0 ProcessorsCount) g_DbgState in
      let g2 := KeGenericCallDpc K DpcRoutineWriteMsrToAllCores g1 in
      {| Status := STATUS_SUCCESS; g_DbgState := g2;
         UserBuffer := UserBuffer; ReturnSize := 0 |}
    else
      if ProcessorsCount <=? Core then
        {| Status := STATUS_INVALID_PARAMETER; g_DbgState := g_DbgState;
           UserBuffer := UserBuffer; ReturnSize := ReturnSize |}
      else
        let g1 :=
          alter (fun s => MsrState.set_Value (Value ReadOrWriteMsrRequest)
                            (MsrState.set_Msr (Msr ReadOrWriteMsrRequest) s))
                (Z.to_nat Core) g_DbgState in
        let '(St, g2) :=
          DpcRoutineRunTaskOnSingleCore K Core DpcRoutinePerformWriteMsr g1 in
        {| Status := St; g_DbgState := g2;
           UserBuffer := UserBuffer; ReturnSize := 0 |}
  else if bool_decide (ActionType ReadOrWriteMsrRequest = DEBUGGER_MSR_READ) then
    if Core =? DEBUGGER_READ_AND_WRITE_ON_MSR_APPLY_ALL_CORES K then
      let g1 :=
        fold_left
          (fun g i =>
             alter (MsrState.set_Msr (Msr ReadOrWriteMsrRequest)) (Z.to_nat i) g)
          (seqZ 0 ProcessorsCount) g_DbgState in
      let g2 := KeGenericCallDpc K DpcRoutineReadMsrToAllCores g1 in
      let UserBuffer' :=
        fold_left (fun b i => store b i (SlotValue g2 i))
          (seqZ 0 ProcessorsCount) UserBuffer in
      {| Status := STATUS_SUCCESS; g_DbgState := g2;
         UserBuffer := UserBuffer'; ReturnSize := 8 * ProcessorsCount |}
    else
      if ProcessorsCount <=? Core then
        {| Status := STATUS_INVALID_PARAMETER; g_DbgState := g_DbgState;
           UserBuffer := UserBuffer; ReturnSize := 0 |}
      else
        let g1 :=
          alter (MsrState.set_Msr (Msr ReadOrWriteMsrRequest))
                (Z.to_nat Core) g_DbgState in
        let '(St, g2) :=
          DpcRoutineRunTaskOnSingleCore K Core DpcRoutinePerformReadMsr g1 in
        if negb (bool_decide (St = STATUS_SUCCESS)) then
          {| Status := St; g_DbgState := g2;
             UserBuffer := UserBuffer; ReturnSize := 0 |}
        else
          {| Status := STATUS_SUCCESS; g_DbgState := g2;
             UserBuffer := store UserBuffer 0 (SlotValue g2 Core);
             ReturnSize := 8 |}
  else
    {| Status := STATUS_UNSUCCESSFUL; g_DbgState := g_DbgState;
       UserBuffer := UserBuffer; ReturnSize := 0 |}.

End Msr.

(** ** Editing memory from vmx-root: [DebuggerCommandEditMemoryVmxRoot] *)

Module Edit.

Inductive DEBUGGER_EDIT_MEMORY_TYPE : Type :=
| EDIT_VIRTUAL_MEMORY
| EDIT_PHYSICAL_MEMORY
| EDIT_MEMORY_TYPE_RAW (code : Z).

#[global] Instance DEBUGGER_EDIT_MEMORY_TYPE_eq_dec :
  EqDecision DEBUGGER_EDIT_MEMORY_TYPE.
Proof. solve_decision. Defined.

(** [ByteSize] is kept as the integer the field holds: the function both
    compares it with the enumerators [EDIT_BYTE], [EDIT_DWORD], [EDIT_QWORD]
    and multiplies it.  [Payload i] is the i-th 64-bit slot that follows the
    header ([EditMemRequest + SIZEOF_DEBUGGER_EDIT_MEMORY + i * 8]). *)
Record DEBUGGER_EDIT_MEMORY : Type := {
  Result : DEBUGGER_STATUS;
  Address : Z;
  ProcessId : Z;
  MemoryType : DEBUGGER_EDIT_MEMORY_TYPE;
  ByteSize : Z;
  CountOf64Chunks : Z;
  Payload : Buffer
}.

Definition set_Result (s : DEBUGGER_STATUS) (r : DEBUGGER_EDIT_MEMORY)
  : DEBUGGER_EDIT_MEMORY :=
  {| Result := s; Address := Address r; ProcessId := ProcessId r;
     MemoryType := MemoryType r; ByteSize := ByteSize r;
     CountOf64Chunks := CountOf64Chunks r; Payload := Payload r |}.

(** The values of the enumerators of [DEBUGGER_EDIT_MEMORY_BYTE_SIZE]; the
    enumeration is declared in the SDK headers. *)
Record ByteSizeEnumerators : Type := {
  EDIT_BYTE : Z;
  EDIT_DWORD : Z;
  EDIT_QWORD : Z
}.

(** The checks and the two safe writers.  A writer is given the destination
    address, the 64-bit slot its source pointer designates and the number of
    bytes to write, and gives the memory as it leaves it. *)
Record Services (Memory : Type) : Type := {
  Enumerators : ByteSizeEnumerators;
  CheckAccessValidityAndSafety : Z -> Z -> bool;
  CheckAddressPhysical : Z -> bool;
  MemoryMapperWriteMemorySafeOnTargetProcess : Z -> Z -> Z -> Memory -> Memory;
  MemoryMapperWriteMemorySafeByPhysicalAddress : Z -> Z -> Z -> Memory -> Memory
}.

Arguments Enumerators {Memory} _.
Arguments CheckAccessValidityAndSafety {Memory} _ _ _.
Arguments CheckAddressPhysical {Memory} _ _.
Arguments MemoryMapperWriteMemorySafeOnTargetProcess {Memory} _ _ _ _ _.
Arguments MemoryMapperWriteMemorySafeByPhysicalAddress {Memory} _ _ _ _ _.

Record Outcome (Memory : Type) : Type := {
  Returned : bool;
  Request : DEBUGGER_EDIT_MEMORY;
  Mem : Memory
}.

Arguments Returned {Memory} _.
Arguments Request {Memory} _.
Arguments Mem {Memory} _.

(** The chunk length chosen by the chain of comparisons on [ByteSize]. *)
Definition LengthOfEachChunk (E : ByteSizeEnumerators) (ByteSize_ : Z)
  : option Z :=
  if ByteSize_ =? EDIT_BYTE E then Some 1
  else if ByteSize_ =? EDIT_DWORD E then Some 4
  else if ByteSize_ =? EDIT_QWORD E then Some 8
  else None.

(** The [for] loop that writes the chunks, [i] from 0 up to
    [CountOf64Chunks - 1]. *)
Definition WriteChunks {Memory : Type}
  (Write : Z -> Z -> Z -> Memory -> Memory)
  (EditMemRequest : DEBUGGER_EDIT_MEMORY) (Length : Z) (m : Memory) : Memory :=
  fold_left
    (fun m i =>
       let DestinationAddress := wrap64 (Address EditMemRequest + i * Length) in
       let Source := Payload EditMemRequest i in
       Write DestinationAddress Source Length m)
    (seqZ 0 (CountOf64Chunks EditMemRequest)) m.

Definition DebuggerCommandEditMemoryVmxRoot {Memory : Type} (K : Services Memory)
  (EditMemRequest : DEBUGGER_EDIT_MEMORY) (m : Memory) : Outcome Memory :=
  match LengthOfEachChunk (Enumerators K) (ByteSize EditMemRequest) with
  | None =>
      {| Returned := false;
         Request := set_Result DEBUGGER_ERROR_EDIT_MEMORY_STATUS_INVALID_PARAMETER
                      EditMemRequest;
         Mem := m |}
  | Some Length =>
      if bool_decide (MemoryType EditMemRequest = EDIT_VIRTUAL_MEMORY) then
        if negb (CheckAccessValidityAndSafety K (Address EditMemRequest)
                   (wrap32 (ByteSize EditMemRequest * CountOf64Chunks EditMemRequest)))
        then
          {| Returned := false;
             Request := set_Result DEBUGGER_ERROR_INVALID_ADDRESS EditMemRequest;
             Mem := m |}
        else
          {| Returned := true;
             Request := set_Result DEBUGGER_OPERATION_WAS_SUCCESSFUL EditMemRequest;
             Mem := WriteChunks (MemoryMapperWriteMemorySafeOnTargetProcess K)
                      EditMemRequest Length m |}
      else if bool_decide (MemoryType EditMemRequest = EDIT_PHYSICAL_MEMORY) then
        if negb (CheckAddressPhysical K (Address EditMemRequest))
        then
          {| Returned := false;
             Request := set_Result DEBUGGER_ERROR_INVALID_ADDRESS EditMemRequest;
             Mem := m |}
        else
          {| Returned := true;
             Request := set_Result DEBUGGER_OPERATION_WAS_SUCCESSFUL EditMemRequest;
             Mem := WriteChunks (MemoryMapperWriteMemorySafeByPhysicalAddress K)
                      EditMemRequest Length m |}
      else
        {| Returned := false;
           Request := set_Result DEBUGGER_ERROR_EDIT_MEMORY_STATUS_INVALID_PARAMETER
                        EditMemRequest;
           Mem := m |}
  end.

End Edit.

(** ** Searching memory: [PerformSearchAddress], [SearchAddressWrapper] and
       [DebuggerCommandSearchMemory] *)

Module Search.

Inductive DEBUGGER_SEARCH_MEMORY_TYPE : Type :=
| SEARCH_PHYSICAL_MEMORY
| SEARCH_VIRTUAL_MEMORY
| SEARCH_PHYSICAL_FROM_VIRTUAL_MEMORY
| SEARCH_MEMORY_TYPE_RAW (code : Z).

#[global] Instance DEBUGGER_SEARCH_MEMORY_TYPE_eq_dec :
  EqDecision DEBUGGER_SEARCH_MEMORY_TYPE.
Proof. solve_decision. Defined.

Inductive DEBUGGER_SEARCH_MEMORY_BYTE_SIZE : Type :=
| SEARCH_BYTE
| SEARCH_DWORD
| SEARCH_QWORD
| SEARCH_BYTE_SIZE_RAW (code : Z).

(** [Payload i] is the i-th 64-bit slot of the pattern, stored after the
    header ([SearchMemRequest + SIZEOF_DEBUGGER_SEARCH_MEMORY + i * 8]). *)
Record DEBUGGER_SEARCH_MEMORY : Type := {
  Address : Z;
  Length : Z;
  ProcessId : Z;
  MemoryType : DEBUGGER_SEARCH_MEMORY_TYPE;
  ByteSize : DEBUGGER_SEARCH_MEMORY_BYTE_SIZE;
  CountOf64Chunks : Z;
  Payload : Buffer
}.

Definition set_Address_MemoryType (a : Z) (t : DEBUGGER_SEARCH_MEMORY_TYPE)
  (r : DEBUGGER_SEARCH_MEMORY) : DEBUGGER_SEARCH_MEMORY :=
  {| Address := a; Length := Length r; ProcessId := ProcessId r;
     MemoryType := t; ByteSize := ByteSize r;
     CountOf64Chunks := CountOf64Chunks r; Payload := Payload r |}.

Definition PAGE_SIZE : Z := 0x1000.

(** [PAGE_ALIGN(Va)] is [Va & ~(PAGE_SIZE - 1)]. *)
Definition PAGE_ALIGN (Va : Z) : Z := Z.land Va (Z.lnot (PAGE_SIZE - 1)).

(** Constants and routines from the rest of the driver.

    The search runs between a switch to the memory layout of the target
    process and the switch back; [VirtualAddressToPhysicalAddress] and
    [Memory] are the translation and the bytes as seen under that layout.
    [Memory a] is the byte a plain copy reads at [a];
    [MemoryMapperReadMemorySafe a n] is the little-endian value of the [n]
    bytes that the safe reader copies from [a].
    [PlatformMemAllocateZeroedNonPagedPool n] tells whether the allocation
    of [n] bytes succeeds.
    The fault that a copy from an unmapped page raises is not represented:
    [Memory] is total, and the scan records every address it fetches a
    chunk from. *)
Record Services : Type := {
  MaximumSearchResults : Z;
  PsGetCurrentProcessId : Z;
  CommonIsProcessExist : Z -> bool;
  PlatformMemAllocateZeroedNonPagedPool : Z -> bool;
  VirtualAddressToPhysicalAddress : Z -> Z;
  PhysicalAddressToVirtualAddress : Z -> Z;
  PhysicalAddressToVirtualAddressByProcessId : Z -> Z -> Z;
  PhysicalAddressToVirtualAddressOnTargetProcess : Z -> Z;
  Memory : Z -> Z;
  MemoryMapperReadMemorySafe : Z -> Z -> Z
}.

Definition LengthOfEachChunk (b : DEBUGGER_SEARCH_MEMORY_BYTE_SIZE) : option Z :=
  match b with
  | SEARCH_BYTE => Some 1
  | SEARCH_DWORD => Some 4
  | SEARCH_QWORD => Some 8
  | SEARCH_BYTE_SIZE_RAW _ => None
  end.

(** The value of a sequence of bytes laid out least significant first. *)
Fixpoint LittleEndian (bytes : list Z) : Z :=
  match bytes with
  | [] => 0
  | b :: rest => b mod 256 + 256 * LittleEndian rest
  end.

(** The [n] bytes a copy of length [n] takes from address [a]. *)
Definition ChunkAt (K : Services) (IsDebuggeePaused : bool) (a n : Z) : Z :=
  if IsDebuggeePaused
  then MemoryMapperReadMemorySafe K a n mod 2 ^ (8 * n)
  else LittleEndian (map (fun k => Memory K (wrap64 (a + k))) (seqZ 0 n)).

(** The locals of [PerformSearchAddress] that change during the scan, the
    result array, the lines sent to [Log], and the addresses from which a
    chunk was fetched for comparison (both most recent first). *)
Record Scan : Type := {
  Cmp64 : Z;
  CountOfOccurance : Z;
  IndexToArrayOfResults : Z;
  AddressToSaveResults : Buffer;
  Logged : list Z;
  Compared : list Z
}.

(** A copy of [n] bytes into [&Cmp64] replaces its [n] low bytes and
    keeps the others. *)
Definition CopyIntoCmp64 (K : Services) (IsDebuggeePaused : bool)
  (a n : Z) (s : Scan) : Scan :=
  {| Cmp64 := Cmp64 s - Cmp64 s mod 2 ^ (8 * n) + ChunkAt K IsDebuggeePaused a n;
     CountOfOccurance := CountOfOccurance s;
     IndexToArrayOfResults := IndexToArrayOfResults s;
     AddressToSaveResults := AddressToSaveResults s;
     Logged := Logged s;
     Compared := a :: Compared s |}.

(** The inner [for] loop, entered with [i = LengthOfEachChunk]; [n] bounds
    the turns left, [CountOf64Chunks - i].  Gives [StillMatch].  [TempValue]
    is slot [i] of the request, read directly or, when the debuggee is
    paused, through the safe reader. *)
Fixpoint VerifyRemaining (K : Services) (IsDebuggeePaused : bool)
  (SearchMemRequest : DEBUGGER_SEARCH_MEMORY) (Len BaseIterator : Z)
  (n : nat) (i : Z) (s : Scan) : bool * Scan :=
  match n with
  | O => (true, s)
  | S n' =>
      let s1 :=
        CopyIntoCmp64 K IsDebuggeePaused (wrap64 (BaseIterator + Len * i)) Len s in
      let TempValue := Payload SearchMemRequest i in
      if negb (Cmp64 s1 =? TempValue)
      then (false, s1)
      else VerifyRemaining K IsDebuggeePaused SearchMemRequest Len BaseIterator
             n' (i + 1) s1
  end.

(** What is done with a matching address: logged when the debuggee is
    paused, stored at [IndexToArrayOfResults] otherwise. *)
Definition SaveMatch (K : Services) (IsDebuggeePaused : bool)
  (SearchMemRequest : DEBUGGER_SEARCH_MEMORY) (BaseIterator : Z) (s : Scan)
  : Scan :=
  let v :=
    if bool_decide (MemoryType SearchMemRequest = SEARCH_PHYSICAL_FROM_VIRTUAL_MEMORY)
    then VirtualAddressToPhysicalAddress K BaseIterator
    else BaseIterator in
  {| Cmp64 := Cmp64 s;
     CountOfOccurance := wrap32 (CountOfOccurance s + 1);
     IndexToArrayOfResults := IndexToArrayOfResults s;
     AddressToSaveResults :=
       if IsDebuggeePaused then AddressToSaveResults s
       else store (AddressToSaveResults s) (IndexToArrayOfResults s) v;
     Logged := if IsDebuggeePaused then v :: Logged s else Logged s;
     Compared := Compared s |}.

Definition NextIndex (s : Scan) : Scan :=
  {| Cmp64 := Cmp64 s;
     CountOfOccurance := CountOfOccurance s;
     IndexToArrayOfResults := wrap32 (IndexToArrayOfResults s + 1);
     AddressToSaveResults := AddressToSaveResults s;
     Logged := Logged s;
     Compared := Compared s |}.

Inductive LoopExit : Type :=
| RangeExhausted (s : Scan)
| ResultBufferFull (s : Scan).

(** The outer [for] loop over [BaseIterator]. *)
Fixpoint ScanRange (K : Services) (IsDebuggeePaused : bool)
  (SearchMemRequest : DEBUGGER_SEARCH_MEMORY) (Len EndAddress : Z)
  (fuel : nat) (BaseIterator : Z) (s : Scan) : option LoopExit :=
  match fuel with
  | O => None
  | S fuel' =>
      if BaseIterator <? EndAddress then
        let continue :=
          ScanRange K IsDebuggeePaused SearchMemRequest Len EndAddress fuel'
            (wrap64 (BaseIterator + Len)) in
        let s1 := CopyIntoCmp64 K IsDebuggeePaused BaseIterator Len s in
        let TempValue := Payload SearchMemRequest 0 in
        if Cmp64 s1 =? TempValue then
          let '(StillMatch, s2) :=
            VerifyRemaining K IsDebuggeePaused SearchMemRequest Len BaseIterator
              (Z.to_nat (CountOf64Chunks SearchMemRequest - Len)) Len s1 in
          if StillMatch then
            let s3 := SaveMatch K IsDebuggeePaused SearchMemRequest BaseIterator s2 in
            if IndexToArrayOfResults s3 <? MaximumSearchResults K
            then continue (NextIndex s3)
            else Some (ResultBufferFull s3)
          else continue s2
        else continue s1
      else Some (RangeExhausted s)
  end.

Record Outcome : Type := {
  Returned : bool;
  CountOfMatchedCases : Z;
  Results : Buffer;
  LogLines : list Z;
  ComparedAt : list Z
}.

Definition PerformSearchAddress (K : Services) (fuel : nat)
  (AddressToSaveResults_ : Buffer) (SearchMemRequest : DEBUGGER_SEARCH_MEMORY)
  (StartAddress EndAddress : Z) (IsDebuggeePaused : bool)
  (CountOfMatchedCases_ : Z) : option Outcome :=
  let refused :=
    {| Returned := false; CountOfMatchedCases := CountOfMatchedCases_;
       Results := AddressToSaveResults_; LogLines := []; ComparedAt := [] |} in
  match LengthOfEachChunk (ByteSize SearchMemRequest) with
  | None => Some refused
  | Some Len =>
      if bool_decide (MemoryType SearchMemRequest = SEARCH_VIRTUAL_MEMORY)
         || bool_decide (MemoryType SearchMemRequest = SEARCH_PHYSICAL_FROM_VIRTUAL_MEMORY)
      then
        let s0 :=
          {| Cmp64 := 0; CountOfOccurance := 0; IndexToArrayOfResults := 0;
             AddressToSaveResults := AddressToSaveResults_;
             Logged := []; Compared := [] |} in
        match ScanRange K IsDebuggeePaused SearchMemRequest Len EndAddress
                fuel StartAddress s0 with
        | None => None
        | Some (RangeExhausted s) | Some (ResultBufferFull s) =>
            Some {| Returned := true;
                    CountOfMatchedCases := CountOfOccurance s;
                    Results := AddressToSaveResults s;
                    LogLines := Logged s; ComparedAt := Compared s |}
        end
      else Some refused
  end.

(** The [while] loop of [SearchAddressWrapper] that looks for the end of the
    mapped pages.  Gives [StartAddress], [BaseAddress], [DoesBaseAddrSaved]
    as the loop leaves them. *)
Fixpoint WalkPages (K : Services) (EndAddress TempStartAddress : Z)
  (fuel : nat) (StartAddress BaseAddress : Z) (DoesBaseAddrSaved : bool)
  : option (Z * Z * bool) :=
  match fuel with
  | O => None
  | S fuel' =>
      if StartAddress <? EndAddress then
        let TempValue := VirtualAddressToPhysicalAddress K StartAddress in
        if negb (TempValue =? 0) then
          let BaseAddress' := if negb DoesBaseAddrSaved then TempStartAddress else BaseAddress in
          WalkPages K EndAddress TempStartAddress fuel'
            (wrap64 (StartAddress + PAGE_SIZE)) BaseAddress' true
        else Some (StartAddress, BaseAddress, DoesBaseAddrSaved)
      else Some (StartAddress, BaseAddress, DoesBaseAddrSaved)
  end.

Definition SearchAddressWrapper (K : Services) (fuel : nat)
  (AddressToSaveResults_ : Buffer) (SearchMemRequest : DEBUGGER_SEARCH_MEMORY)
  (StartAddress EndAddress : Z) (IsDebuggeePaused : bool)
  (CountOfMatchedCases_ : Z) : option Outcome :=
  let CountOfMatchedCases0 := 0 in
  let refused :=
    {| Returned := false; CountOfMatchedCases := CountOfMatchedCases0;
       Results := AddressToSaveResults_; LogLines := []; ComparedAt := [] |} in
  if bool_decide (MemoryType SearchMemRequest = SEARCH_VIRTUAL_MEMORY) then
    let TempStartAddress := StartAddress in
    match WalkPages K EndAddress TempStartAddress fuel
            (PAGE_ALIGN StartAddress) 0 false with
    | None => None
    | Some (StartAddress', BaseAddress, DoesBaseAddrSaved) =>
        if DoesBaseAddrSaved && (BaseAddress <? StartAddress') then
          PerformSearchAddress K fuel AddressToSaveResults_ SearchMemRequest
            BaseAddress EndAddress IsDebuggeePaused CountOfMatchedCases0
        else Some refused
    end
  else if bool_decide (MemoryType SearchMemRequest = SEARCH_PHYSICAL_MEMORY) then
    let '(Address', EndAddress') :=
      if IsDebuggeePaused then
        (PhysicalAddressToVirtualAddressOnTargetProcess K StartAddress,
         PhysicalAddressToVirtualAddressOnTargetProcess K EndAddress)
      else if ProcessId SearchMemRequest =? PsGetCurrentProcessId K then
        (PhysicalAddressToVirtualAddress K StartAddress,
         PhysicalAddressToVirtualAddress K EndAddress)
      else
        (PhysicalAddressToVirtualAddressByProcessId K StartAddress
           (ProcessId SearchMemRequest),
         PhysicalAddressToVirtualAddressByProcessId K EndAddress
           (ProcessId SearchMemRequest)) in
    PerformSearchAddress K fuel AddressToSaveResults_
      (set_Address_MemoryType Address' SEARCH_PHYSICAL_FROM_VIRTUAL_MEMORY
         SearchMemRequest)
      Address' EndAddress' IsDebuggeePaused CountOfMatchedCases0
  else Some refused.

(** The loop of [DebuggerCommandSearchMemory] that moves the results to the
    user-mode buffer; [n] bounds the turns left, [MaximumSearchResults - i]. *)
Fixpoint MoveResults (SearchResultsStorage : Buffer) (AddressFrom AddressTo : Z)
  (n : nat) (i ResultsIndex : Z) (UsermodeBuffer : Buffer) : Buffer :=
  match n with
  | O => UsermodeBuffer
  | S n' =>
      let CurrentValue := SearchResultsStorage i in
      if CurrentValue =? 0 then UsermodeBuffer
      else if (AddressFrom <=? CurrentValue) && (CurrentValue <=? AddressTo) then
        MoveResults SearchResultsStorage AddressFrom AddressTo n' (i + 1)
          (wrap32 (ResultsIndex + 1)) (store UsermodeBuffer ResultsIndex CurrentValue)
      else
        MoveResults SearchResultsStorage AddressFrom AddressTo n' (i + 1)
          ResultsIndex UsermodeBuffer
  end.

(** [UsermodeBuffer] is the request buffer seen as an array of UINT64, which
    the function clears and then fills with the results. *)
Definition DebuggerCommandSearchMemory (K : Services) (fuel : nat)
  (SearchMemRequest : DEBUGGER_SEARCH_MEMORY) (UsermodeBuffer : Buffer)
  : option (NTSTATUS * Buffer) :=
  if negb (ProcessId SearchMemRequest =? PsGetCurrentProcessId K)
     && negb (CommonIsProcessExist K (ProcessId SearchMemRequest))
  then Some (STATUS_INVALID_PARAMETER, UsermodeBuffer)
  else
    let AddressFrom := Address SearchMemRequest in
    let AddressTo := wrap64 (Address SearchMemRequest + Length SearchMemRequest) in
    if negb (PlatformMemAllocateZeroedNonPagedPool K (MaximumSearchResults K * 8))
    then Some (STATUS_INSUFFICIENT_RESOURCES, UsermodeBuffer)
    else
      match SearchAddressWrapper K fuel (fun _ => 0) SearchMemRequest
              AddressFrom AddressTo false 0 with
      | None => None
      | Some o =>
          let Zeroed : Buffer :=
            fun j => if (0 <=? j) && (j <? MaximumSearchResults K) then 0
                     else UsermodeBuffer j in
          Some (STATUS_SUCCESS,
                MoveResults (Results o) AddressFrom AddressTo
                  (Z.to_nat (MaximumSearchResults K)) 0 0 Zeroed)
      end.

End Search.

(** ** Notions used to state the properties of the search *)

Module Pattern.

Section Notions.

Variable K : Search.Services.
Variable IsDebuggeePaused : bool.
Variable SearchMemRequest : Search.DEBUGGER_SEARCH_MEMORY.
Variable Len : Z.

(** Chunk [i] of the pattern equals the chunk of memory [i] chunks after [a]. *)
Definition ChunkMatches (a i : Z) : bool :=
  Search.ChunkAt K IsDebuggeePaused (wrap64 (a + Len * i)) Len
  =? Search.Payload SearchMemRequest i.

(** All the chunks of the pattern, 0 to [CountOf64Chunks - 1], match at [a]. *)
Definition AllChunksMatch (a : Z) : bool :=
  forallb (ChunkMatches a) (seqZ 0 (Search.CountOf64Chunks SearchMemRequest)).

(** The comparisons that the scan makes at [a]: the chunk at [a] against
    chunk 0, then the chunks whose index runs from [Len] to
    [CountOf64Chunks - 1]. *)
Definition ComparisonsPass (a : Z) : bool :=
  (Search.ChunkAt K IsDebuggeePaused a Len =? Search.Payload SearchMemRequest 0)
  && forallb (ChunkMatches a)
       (seqZ Len (Search.CountOf64Chunks SearchMemRequest - Len)).

(** The candidate positions of a scan of [[StartAddress, EndAddress)]:
    [StartAddress], [StartAddress + Len], ... below [EndAddress]. *)
Definition Positions (StartAddress EndAddress : Z) : list Z :=
  (fun k => StartAddress + Len * k)
    <$> seqZ 0 ((EndAddress - StartAddress + Len - 1) / Len).

(** The positions of the range at which the comparisons of the scan pass,
    in increasing order. *)
Definition Passing (StartAddress EndAddress : Z) : list Z :=
  List.filter ComparisonsPass (Positions StartAddress EndAddress).

(** The value saved for a match at [a]. *)
Definition SavedValue (a : Z) : Z :=
  if bool_decide (Search.MemoryType SearchMemRequest
                  = Search.SEARCH_PHYSICAL_FROM_VIRTUAL_MEMORY)
  then Search.VirtualAddressToPhysicalAddress K a
  else a.

(** [Cmp64] holds no more than a chunk: its bytes above the chunk length
    are zero. *)
Definition Cmp64Fits (s : Search.Scan) : Prop :=
  0 <= Search.Cmp64 s < 2 ^ (8 * Len).

(** The part of the state of the scan that the caller can observe. *)
Definition Observable (s : Search.Scan) : Z * Z * Buffer * list Z :=
  (Search.CountOfOccurance s, Search.IndexToArrayOfResults s,
   Search.AddressToSaveResults s, Search.Logged s).

Definition ExitObservable (e : Search.LoopExit) : bool * (Z * Z * Buffer * list Z) :=
  match e with
  | Search.RangeExhausted s => (false, Observable s)
  | Search.ResultBufferFull s => (true, Observable s)
  end.

Definition ExitState (e : Search.LoopExit) : Search.Scan :=
  match e with
  | Search.RangeExhausted s | Search.ResultBufferFull s => s
  end.

(** The bookkeeping of the scan alone, run over a list of matching
    positions. *)
Fixpoint Replay (ms : list Z) (s : Search.Scan) : Search.LoopExit :=
  match ms with
  | [] => Search.RangeExhausted s
  | m :: rest =>
      let s3 := Search.SaveMatch K IsDebuggeePaused SearchMemRequest m s in
      if Search.IndexToArrayOfResults s3 <? Search.MaximumSearchResults K
      then Replay rest (Search.NextIndex s3)
      else Search.ResultBufferFull s3
  end.

End Notions.

End Pattern.

(** ** Concrete scenarios

    Small closed instances of the services and requests, on which the
    functions above can be run. *)

Module Scenario.

(** A memory whose byte at address [a] is the low byte of [a], except for a
    trap opcode at 0x1002 and at 0x1004. *)
Definition target_memory (a : Z) : Z :=
  if (a =? 0x1002) || (a =? 0x1004) then 0xcc else a mod 256.

(** A copy of [n] bytes of [target_memory] from address [a] to the start of
    the buffer. *)
Definition copy_from_target (a : Z) (b : Buffer) (n : Z) : Buffer :=
  fun j => if (0 <=? j) && (j <? n) then target_memory (wrap64 (a + j)) else b j.

Definition read_services : Read.Services :=
  {| Read.MemoryManagerReadProcessMemoryNormal :=
       fun _ a _ b n _ => (true, copy_from_target a b n, n);
     Read.UserAccessIsWow64Process :=
       fun pid => if pid =? 4 then Some true else if pid =? 8 then Some false else None;
     Read.PsGetCurrentProcess := 4;
     Read.UserAccessIsWow64ProcessByEprocess :=
       fun p => if p =? 4 then Some true else None;
     Read.CheckAddressPhysical := fun _ => true;
     Read.CheckAccessValidityAndSafety := fun _ _ => true;
     Read.MemoryMapperReadMemorySafeByPhysicalAddress := copy_from_target;
     Read.MemoryMapperReadMemorySafeOnTargetProcess := copy_from_target |}.

Definition read_request (pid address size : Z) : Read.DEBUGGER_READ_MEMORY :=
  {| Read.Pid := pid; Read.Address := address; Read.Size := size;
     Read.GetAddressMode := true;
     Read.AddressMode := Read.DEBUGGER_READ_ADDRESS_MODE_RAW 0;
     Read.MemoryType := Read.DEBUGGER_READ_VIRTUAL_ADDRESS;
     Read.KernelStatus := DEBUGGER_STATUS_RAW 0 |}.

(** A caller's buffer that holds 0xcc everywhere. *)
Definition buffer_of_traps : Buffer := fun _ => 0xcc.

(** Breakpoints at 0x1002 (inside a read of 4 bytes at 0x1000) and at
    0x1004 (its end). *)
Definition breakpoints : list Bp.DEBUGGEE_BP_DESCRIPTOR :=
  [ {| Bp.Address := 0x1002; Bp.PreviousByte := 0x90 |};
    {| Bp.Address := 0x1004; Bp.PreviousByte := 0x55 |} ].

(** Four logical processors.  A routine run on a core reads or writes that
    core's MSR file, which holds [1000 * core + msr] in every register. *)
Definition msr_services : Msr.Services :=
  {| Msr.KeQueryActiveProcessorCount := 4;
     Msr.DEBUGGER_READ_AND_WRITE_ON_MSR_APPLY_ALL_CORES := 0xffffffff;
     Msr.KeGenericCallDpc :=
       fun routine g =>
         match routine with
         | Msr.DpcRoutineReadMsrToAllCores =>
             imap (fun core s =>
                     MsrState.set_Value (1000 * Z.of_nat core + MsrState.Msr s) s) g
         | _ => g
         end;
     Msr.DpcRoutineRunTaskOnSingleCore :=
       fun core routine g =>
         match routine with
         | Msr.DpcRoutinePerformReadMsr =>
             (STATUS_SUCCESS,
              alter (fun s => MsrState.set_Value (1000 * core + MsrState.Msr s) s)
                (Z.to_nat core) g)
         | _ => (STATUS_SUCCESS, g)
         end |}.

Definition msr_slots : list MsrState.t :=
  [ {| MsrState.Msr := 1; MsrState.Value := 11 |};
    {| MsrState.Msr := 2; MsrState.Value := 22 |};
    {| MsrState.Msr := 3; MsrState.Value := 33 |};
    {| MsrState.Msr := 4; MsrState.Value := 44 |} ].

Definition msr_request (action : Msr.DEBUGGER_MSR_ACTION_TYPE) (core : Z)
  : Msr.DEBUGGER_READ_AND_WRITE_ON_MSR :=
  {| Msr.Msr := 0xC0000082; Msr.CoreNumber := core; Msr.ActionType := action;
     Msr.Value := 0x1234 |}.

(** The values a C compiler gives to three enumerators declared in this
    order without initialisers. *)
Definition enumerators_in_declaration_order : Edit.ByteSizeEnumerators :=
  {| Edit.EDIT_BYTE := 0; Edit.EDIT_DWORD := 1; Edit.EDIT_QWORD := 2 |}.

(** Enumerators whose values are the chunk lengths. *)
Definition enumerators_as_lengths : Edit.ByteSizeEnumerators :=
  {| Edit.EDIT_BYTE := 1; Edit.EDIT_DWORD := 4; Edit.EDIT_QWORD := 8 |}.

(** A writer that stores the [n] low bytes of [slot] at [a], least
    significant first. *)
Fixpoint write_bytes (n : nat) (a slot : Z) (m : Buffer) : Buffer :=
  match n with
  | O => m
  | S n' => write_bytes n' (wrap64 (a + 1)) (slot / 256) (store m a (slot mod 256))
  end.

(** Only the eight bytes from 0x1000 are valid and safe to access. *)
Definition edit_services (E : Edit.ByteSizeEnumerators) : Edit.Services Buffer :=
  {| Edit.Enumerators := E;
     Edit.CheckAccessValidityAndSafety :=
       fun a size => (0x1000 <=? a) && (a + size <=? 0x1008);
     Edit.CheckAddressPhysical := fun _ => true;
     Edit.MemoryMapperWriteMemorySafeOnTargetProcess :=
       fun a slot n m => write_bytes (Z.to_nat n) a slot m;
     Edit.MemoryMapperWriteMemorySafeByPhysicalAddress :=
       fun a slot n m => write_bytes (Z.to_nat n) a slot m |}.

(** An edit of [count] chunks at 0x1000; slot [i] of the payload holds
    [0xA0 + i]. *)
Definition edit_request (byte_size count : Z) : Edit.DEBUGGER_EDIT_MEMORY :=
  {| Edit.Result := DEBUGGER_STATUS_RAW 0; Edit.Address := 0x1000;
     Edit.ProcessId := 4; Edit.MemoryType := Edit.EDIT_VIRTUAL_MEMORY;
     Edit.ByteSize := byte_size; Edit.CountOf64Chunks := count;
     Edit.Payload := fun i => 0xA0 + i |}.

Definition zero_memory : Buffer := fun _ => 0.

(** Search services over a given memory: [mapped a] tells whether the page
    of [a] has a physical mapping; a mapped virtual address [a] translates
    to [a + 0x100000]; the safe reader reads the same bytes as a plain
    copy. *)
Definition search_services (max : Z) (mapped : Z -> bool) (memory : Z -> Z)
  : Search.Services :=
  {| Search.MaximumSearchResults := max;
     Search.PsGetCurrentProcessId := 4;
     Search.CommonIsProcessExist := fun _ => true;
     Search.PlatformMemAllocateZeroedNonPagedPool := fun _ => true;
     Search.VirtualAddressToPhysicalAddress :=
       fun a => if mapped a then a + 0x100000 else 0;
     Search.PhysicalAddressToVirtualAddress := fun a => a - 0x100000;
     Search.PhysicalAddressToVirtualAddressByProcessId := fun a _ => a - 0x100000;
     Search.PhysicalAddressToVirtualAddressOnTargetProcess := fun a => a - 0x100000;
     Search.Memory := memory;
     Search.MemoryMapperReadMemorySafe :=
       fun a n => Search.LittleEndian (map (fun k => memory (wrap64 (a + k))) (seqZ 0 n)) |}.

Definition search_request (address size : Z)
  (byte_size : Search.DEBUGGER_SEARCH_MEMORY_BYTE_SIZE) (pattern : list Z)
  : Search.DEBUGGER_SEARCH_MEMORY :=
  {| Search.Address := address; Search.Length := size; Search.ProcessId := 4;
     Search.MemoryType := Search.SEARCH_VIRTUAL_MEMORY;
     Search.ByteSize := byte_size;
     Search.CountOf64Chunks := Z.of_nat (length pattern);
     Search.Payload := fun i => nth (Z.to_nat i) pattern 0 |}.

Definition all_mapped (a : Z) : bool := true.

(** The pages at 0x1000 and 0x3000 are mapped, the page at 0x2000 between
    them is not. *)
Definition hole_at_0x2000 (a : Z) : bool :=
  ((0x1000 <=? a) && (a <? 0x2000)) || ((0x3000 <=? a) && (a <? 0x4000)).

(** Eight bytes 0x41 at 0x3000, zero elsewhere. *)
Definition memory_with_pattern_at_0x3000 (a : Z) : Z :=
  if (0x3000 <=? a) && (a <? 0x3008) then 0x41 else 0.

(** The dword 0x11 at 0x1000 followed by the dword 0x33 at 0x1004. *)
Definition memory_with_two_dwords (a : Z) : Z :=
  if a =? 0x1000 then 0x11 else if a =? 0x1004 then 0x33 else 0.

End Scenario.

(** ** Editing memory from the normal context: [DebuggerCommandEditMemory] *)

Module EditNormal.

(** The values this function leaves in [EditMemRequest->Result]. *)
Inductive EDIT_MEMORY_RESULT : Type :=
| Status (s : DEBUGGER_STATUS)
| DEBUGGER_ERROR_EDIT_MEMORY_STATUS_INVALID_ADDRESS_BASED_ON_CURRENT_PROCESS
| DEBUGGER_ERROR_EDIT_MEMORY_STATUS_INVALID_ADDRESS_BASED_ON_OTHER_PROCESS.

(** The translations, the check of a physical address and the two writers.
    [MemoryMapperWriteMemoryUnsafe] is given the destination address, the
    64-bit slot its source pointer designates, the number of bytes and the
    process id; [MemoryManagerWritePhysicalMemoryNormal] the destination,
    the slot and the number of bytes, and also gives the BOOLEAN it
    returns. *)
Record Services (Memory : Type) : Type := {
  Enumerators : Edit.ByteSizeEnumerators;
  PsGetCurrentProcessId : Z;
  VirtualAddressToPhysicalAddress : Z -> Z;
  VirtualAddressToPhysicalAddressByProcessId : Z -> Z -> Z;
  CheckAddressPhysical : Z -> bool;
  MemoryMapperWriteMemoryUnsafe : Z -> Z -> Z -> Z -> Memory -> Memory;
  MemoryManagerWritePhysicalMemoryNormal : Z -> Z -> Z -> Memory -> bool * Memory
}.

Arguments Enumerators {Memory} _.
Arguments PsGetCurrentProcessId {Memory} _.
Arguments VirtualAddressToPhysicalAddress {Memory} _ _.
Arguments VirtualAddressToPhysicalAddressByProcessId {Memory} _ _ _.
Arguments CheckAddressPhysical {Memory} _ _.
Arguments MemoryMapperWriteMemoryUnsafe {Memory} _ _ _ _ _ _.
Arguments MemoryManagerWritePhysicalMemoryNormal {Memory} _ _ _ _ _.

(** The NTSTATUS returned, the value of [EditMemRequest->Result] (the only
    field of the request that the function writes) and the memory. *)
Record Outcome (Memory : Type) : Type := {
  Returned : NTSTATUS;
  Result : EDIT_MEMORY_RESULT;
  Mem : Memory
}.

Arguments Returned {Memory} _.
Arguments Result {Memory} _.
Arguments Mem {Memory} _.

(** The [for] loop over the chunks of a physical edit, which returns at
    the first write that fails; [n] bounds the turns left,
    [CountOf64Chunks - i].  Gives FALSE when a write failed. *)
Fixpoint WritePhysicalChunks {Memory : Type} (K : Services Memory)
  (EditMemRequest : Edit.DEBUGGER_EDIT_MEMORY) (Length : Z)
  (n : nat) (i : Z) (m : Memory) : bool * Memory :=
  match n with
  | O => (true, m)
  | S n' =>
      let DestinationAddress := wrap64 (Edit.Address EditMemRequest + i * Length) in
      let Source := Edit.Payload EditMemRequest i in
      let '(ok, m') :=
        MemoryManagerWritePhysicalMemoryNormal K DestinationAddress Source Length m in
      if negb ok then (false, m')
      else WritePhysicalChunks K EditMemRequest Length n' (i + 1) m'
  end.

Definition DebuggerCommandEditMemory {Memory : Type} (K : Services Memory)
  (EditMemRequest : Edit.DEBUGGER_EDIT_MEMORY) (m : Memory) : Outcome Memory :=
  let fail r m' := {| Returned := STATUS_UNSUCCESSFUL; Result := r; Mem := m' |} in
  let succeed m' :=
    {| Returned := STATUS_SUCCESS;
       Result := Status DEBUGGER_OPERATION_WAS_SUCCESSFUL; Mem := m' |} in
  match Edit.LengthOfEachChunk (Enumerators K) (Edit.ByteSize EditMemRequest) with
  | None =>
      fail (Status DEBUGGER_ERROR_EDIT_MEMORY_STATUS_INVALID_PARAMETER) m
  | Some Length =>
      if bool_decide (Edit.MemoryType EditMemRequest = Edit.EDIT_VIRTUAL_MEMORY) then
        if (Edit.ProcessId EditMemRequest =? PsGetCurrentProcessId K)
           && (VirtualAddressToPhysicalAddress K (Edit.Address EditMemRequest) =? 0)
        then
          fail DEBUGGER_ERROR_EDIT_MEMORY_STATUS_INVALID_ADDRESS_BASED_ON_CURRENT_PROCESS m
        else if VirtualAddressToPhysicalAddressByProcessId K
                  (Edit.Address EditMemRequest) (Edit.ProcessId EditMemRequest) =? 0
        then
          fail DEBUGGER_ERROR_EDIT_MEMORY_STATUS_INVALID_ADDRESS_BASED_ON_OTHER_PROCESS m
        else
          succeed
            (Edit.WriteChunks
               (fun Destination Source Size =>
                  MemoryMapperWriteMemoryUnsafe K Destination Source Size
                    (Edit.ProcessId EditMemRequest))
               EditMemRequest Length m)
      else if bool_decide (Edit.MemoryType EditMemRequest = Edit.EDIT_PHYSICAL_MEMORY) then
        if negb (CheckAddressPhysical K (Edit.Address EditMemRequest))
        then fail (Status DEBUGGER_ERROR_INVALID_ADDRESS) m
        else
          let '(ok, m') :=
            WritePhysicalChunks K EditMemRequest Length
              (Z.to_nat (Edit.CountOf64Chunks EditMemRequest)) 0 m in
          if ok then succeed m'
          else fail (Status DEBUGGER_ERROR_INVALID_ADDRESS) m'
      else
        fail (Status DEBUGGER_ERROR_EDIT_MEMORY_STATUS_INVALID_PARAMETER) m
  end.

End EditNormal.

(** ** Notions used to state further properties *)

Module Chunks.

(** Byte [j] of a 64-bit slot, counted from the least significant. *)
Definition ByteOf (slot j : Z) : Z := (slot / 256 ^ j) mod 256.

(** What a writer over a byte-addressed memory does when it works as a copy
    of [n] bytes from the slot to [a], for a range below the top of the
    address space: the bytes of [[a, a + n)] become the
    low bytes of the slot and no other byte changes. *)
Definition CopiesLowBytes (Write : Z -> Z -> Z -> Buffer -> Buffer) : Prop :=
  forall (a slot n : Z) (m : Buffer),
    0 <= a -> a + n <= 2 ^ 64 ->
    (forall j, 0 <= j < n -> Write a slot n m (a + j) = ByteOf slot j)
    /\ (forall x, ~ (a <= x < a + n) -> Write a slot n m x = m x).

End Chunks.

Module Compaction.

(** The entries of a list up to its first zero. *)
Fixpoint UntilZero (l : list Z) : list Z :=
  match l with
  | [] => []
  | v :: rest => if v =? 0 then [] else v :: UntilZero rest
  end.

(** The results that reach the user: of the first [Max] entries of the
    storage, those before the first zero that lie in
    [[AddressFrom, AddressTo]]. *)
Definition Moved (SearchResultsStorage : Buffer) (AddressFrom AddressTo Max : Z)
  : list Z :=
  List.filter (fun v => (AddressFrom <=? v) && (v <=? AddressTo))
    (UntilZero (SearchResultsStorage <$> seqZ 0 Max)).

End Compaction.

(** ** Further concrete scenarios *)

Module Example.

(** A normal-context edit service over a byte-addressed memory in which the
    virtual addresses from 0x1000 up to 0x2000 are mapped for every process and
    a physical write succeeds below 0x1004. *)
Definition edit_normal_services : EditNormal.Services Buffer :=
  {| EditNormal.Enumerators := Scenario.enumerators_in_declaration_order;
     EditNormal.PsGetCurrentProcessId := 4;
     EditNormal.VirtualAddressToPhysicalAddress :=
       fun a => if (0x1000 <=? a) && (a <? 0x2000) then a + 0x100000 else 0;
     EditNormal.VirtualAddressToPhysicalAddressByProcessId :=
       fun a _ => if (0x1000 <=? a) && (a <? 0x2000) then a + 0x100000 else 0;
     EditNormal.CheckAddressPhysical := fun _ => true;
     EditNormal.MemoryMapperWriteMemoryUnsafe :=
       fun a slot n _ m => Scenario.write_bytes (Z.to_nat n) a slot m;
     EditNormal.MemoryManagerWritePhysicalMemoryNormal :=
       fun a slot n m =>
         if a <? 0x1004 then (true, Scenario.write_bytes (Z.to_nat n) a slot m)
         else (false, m) |}.

Definition physical_edit_request (byte_size count : Z) : Edit.DEBUGGER_EDIT_MEMORY :=
  {| Edit.Result := DEBUGGER_STATUS_RAW 0; Edit.Address := 0x1000;
     Edit.ProcessId := 4; Edit.MemoryType := Edit.EDIT_PHYSICAL_MEMORY;
     Edit.ByteSize := byte_size; Edit.CountOf64Chunks := count;
     Edit.Payload := fun i => 0xA0 + i |}.

(** An edit service whose check accepts every range. *)
Definition permissive_edit_services : Edit.Services Buffer :=
  {| Edit.Enumerators := Scenario.enumerators_in_declaration_order;
     Edit.CheckAccessValidityAndSafety := fun _ _ => true;
     Edit.CheckAddressPhysical := fun _ => true;
     Edit.MemoryMapperWriteMemorySafeOnTargetProcess :=
       fun a slot n m => Scenario.write_bytes (Z.to_nat n) a slot m;
     Edit.MemoryMapperWriteMemorySafeByPhysicalAddress :=
       fun a slot n m => Scenario.write_bytes (Z.to_nat n) a slot m |}.

(** Bytes 0x41 at 0x1003, 0x1005 and 0x1009, zero elsewhere. *)
Definition sparse_memory (a : Z) : Z :=
  if (a =? 0x1003) || (a =? 0x1005) || (a =? 0x1009) then 0x41 else 0.

(** Search services in which the current process is 8 and no other process
    exists. *)
Definition search_services_without_processes : Search.Services :=
  {| Search.MaximumSearchResults := 2;
     Search.PsGetCurrentProcessId := 8;
     Search.CommonIsProcessExist := fun _ => false;
     Search.PlatformMemAllocateZeroedNonPagedPool := fun _ => true;
     Search.VirtualAddressToPhysicalAddress := fun a => a + 0x100000;
     Search.PhysicalAddressToVirtualAddress := fun a => a - 0x100000;
     Search.PhysicalAddressToVirtualAddressByProcessId := fun a _ => a - 0x100000;
     Search.PhysicalAddressToVirtualAddressOnTargetProcess := fun a => a - 0x100000;
     Search.Memory := sparse_memory;
     Search.MemoryMapperReadMemorySafe :=
       fun a n =>
         Search.LittleEndian (map (fun k => sparse_memory (wrap64 (a + k))) (seqZ 0 n)) |}.

End Example.

(** * Properties *)

(** ** Reading memory *)

Lemma store_same (b : Buffer) (i v : Z) : store b i v i = v.
Proof. unfold store. now rewrite Z.eqb_refl. Qed.

Lemma store_other (b : Buffer) (i v j : Z) : j <> i -> store b i v j = b j.
Proof. intros H. unfold store. now apply Z.eqb_neq in H as ->. Qed.

(** C6: a normal-context read request with [Size = 0] or [Address = 0]
    returns FALSE with the invalid-parameter status and leaves the caller's
    buffer and [*ReturnSize] as they were, whatever the memory manager would
    have done; conversely a read that returns TRUE had a non-zero size and a
    non-null address. *)
Theorem ReadMemory_needs_size_and_address :
  forall (K : Read.Services) (ReadMemRequest : Read.DEBUGGER_READ_MEMORY) (UserBuffer : Buffer)
         (ReturnSize : Z),
    (Read.Size ReadMemRequest = 0 \/ Read.Address ReadMemRequest = 0 ->
     forall K' : Read.Services,
       let o := Read.DebuggerCommandReadMemory K' ReadMemRequest UserBuffer ReturnSize in
       Read.Returned o = false /\
       Read.KernelStatus (Read.Request o)
         = DEBUGGER_ERROR_READING_MEMORY_INVALID_PARAMETER /\
       Read.UserBuffer o = UserBuffer /\
       Read.ReturnSize o = ReturnSize)
    /\
    (Read.Returned (Read.DebuggerCommandReadMemory K ReadMemRequest UserBuffer ReturnSize)
       = true ->
     Read.Size ReadMemRequest <> 0 /\ Read.Address ReadMemRequest <> 0).
Proof.
  intros K req buf rs. split.
  - intros Hzero K'. unfold Read.DebuggerCommandReadMemory.
    assert (Hguard : negb (Read.Size req =? 0) && negb (Read.Address req =? 0) = false).
    { destruct Hzero as [-> | ->]; simpl; [reflexivity | apply andb_false_r]. }
    rewrite Hguard. simpl. auto.
  - unfold Read.DebuggerCommandReadMemory.
    destruct (Read.Size req =? 0) eqn:Hs; simpl; [discriminate |].
    destruct (Read.Address req =? 0) eqn:Ha; simpl; [discriminate |].
    intros _. split; now apply Z.eqb_neq.
Qed.

Lemma ReadMemory_needs_size_and_address_witness :
  let o := Read.DebuggerCommandReadMemory Scenario.read_services
             (Scenario.read_request 4 0x1000 0) Scenario.buffer_of_traps 7 in
  Read.Returned o = false /\
  Read.KernelStatus (Read.Request o) = DEBUGGER_ERROR_READING_MEMORY_INVALID_PARAMETER /\
  Read.UserBuffer o = Scenario.buffer_of_traps /\
  Read.ReturnSize o = 7.
Proof.
  apply (proj1 (ReadMemory_needs_size_and_address Scenario.read_services
                  (Scenario.read_request 4 0x1000 0) Scenario.buffer_of_traps 7)).
  left. reflexivity.
Defined.

(** C5: after a successful virtual read with address-mode inference
    requested, in the normal and in the vmx-root context, an address in
    [0xFFFF800000000000, 0xFFFFFFFFFFFFFFFF] is classified 64-bit whatever
    the process; a lower address is classified 32-bit or 64-bit by the WOW64
    query of the process, and 64-bit when that query fails. *)
Theorem AddressMode_inference :
  forall (K : Read.Services) (g_BreakpointsListHead : list Bp.DEBUGGEE_BP_DESCRIPTOR)
         (ReadMemRequest : Read.DEBUGGER_READ_MEMORY) (UserBuffer : Buffer)
         (ReturnSize : Z),
    Read.MemoryType ReadMemRequest = Read.DEBUGGER_READ_VIRTUAL_ADDRESS ->
    Read.GetAddressMode ReadMemRequest = true ->
    let classified (query : option bool) (o : Read.Outcome) :=
      let mode := Read.AddressMode (Read.Request o) in
      let a := Read.Address ReadMemRequest in
      (0xFFFF800000000000 <= a <= 0xFFFFFFFFFFFFFFFF ->
       mode = Read.DEBUGGER_READ_ADDRESS_MODE_64_BIT) /\
      (a < 0xFFFF800000000000 -> query = Some true ->
       mode = Read.DEBUGGER_READ_ADDRESS_MODE_32_BIT) /\
      (a < 0xFFFF800000000000 -> query = Some false ->
       mode = Read.DEBUGGER_READ_ADDRESS_MODE_64_BIT) /\
      (a < 0xFFFF800000000000 -> query = None ->
       mode = Read.DEBUGGER_READ_ADDRESS_MODE_64_BIT) in
    let normal := Read.DebuggerCommandReadMemory K ReadMemRequest UserBuffer ReturnSize in
    let root :=
      Read.DebuggerCommandReadMemoryVmxRoot K g_BreakpointsListHead ReadMemRequest
        UserBuffer ReturnSize in
    (Read.Returned normal = true ->
     classified (Read.UserAccessIsWow64Process K (Read.Pid ReadMemRequest)) normal)
    /\
    (Read.Returned root = true ->
     classified (Read.UserAccessIsWow64ProcessByEprocess K (Read.PsGetCurrentProcess K))
       root).
Proof.
  intros K bps req buf rs Hvirt Hmode. cbv zeta. split.
  - unfold Read.DebuggerCommandReadMemory.
    destruct (negb (Read.Size req =? 0) && negb (Read.Address req =? 0));
      [| discriminate].
    destruct (Read.MemoryManagerReadProcessMemoryNormal K _ _ _ _ _ _)
      as [[ok buf'] rs'].
    destruct ok; [| discriminate]. intros _.
    rewrite Hvirt, Hmode. rewrite bool_decide_eq_true_2 by reflexivity. simpl.
    destruct ((18446603336221196288 <=? Read.Address req)
              && (Read.Address req <=? 18446744073709551615)) eqn:Hrange.
    + simpl. repeat split; intros; try reflexivity.
      all: apply andb_true_iff in Hrange as [H1 _]; apply Z.leb_le in H1; lia.
    + assert (Hout : ~ (18446603336221196288 <= Read.Address req
                        <= 18446744073709551615)).
      { intros [H1 H2]. apply Z.leb_le in H1, H2. rewrite H1, H2 in Hrange.
        discriminate. }
      repeat split; intros; try contradiction.
      all: match goal with Hq : _ = _ :> option bool |- _ => rewrite Hq end;
        reflexivity.
  - unfold Read.DebuggerCommandReadMemoryVmxRoot.
    rewrite Hvirt, Hmode.
    rewrite bool_decide_eq_false_2 by discriminate.
    rewrite !bool_decide_eq_true_2 by reflexivity.
    destruct (negb (Read.CheckAccessValidityAndSafety K _ _)); [discriminate |].
    intros _. simpl.
    destruct ((18446603336221196288 <=? Read.Address req)
              && (Read.Address req <=? 18446744073709551615)) eqn:Hrange.
    + simpl. repeat split; intros; try reflexivity.
      all: apply andb_true_iff in Hrange as [H1 _]; apply Z.leb_le in H1; lia.
    + assert (Hout : ~ (18446603336221196288 <= Read.Address req
                        <= 18446744073709551615)).
      { intros [H1 H2]. apply Z.leb_le in H1, H2. rewrite H1, H2 in Hrange.
        discriminate. }
      repeat split; intros; try contradiction.
      all: match goal with Hq : _ = _ :> option bool |- _ => rewrite Hq end;
        reflexivity.
Qed.

Lemma AddressMode_inference_witness :
  Read.AddressMode
    (Read.Request
       (Read.DebuggerCommandReadMemory Scenario.read_services
          (Scenario.read_request 4 0x1000 4) Scenario.buffer_of_traps 0))
  = Read.DEBUGGER_READ_ADDRESS_MODE_32_BIT.
Proof.
  pose proof (AddressMode_inference Scenario.read_services Scenario.breakpoints
                (Scenario.read_request 4 0x1000 4) Scenario.buffer_of_traps 0
                eq_refl eq_refl) as [Hnormal _].
  apply (proj1 (proj2 (Hnormal eq_refl))); reflexivity.
Defined.

(** *** The breakpoint loop of the vmx-root read *)

Lemma BreakpointInRange_spec (Address_ Size_ : Z) (d : Bp.DEBUGGEE_BP_DESCRIPTOR) :
  0 <= Address_ + Size_ < 2 ^ 64 ->
  Read.BreakpointInRange Address_ Size_ d = true
  <-> Address_ <= Bp.Address d <= Address_ + Size_.
Proof.
  intros Hfit. unfold Read.BreakpointInRange, wrap64.
  rewrite Z.mod_small by exact Hfit.
  rewrite andb_true_iff, !Z.leb_le. reflexivity.
Qed.

Lemma RestoreBreakpointBytes_app (l1 l2 : list Bp.DEBUGGEE_BP_DESCRIPTOR)
  (Address_ Size_ : Z) (b : Buffer) :
  Read.RestoreBreakpointBytes (l1 ++ l2) Address_ Size_ b
  = Read.RestoreBreakpointBytes l2 Address_ Size_
      (Read.RestoreBreakpointBytes l1 Address_ Size_ b).
Proof.
  revert b. induction l1 as [| d l1 IH]; intros b; simpl; [reflexivity | apply IH].
Qed.

Lemma RestoreBreakpointByte_other (Address_ Size_ : Z) (b : Buffer)
  (d : Bp.DEBUGGEE_BP_DESCRIPTOR) (j : Z) :
  j <> Bp.Address d - Address_ ->
  Read.RestoreBreakpointByte Address_ Size_ b d j = b j.
Proof.
  intros Hj. unfold Read.RestoreBreakpointByte.
  destruct (Read.BreakpointInRange Address_ Size_ d); [| reflexivity].
  destruct (b (Bp.Address d - Address_) =? 204); [| reflexivity].
  now apply store_other.
Qed.

Lemma RestoreBreakpointByte_at (Address_ Size_ : Z) (b : Buffer)
  (d : Bp.DEBUGGEE_BP_DESCRIPTOR) :
  Read.BreakpointInRange Address_ Size_ d = true ->
  Read.RestoreBreakpointByte Address_ Size_ b d (Bp.Address d - Address_)
  = if b (Bp.Address d - Address_) =? 0xcc then Bp.PreviousByte d
    else b (Bp.Address d - Address_).
Proof.
  intros Hin. unfold Read.RestoreBreakpointByte. rewrite Hin.
  destruct (b (Bp.Address d - Address_) =? 204) eqn:Hcc; [apply store_same | reflexivity].
Qed.

Lemma RestoreBreakpointBytes_untouched (l : list Bp.DEBUGGEE_BP_DESCRIPTOR)
  (Address_ Size_ : Z) (b : Buffer) (j : Z) :
  (forall d, In d l -> Read.BreakpointInRange Address_ Size_ d = true ->
             Bp.Address d - Address_ <> j) ->
  Read.RestoreBreakpointBytes l Address_ Size_ b j = b j.
Proof.
  revert b. induction l as [| d l IH]; intros b Hfree; simpl; [reflexivity |].
  rewrite IH by (intros d' Hd'; apply Hfree; now right).
  unfold Read.RestoreBreakpointByte.
  destruct (Read.BreakpointInRange Address_ Size_ d) eqn:Hin; [| reflexivity].
  destruct (b (Bp.Address d - Address_) =? 204); [| reflexivity].
  apply store_other. intros ->. now apply (Hfree d (or_introl eq_refl) Hin).
Qed.

Lemma RestoreBreakpointBytes_unique (l : list Bp.DEBUGGEE_BP_DESCRIPTOR)
  (Address_ Size_ : Z) (b : Buffer) (d : Bp.DEBUGGEE_BP_DESCRIPTOR) :
  List.NoDup (map Bp.Address l) -> In d l ->
  Read.BreakpointInRange Address_ Size_ d = true ->
  Read.RestoreBreakpointBytes l Address_ Size_ b (Bp.Address d - Address_)
  = if b (Bp.Address d - Address_) =? 0xcc then Bp.PreviousByte d
    else b (Bp.Address d - Address_).
Proof.
  revert b. induction l as [| e l IH]; intros b Hnodup Hd Hin; [destruct Hd |].
  simpl in Hnodup. apply List.NoDup_cons_iff in Hnodup as [Hfresh Hnodup].
  simpl. destruct Hd as [-> | Hd].
  - rewrite RestoreBreakpointBytes_untouched.
    + now apply RestoreBreakpointByte_at.
    + intros d' Hd' _ Heq. apply Hfresh.
      replace (Bp.Address d) with (Bp.Address d') by lia.
      now apply in_map.
  - rewrite IH by assumption.
    rewrite RestoreBreakpointByte_other; [reflexivity |].
    intros Heq. apply Hfresh.
    replace (Bp.Address e) with (Bp.Address d) by lia.
    now apply in_map.
Qed.

Lemma ReadMemoryVmxRoot_virtual (K : Read.Services)
  (bps : list Bp.DEBUGGEE_BP_DESCRIPTOR) (req : Read.DEBUGGER_READ_MEMORY)
  (buf : Buffer) (rs : Z) :
  Read.MemoryType req = Read.DEBUGGER_READ_VIRTUAL_ADDRESS ->
  Read.CheckAccessValidityAndSafety K (Read.Address req) (Read.Size req) = true ->
  let o := Read.DebuggerCommandReadMemoryVmxRoot K bps req buf rs in
  Read.Returned o = true
  /\ Read.ReturnSize o = Read.Size req
  /\ Read.UserBuffer o
     = Read.RestoreBreakpointBytes bps (Read.Address req) (Read.Size req)
         (Read.MemoryMapperReadMemorySafeOnTargetProcess K (Read.Address req) buf
            (Read.Size req)).
Proof.
  intros Hvirt Hcheck. unfold Read.DebuggerCommandReadMemoryVmxRoot.
  rewrite Hvirt. rewrite bool_decide_eq_false_2 by discriminate.
  rewrite bool_decide_eq_true_2 by reflexivity.
  rewrite Hcheck. simpl. repeat split.
Qed.

(** C4: in a vmx-root virtual read of [Size] bytes at [Address], the
    descriptors are taken in table order; for each one whose address lies in
    [Address, Address + Size] the byte of the destination buffer at the
    corresponding offset becomes the descriptor's previous byte when it is
    0xCC and is kept otherwise, no other byte changes at that step, and the
    buffer returned is the one left after the last descriptor.  Hence, with
    one descriptor per address, the byte returned at the offset of an
    overlapping descriptor is its previous byte when the raw byte was 0xCC
    and the raw byte otherwise, and a byte at the offset of no overlapping
    descriptor is the raw byte. *)
Theorem ReadMemoryVmxRoot_restores_breakpoint_bytes :
  forall (K : Read.Services) (g_BreakpointsListHead : list Bp.DEBUGGEE_BP_DESCRIPTOR)
         (ReadMemRequest : Read.DEBUGGER_READ_MEMORY) (UserBuffer : Buffer)
         (ReturnSize : Z),
    let Address_ := Read.Address ReadMemRequest in
    let Size_ := Read.Size ReadMemRequest in
    Read.MemoryType ReadMemRequest = Read.DEBUGGER_READ_VIRTUAL_ADDRESS ->
    Read.CheckAccessValidityAndSafety K Address_ Size_ = true ->
    0 <= Address_ + Size_ < 2 ^ 64 ->
    let raw := Read.MemoryMapperReadMemorySafeOnTargetProcess K Address_ UserBuffer Size_ in
    let o :=
      Read.DebuggerCommandReadMemoryVmxRoot K g_BreakpointsListHead ReadMemRequest
        UserBuffer ReturnSize in
    Read.Returned o = true
    /\ (forall pre d post,
          g_BreakpointsListHead = pre ++ d :: post ->
          Address_ <= Bp.Address d <= Address_ + Size_ ->
          let offset := Bp.Address d - Address_ in
          let before := Read.RestoreBreakpointBytes pre Address_ Size_ raw in
          let after := Read.RestoreBreakpointBytes (pre ++ [d]) Address_ Size_ raw in
          (before offset = 0xcc -> after offset = Bp.PreviousByte d)
          /\ (before offset <> 0xcc -> after offset = before offset)
          /\ (forall j, j <> offset -> after j = before j)
          /\ Read.UserBuffer o = Read.RestoreBreakpointBytes post Address_ Size_ after)
    /\ (List.NoDup (map Bp.Address g_BreakpointsListHead) ->
        forall d, In d g_BreakpointsListHead ->
          Address_ <= Bp.Address d <= Address_ + Size_ ->
          let offset := Bp.Address d - Address_ in
          Read.UserBuffer o offset
          = if raw offset =? 0xcc then Bp.PreviousByte d else raw offset)
    /\ (forall j,
          (forall d, In d g_BreakpointsListHead ->
             Address_ <= Bp.Address d <= Address_ + Size_ ->
             Bp.Address d - Address_ <> j) ->
          Read.UserBuffer o j = raw j).
Proof.
  intros K bps req buf rs Address_ Size_ Hvirt Hcheck Hfit raw o.
  destruct (ReadMemoryVmxRoot_virtual K bps req buf rs Hvirt Hcheck)
    as (Hret & _ & Hbuf).
  fold Address_ Size_ raw o in Hret, Hbuf.
  split; [exact Hret |]. split; [| split].
  - intros pre d post Hsplit Hd offset before after.
    assert (Hin : Read.BreakpointInRange Address_ Size_ d = true)
      by (now apply BreakpointInRange_spec).
    assert (Hafter : after = Read.RestoreBreakpointByte Address_ Size_ before d).
    { subst after before. now rewrite RestoreBreakpointBytes_app. }
    repeat split.
    + intros Hcc. rewrite Hafter. subst offset.
      rewrite RestoreBreakpointByte_at by exact Hin. now rewrite Hcc.
    + intros Hcc. rewrite Hafter. subst offset.
      rewrite RestoreBreakpointByte_at by exact Hin.
      now apply Z.eqb_neq in Hcc as ->.
    + intros j Hj. rewrite Hafter. now apply RestoreBreakpointByte_other.
    + rewrite Hbuf, Hsplit. subst after.
      change (d :: post) with ([d] ++ post).
      now rewrite app_assoc, RestoreBreakpointBytes_app.
  - intros Hnodup d Hd Hrange offset. rewrite Hbuf.
    apply RestoreBreakpointBytes_unique; try assumption.
    now apply BreakpointInRange_spec.
  - intros j Hfree. rewrite Hbuf. apply RestoreBreakpointBytes_untouched.
    intros d Hd Hin. apply Hfree; [exact Hd |].
    now apply BreakpointInRange_spec.
Qed.

Lemma ReadMemoryVmxRoot_restores_breakpoint_bytes_witness :
  Read.UserBuffer
    (Read.DebuggerCommandReadMemoryVmxRoot Scenario.read_services Scenario.breakpoints
       (Scenario.read_request 4 0x1000 4) Scenario.buffer_of_traps 0) 2
  = 0x90.
Proof.
  assert (Hfit : 0 <= 0x1000 + 4 < 2 ^ 64) by (simpl; lia).
  assert (Hnodup : List.NoDup (map Bp.Address Scenario.breakpoints)).
  { simpl. constructor.
    - intros [H | []]. discriminate H.
    - constructor; [intros [] | constructor]. }
  pose proof (ReadMemoryVmxRoot_restores_breakpoint_bytes Scenario.read_services
                Scenario.breakpoints (Scenario.read_request 4 0x1000 4)
                Scenario.buffer_of_traps 0 eq_refl eq_refl Hfit)
    as (_ & _ & Hunique & _).
  refine (Hunique Hnodup {| Bp.Address := 0x1002; Bp.PreviousByte := 0x90 |} _ _).
  - left. reflexivity.
  - simpl. lia.
Defined.

(** C9: the overlap test of the vmx-root read includes both ends, so a
    descriptor placed exactly at [Address + Size] passes it; its offset in
    the destination buffer is [Size], past the [Size] bytes (offsets 0 to
    [Size - 1]) that were requested and that [*ReturnSize] reports, and the
    byte there is compared with 0xCC and, when equal, overwritten with the
    descriptor's previous byte. *)
Theorem ReadMemoryVmxRoot_touches_byte_past_the_read :
  forall (K : Read.Services) (g_BreakpointsListHead : list Bp.DEBUGGEE_BP_DESCRIPTOR)
         (ReadMemRequest : Read.DEBUGGER_READ_MEMORY) (UserBuffer : Buffer)
         (ReturnSize : Z) (d : Bp.DEBUGGEE_BP_DESCRIPTOR),
    let Address_ := Read.Address ReadMemRequest in
    let Size_ := Read.Size ReadMemRequest in
    Read.MemoryType ReadMemRequest = Read.DEBUGGER_READ_VIRTUAL_ADDRESS ->
    Read.CheckAccessValidityAndSafety K Address_ Size_ = true ->
    0 <= Size_ -> 0 <= Address_ + Size_ < 2 ^ 64 ->
    In d g_BreakpointsListHead ->
    List.NoDup (map Bp.Address g_BreakpointsListHead) ->
    Bp.Address d = Address_ + Size_ ->
    let raw := Read.MemoryMapperReadMemorySafeOnTargetProcess K Address_ UserBuffer Size_ in
    let o :=
      Read.DebuggerCommandReadMemoryVmxRoot K g_BreakpointsListHead ReadMemRequest
        UserBuffer ReturnSize in
    Read.BreakpointInRange Address_ Size_ d = true
    /\ Bp.Address d - Address_ = Size_
    /\ Read.Returned o = true
    /\ Read.ReturnSize o = Size_
    /\ Read.UserBuffer o Size_
       = if raw Size_ =? 0xcc then Bp.PreviousByte d else raw Size_.
Proof.
  intros K bps req buf rs d Address_ Size_ Hvirt Hcheck Hsize Hfit Hd Hnodup Hat raw o.
  assert (Hin : Read.BreakpointInRange Address_ Size_ d = true).
  { apply BreakpointInRange_spec; [exact Hfit | lia]. }
  assert (Hoff : Bp.Address d - Address_ = Size_) by lia.
  split; [exact Hin |]. split; [exact Hoff |].
  destruct (ReadMemoryVmxRoot_virtual K bps req buf rs Hvirt Hcheck)
    as (Hret & Hsz & Hbuf).
  fold Address_ Size_ raw o in Hret, Hsz, Hbuf.
  split; [exact Hret |]. split; [exact Hsz |].
  rewrite Hbuf.
  pose proof (RestoreBreakpointBytes_unique bps Address_ Size_ raw d Hnodup Hd Hin)
    as Hbyte.
  rewrite Hoff in Hbyte. exact Hbyte.
Qed.

Lemma ReadMemoryVmxRoot_touches_byte_past_the_read_witness :
  let o :=
    Read.DebuggerCommandReadMemoryVmxRoot Scenario.read_services Scenario.breakpoints
      (Scenario.read_request 4 0x1000 4) Scenario.buffer_of_traps 0 in
  Read.ReturnSize o = 4
  /\ Scenario.buffer_of_traps 4 = 0xcc
  /\ Read.UserBuffer o 4 = 0x55.
Proof.
  assert (Hfit : 0 <= 0x1000 + 4 < 2 ^ 64) by (simpl; lia).
  assert (Hsize : 0 <= 4) by lia.
  assert (Hnodup : List.NoDup (map Bp.Address Scenario.breakpoints)).
  { simpl. constructor.
    - intros [H | []]. discriminate H.
    - constructor; [intros [] | constructor]. }
  assert (Hd : In {| Bp.Address := 0x1004; Bp.PreviousByte := 0x55 |}
                 Scenario.breakpoints) by (right; left; reflexivity).
  pose proof (ReadMemoryVmxRoot_touches_byte_past_the_read Scenario.read_services
                Scenario.breakpoints (Scenario.read_request 4 0x1000 4)
                Scenario.buffer_of_traps 0 _ eq_refl eq_refl Hsize Hfit Hd Hnodup eq_refl)
    as (_ & _ & _ & Hsz & Hbyte).
  split; [exact Hsz |]. split; [reflexivity | exact Hbyte].
Defined.

(** ** MSR access *)

(** C8: a read or write request for one core (not the all-cores selector)
    whose core number is not below the processor count returns
    STATUS_INVALID_PARAMETER, and the per-core MSR state array and the
    caller's buffer are returned as they were given. *)
Theorem ReadOrWriteMsr_rejects_core_out_of_range :
  forall (K : Msr.Services) (g_DbgState : list MsrState.t)
         (ReadOrWriteMsrRequest : Msr.DEBUGGER_READ_AND_WRITE_ON_MSR)
         (UserBuffer : Buffer) (ReturnSize : Z),
    Msr.ActionType ReadOrWriteMsrRequest = Msr.DEBUGGER_MSR_READ
    \/ Msr.ActionType ReadOrWriteMsrRequest = Msr.DEBUGGER_MSR_WRITE ->
    Msr.CoreNumber ReadOrWriteMsrRequest
      <> Msr.DEBUGGER_READ_AND_WRITE_ON_MSR_APPLY_ALL_CORES K ->
    Msr.KeQueryActiveProcessorCount K <= Msr.CoreNumber ReadOrWriteMsrRequest ->
    let o := Msr.DebuggerReadOrWriteMsr K g_DbgState ReadOrWriteMsrRequest
               UserBuffer ReturnSize in
    Msr.Status o = STATUS_INVALID_PARAMETER
    /\ Msr.g_DbgState o = g_DbgState
    /\ (forall core, Msr.g_DbgState o !! core = g_DbgState !! core)
    /\ Msr.UserBuffer o = UserBuffer.
Proof.
  intros K g req buf rs Haction Hsingle Hrange o. subst o.
  unfold Msr.DebuggerReadOrWriteMsr.
  apply Z.eqb_neq in Hsingle. apply Z.leb_le in Hrange.
  destruct Haction as [Hact | Hact]; rewrite Hact.
  - rewrite bool_decide_eq_false_2 by discriminate.
    rewrite bool_decide_eq_true_2 by reflexivity.
    rewrite Hsingle, Hrange. simpl. auto.
  - rewrite bool_decide_eq_true_2 by reflexivity.
    rewrite Hsingle, Hrange. simpl. auto.
Qed.

Lemma ReadOrWriteMsr_rejects_core_out_of_range_witness :
  let o := Msr.DebuggerReadOrWriteMsr Scenario.msr_services Scenario.msr_slots
             (Scenario.msr_request Msr.DEBUGGER_MSR_WRITE 4)
             Scenario.zero_memory 0 in
  Msr.Status o = STATUS_INVALID_PARAMETER /\ Msr.g_DbgState o = Scenario.msr_slots.
Proof.
  assert (Hsingle : 4 <> 0xffffffff) by discriminate.
  assert (Hrange : 4 <= 4) by lia.
  pose proof (ReadOrWriteMsr_rejects_core_out_of_range Scenario.msr_services
                Scenario.msr_slots (Scenario.msr_request Msr.DEBUGGER_MSR_WRITE 4)
                Scenario.zero_memory 0 (or_intror eq_refl) Hsingle Hrange)
    as (Hstatus & Hstate & _).
  split; [exact Hstatus | exact Hstate].
Defined.

(** ** Editing memory from vmx-root *)

(** What the function does with a virtual-memory request whose [ByteSize] is
    one of the three enumerators: the check is asked about [Address] and
    the 32-bit product [ByteSize * CountOf64Chunks]; when it fails nothing is
    written and the status is DEBUGGER_ERROR_INVALID_ADDRESS; when it
    passes the chunks of [Len] bytes are written. *)
Lemma EditMemoryVmxRoot_virtual {Memory : Type} (K : Edit.Services Memory)
  (req : Edit.DEBUGGER_EDIT_MEMORY) (m : Memory) (Len : Z) :
  Edit.LengthOfEachChunk (Edit.Enumerators K) (Edit.ByteSize req) = Some Len ->
  Edit.MemoryType req = Edit.EDIT_VIRTUAL_MEMORY ->
  Edit.DebuggerCommandEditMemoryVmxRoot K req m
  = if Edit.CheckAccessValidityAndSafety K (Edit.Address req)
         (wrap32 (Edit.ByteSize req * Edit.CountOf64Chunks req))
    then {| Edit.Returned := true;
            Edit.Request := Edit.set_Result DEBUGGER_OPERATION_WAS_SUCCESSFUL req;
            Edit.Mem := Edit.WriteChunks (Edit.MemoryMapperWriteMemorySafeOnTargetProcess K)
                          req Len m |}
    else {| Edit.Returned := false;
            Edit.Request := Edit.set_Result DEBUGGER_ERROR_INVALID_ADDRESS req;
            Edit.Mem := m |}.
Proof.
  intros Hlen Hvirt. unfold Edit.DebuggerCommandEditMemoryVmxRoot.
  rewrite Hlen, Hvirt. rewrite bool_decide_eq_true_2 by reflexivity.
  destruct (Edit.CheckAccessValidityAndSafety K _ _); reflexivity.
Qed.

(** The size given to the check is the aggregate size of the chunks when
    each enumerator has the value of its chunk length and the product fits
    32 bits. *)
Lemma EditMemoryVmxRoot_checked_size_when_enumerators_are_lengths
  (E : Edit.ByteSizeEnumerators) (req : Edit.DEBUGGER_EDIT_MEMORY) (Len : Z) :
  Edit.EDIT_BYTE E = 1 -> Edit.EDIT_DWORD E = 4 -> Edit.EDIT_QWORD E = 8 ->
  Edit.LengthOfEachChunk E (Edit.ByteSize req) = Some Len ->
  0 <= Len * Edit.CountOf64Chunks req < 2 ^ 32 ->
  wrap32 (Edit.ByteSize req * Edit.CountOf64Chunks req)
  = Len * Edit.CountOf64Chunks req.
Proof.
  intros Hb Hd Hq Hlen Hfit. unfold Edit.LengthOfEachChunk in Hlen.
  rewrite Hb, Hd, Hq in Hlen.
  assert (Edit.ByteSize req = Len) as ->.
  { destruct (Edit.ByteSize req =? 1) eqn:H1; [apply Z.eqb_eq in H1; congruence |].
    destruct (Edit.ByteSize req =? 4) eqn:H4; [apply Z.eqb_eq in H4; congruence |].
    destruct (Edit.ByteSize req =? 8) eqn:H8; [apply Z.eqb_eq in H8; congruence |].
    discriminate. }
  unfold wrap32. now apply Z.mod_small.
Qed.

(** An enumerator whose value is not its chunk length makes the size given
    to the check differ from the size written, already for one chunk. *)
Lemma EditMemoryVmxRoot_checked_size_one_chunk
  (E : Edit.ByteSizeEnumerators) (req : Edit.DEBUGGER_EDIT_MEMORY) (Len : Z) :
  Edit.LengthOfEachChunk E (Edit.ByteSize req) = Some Len ->
  Edit.CountOf64Chunks req = 1 ->
  0 <= Edit.ByteSize req < 2 ^ 32 ->
  Edit.ByteSize req <> Len ->
  wrap32 (Edit.ByteSize req * Edit.CountOf64Chunks req)
  <> Len * Edit.CountOf64Chunks req.
Proof.
  intros _ Hone Hfit Hne. rewrite Hone, !Z.mul_1_r.
  unfold wrap32. rewrite Z.mod_small by exact Hfit. exact Hne.
Qed.

(** C7, evaluated: with the enumerators numbered in declaration order, a
    byte edit of 16 chunks at 0x1000, where only 8 bytes are safe to access,
    asks the check about 0 bytes instead of 1 * 16; the check passes, the
    function returns TRUE and all 16 bytes are written, up to 0x100F. *)
Theorem EditMemoryVmxRoot_check_multiplies_by_enumerator :
  let K := Scenario.edit_services Scenario.enumerators_in_declaration_order in
  let req := Scenario.edit_request 0 16 in
  let o := Edit.DebuggerCommandEditMemoryVmxRoot K req Scenario.zero_memory in
  Edit.LengthOfEachChunk (Edit.Enumerators K) (Edit.ByteSize req) = Some 1
  /\ Edit.CheckAccessValidityAndSafety K (Edit.Address req) (1 * 16) = false
  /\ wrap32 (Edit.ByteSize req * Edit.CountOf64Chunks req) = 0
  /\ Edit.Returned o = true
  /\ Edit.Result (Edit.Request o) = DEBUGGER_OPERATION_WAS_SUCCESSFUL
  /\ Edit.Mem o 0x1008 = 0xA8
  /\ Edit.Mem o 0x100F = 0xAF.
Proof. vm_compute. repeat split. Qed.

(** ** Searching memory *)

Lemma LittleEndian_bound (l : list Z) :
  0 <= Search.LittleEndian l < 2 ^ (8 * Z.of_nat (length l)).
Proof.
  induction l as [| b l IH].
  - simpl. lia.
  - cbn [Search.LittleEndian length].
    replace (8 * Z.of_nat (S (length l))) with (8 + 8 * Z.of_nat (length l)) by lia.
    rewrite Z.pow_add_r by lia.
    change (2 ^ 8) with 256.
    pose proof (Z.mod_pos_bound b 256 ltac:(lia)). nia.
Qed.

Lemma ChunkAt_bound (K : Search.Services) (paused : bool) (a n : Z) :
  0 <= n -> 0 <= Search.ChunkAt K paused a n < 2 ^ (8 * n).
Proof.
  intros Hn. unfold Search.ChunkAt. destruct paused.
  - apply Z.mod_pos_bound. apply Z.pow_pos_nonneg; lia.
  - pose proof (LittleEndian_bound
                  (map (fun k => Search.Memory K (wrap64 (a + k))) (seqZ 0 n))) as H.
    rewrite length_map, length_seqZ, Z2Nat.id in H by exact Hn. exact H.
Qed.

Section Scan.

Variable K : Search.Services.
Variable IsDebuggeePaused : bool.
Variable SearchMemRequest : Search.DEBUGGER_SEARCH_MEMORY.
Variable Len : Z.
Hypothesis Len_pos : 0 < Len.

Lemma CopyIntoCmp64_value (a : Z) (s : Search.Scan) :
  Pattern.Cmp64Fits Len s ->
  Search.Cmp64 (Search.CopyIntoCmp64 K IsDebuggeePaused a Len s)
  = Search.ChunkAt K IsDebuggeePaused a Len.
Proof using Len_pos.
  unfold Pattern.Cmp64Fits. intros Hfit. cbn [Search.CopyIntoCmp64 Search.Cmp64].
  rewrite Z.mod_small by exact Hfit. lia.
Qed.

Lemma CopyIntoCmp64_fits (a : Z) (s : Search.Scan) :
  Pattern.Cmp64Fits Len s ->
  Pattern.Cmp64Fits Len (Search.CopyIntoCmp64 K IsDebuggeePaused a Len s).
Proof using Len_pos.
  intros Hfit. unfold Pattern.Cmp64Fits.
  rewrite CopyIntoCmp64_value by exact Hfit.
  apply ChunkAt_bound. lia.
Qed.

Lemma CopyIntoCmp64_observable (a : Z) (s : Search.Scan) :
  Pattern.Observable (Search.CopyIntoCmp64 K IsDebuggeePaused a Len s) = Pattern.Observable s.
Proof. reflexivity. Qed.

Lemma VerifyRemaining_spec (BaseIterator : Z) (n : nat) :
  forall (i : Z) (s : Search.Scan),
    Pattern.Cmp64Fits Len s ->
    let r := Search.VerifyRemaining K IsDebuggeePaused SearchMemRequest Len
               BaseIterator n i s in
    fst r = forallb (Pattern.ChunkMatches K IsDebuggeePaused SearchMemRequest Len
                       BaseIterator)
              (seqZ i (Z.of_nat n))
    /\ Pattern.Observable (snd r) = Pattern.Observable s
    /\ Pattern.Cmp64Fits Len (snd r).
Proof using Len_pos.
  induction n as [| n IH]; intros i s Hfit; cbv zeta.
  - rewrite seqZ_nil by (simpl; lia). simpl. auto.
  - cbn [Search.VerifyRemaining].
    rewrite seqZ_cons by lia. cbn [forallb].
    replace (Z.pred (Z.of_nat (S n))) with (Z.of_nat n) by lia.
    set (s1 := Search.CopyIntoCmp64 K IsDebuggeePaused
                 (wrap64 (BaseIterator + Len * i)) Len s).
    assert (Hv : Search.Cmp64 s1
                 = Search.ChunkAt K IsDebuggeePaused (wrap64 (BaseIterator + Len * i)) Len)
      by (apply CopyIntoCmp64_value; exact Hfit).
    assert (Hfit1 : Pattern.Cmp64Fits Len s1) by (apply CopyIntoCmp64_fits; exact Hfit).
    unfold Pattern.ChunkMatches at 1. rewrite <- Hv.
    destruct (Search.Cmp64 s1 =? Search.Payload SearchMemRequest i) eqn:Heq.
    + cbn [negb andb]. specialize (IH (i + 1) s1 Hfit1). cbv zeta in IH.
      replace (Z.succ i) with (i + 1) by lia.
      destruct IH as (H1 & H2 & H3).
      split; [exact H1 |]. split; [| exact H3].
      rewrite H2. reflexivity.
    + cbn [negb andb fst snd]. repeat split; try apply Hfit1.
Qed.

Lemma Positions_nil (StartAddress EndAddress : Z) :
  EndAddress <= StartAddress -> Pattern.Positions Len StartAddress EndAddress = [].
Proof using Len_pos.
  intros Hle. unfold Pattern.Positions. rewrite seqZ_nil; [reflexivity |].
  assert ((EndAddress - StartAddress + Len - 1) / Len < 1); [| lia].
  apply Z.div_lt_upper_bound; lia.
Qed.

Lemma Positions_cons (StartAddress EndAddress : Z) :
  StartAddress < EndAddress ->
  Pattern.Positions Len StartAddress EndAddress
  = StartAddress :: Pattern.Positions Len (StartAddress + Len) EndAddress.
Proof using Len_pos.
  intros Hlt. unfold Pattern.Positions.
  set (q := (EndAddress - (StartAddress + Len) + Len - 1) / Len).
  assert (Hq : 0 <= q) by (apply Z.div_pos; lia).
  replace ((EndAddress - StartAddress + Len - 1) / Len) with (q + 1).
  2:{ subst q.
      replace (EndAddress - StartAddress + Len - 1)
        with (EndAddress - (StartAddress + Len) + Len - 1 + 1 * Len) by lia.
      rewrite Z.div_add by lia. reflexivity. }
  rewrite seqZ_cons by lia. cbn [fmap list_fmap].
  replace (Z.pred (q + 1)) with q by lia.
  f_equal; [lia |].
  change (Z.succ 0) with (1 + 0). rewrite <- fmap_add_seqZ, <- list_fmap_compose.
  apply list_fmap_ext. intros _ k _. simpl. lia.
Qed.

Lemma SaveMatch_observable (m : Z) (s s' : Search.Scan) :
  Pattern.Observable s = Pattern.Observable s' ->
  Pattern.Observable (Search.SaveMatch K IsDebuggeePaused SearchMemRequest m s)
  = Pattern.Observable (Search.SaveMatch K IsDebuggeePaused SearchMemRequest m s').
Proof.
  unfold Pattern.Observable. intros H. injection H as Hc Hi Hr Hl.
  cbn [Search.SaveMatch Search.CountOfOccurance Search.IndexToArrayOfResults
       Search.AddressToSaveResults Search.Logged].
  rewrite Hc, Hi, Hr, Hl. reflexivity.
Qed.

Lemma NextIndex_observable (s s' : Search.Scan) :
  Pattern.Observable s = Pattern.Observable s' ->
  Pattern.Observable (Search.NextIndex s) = Pattern.Observable (Search.NextIndex s').
Proof.
  unfold Pattern.Observable. intros H. injection H as Hc Hi Hr Hl.
  cbn [Search.NextIndex Search.CountOfOccurance Search.IndexToArrayOfResults
       Search.AddressToSaveResults Search.Logged].
  rewrite Hc, Hi, Hr, Hl. reflexivity.
Qed.

Lemma Observable_index (s s' : Search.Scan) :
  Pattern.Observable s = Pattern.Observable s' ->
  Search.IndexToArrayOfResults s = Search.IndexToArrayOfResults s'.
Proof. unfold Pattern.Observable. intros H. now injection H. Qed.

Lemma Replay_observable (ms : list Z) :
  forall s s' : Search.Scan,
    Pattern.Observable s = Pattern.Observable s' ->
    Pattern.ExitObservable
      (Pattern.Replay K IsDebuggeePaused SearchMemRequest ms s)
    = Pattern.ExitObservable
        (Pattern.Replay K IsDebuggeePaused SearchMemRequest ms s').
Proof.
  induction ms as [| m ms IH]; intros s s' Hobs; cbn [Pattern.Replay].
  - simpl. now rewrite Hobs.
  - pose proof (SaveMatch_observable m s s' Hobs) as H3.
    rewrite (Observable_index _ _ H3).
    destruct (_ <? _).
    + apply IH. now apply NextIndex_observable.
    + simpl. now rewrite H3.
Qed.

Variable EndAddress : Z.
Hypothesis EndAddress_fits : EndAddress + Len <= 2 ^ 64.

(** The scan of a range makes, on the observable part of its state, the
    bookkeeping for exactly the positions where its comparisons pass. *)
Lemma ScanRange_replay (fuel : nat) :
  forall (BaseIterator : Z) (s : Search.Scan),
    0 <= BaseIterator ->
    Pattern.Cmp64Fits Len s ->
    Z.max 0 (EndAddress - BaseIterator) + Len <= Z.of_nat fuel * Len ->
    exists e,
      Search.ScanRange K IsDebuggeePaused SearchMemRequest Len EndAddress
        fuel BaseIterator s = Some e
      /\ Pattern.ExitObservable e
         = Pattern.ExitObservable
             (Pattern.Replay K IsDebuggeePaused SearchMemRequest
                (Pattern.Passing K IsDebuggeePaused SearchMemRequest Len
                   BaseIterator EndAddress) s).
Proof using Len_pos EndAddress_fits.
  induction fuel as [| fuel IH]; intros Base s Hbase Hfit Hfuel; [lia |].
  cbn [Search.ScanRange]. unfold Pattern.Passing.
  destruct (Base <? EndAddress) eqn:Hlt.
  - apply Z.ltb_lt in Hlt.
    rewrite Positions_cons by exact Hlt. cbn [List.filter].
    assert (Hnext : wrap64 (Base + Len) = Base + Len).
    { unfold wrap64. apply Z.mod_small. lia. }
    rewrite Hnext.
    assert (Hfuel' : Z.max 0 (EndAddress - (Base + Len)) + Len <= Z.of_nat fuel * Len).
    { rewrite Nat2Z.inj_succ in Hfuel.
      assert (Hroom : EndAddress - Base <= Z.of_nat fuel * Len) by lia.
      clear IH Hfuel. destruct fuel as [| f]; [simpl in Hroom; lia |].
      rewrite Nat2Z.inj_succ in *.
      assert (0 <= Z.of_nat f * Len) by (apply Z.mul_nonneg_nonneg; lia).
      lia. }
    assert (Hbase' : 0 <= Base + Len) by lia.
    set (s1 := Search.CopyIntoCmp64 K IsDebuggeePaused Base Len s).
    assert (Hfit1 : Pattern.Cmp64Fits Len s1) by (apply CopyIntoCmp64_fits; exact Hfit).
    assert (Hv1 : Search.Cmp64 s1 = Search.ChunkAt K IsDebuggeePaused Base Len)
      by (apply CopyIntoCmp64_value; exact Hfit).
    assert (Hobs1 : Pattern.Observable s1 = Pattern.Observable s) by reflexivity.
    unfold Pattern.ComparisonsPass at 1. rewrite <- Hv1.
    destruct (Search.Cmp64 s1 =? Search.Payload SearchMemRequest 0).
    + cbn [andb].
      pose proof (VerifyRemaining_spec Base
                    (Z.to_nat (Search.CountOf64Chunks SearchMemRequest - Len))
                    Len s1 Hfit1) as Hver.
      cbv zeta in Hver.
      destruct (Search.VerifyRemaining K IsDebuggeePaused SearchMemRequest Len Base
                  (Z.to_nat (Search.CountOf64Chunks SearchMemRequest - Len)) Len s1)
        as [StillMatch s2].
      cbn [fst snd] in Hver. destruct Hver as (Hb & Hobs2 & Hfit2).
      assert (Hseq : seqZ Len (Z.of_nat (Z.to_nat (Search.CountOf64Chunks SearchMemRequest - Len)))
                     = seqZ Len (Search.CountOf64Chunks SearchMemRequest - Len)).
      { unfold seqZ. now rewrite Nat2Z.id. }
      rewrite Hseq in Hb. rewrite <- Hb.
      destruct StillMatch.
      * cbn [Pattern.Replay].
        set (s3 := Search.SaveMatch K IsDebuggeePaused SearchMemRequest Base s2).
        set (s3' := Search.SaveMatch K IsDebuggeePaused SearchMemRequest Base s).
        assert (Hobs3 : Pattern.Observable s3 = Pattern.Observable s3').
        { apply SaveMatch_observable. now rewrite Hobs2. }
        rewrite <- (Observable_index _ _ Hobs3).
        destruct (Search.IndexToArrayOfResults s3 <? Search.MaximumSearchResults K).
        -- destruct (IH (Base + Len) (Search.NextIndex s3) Hbase' Hfit2 Hfuel')
             as (e & He & Hobs).
           exists e. split; [exact He |]. rewrite Hobs.
           apply Replay_observable. now apply NextIndex_observable.
        -- eexists. split; [reflexivity |]. simpl. now rewrite Hobs3.
      * destruct (IH (Base + Len) s2 Hbase' Hfit2 Hfuel') as (e & He & Hobs).
        exists e. split; [exact He |]. rewrite Hobs.
        apply Replay_observable. now rewrite Hobs2.
    + cbn [andb].
      destruct (IH (Base + Len) s1 Hbase' Hfit1 Hfuel') as (e & He & Hobs).
      exists e. split; [exact He |]. rewrite Hobs.
      now apply Replay_observable.
  - apply Z.ltb_ge in Hlt. rewrite Positions_nil by exact Hlt.
    eexists. split; reflexivity.
Qed.

End Scan.

Section Bookkeeping.

Variable K : Search.Services.
Variable SearchMemRequest : Search.DEBUGGER_SEARCH_MEMORY.

Hypothesis Max_fits :
  0 <= Search.MaximumSearchResults K /\ Search.MaximumSearchResults K + 1 < 2 ^ 32.

Lemma wrap32_small (z : Z) : 0 <= z < 2 ^ 32 -> wrap32 z = z.
Proof. intros H. unfold wrap32. now apply Z.mod_small. Qed.

(** How many matches the bookkeeping counts, and how it ends. *)
Lemma Replay_counts (IsDebuggeePaused : bool) (ms : list Z) :
  forall (s : Search.Scan) (c : Z),
    Search.IndexToArrayOfResults s = c ->
    Search.CountOfOccurance s = c ->
    0 <= c <= Search.MaximumSearchResults K ->
    match Pattern.Replay K IsDebuggeePaused SearchMemRequest ms s with
    | Search.RangeExhausted s' =>
        Z.of_nat (length ms) <= Search.MaximumSearchResults K - c
        /\ Search.CountOfOccurance s' = c + Z.of_nat (length ms)
    | Search.ResultBufferFull s' =>
        Search.MaximumSearchResults K - c < Z.of_nat (length ms)
        /\ Search.CountOfOccurance s' = Search.MaximumSearchResults K + 1
    end.
Proof using Max_fits.
  induction ms as [| m ms IH]; intros s c Hi Hc Hrange; cbn [Pattern.Replay].
  - simpl. lia.
  - cbn [Search.SaveMatch Search.IndexToArrayOfResults]. rewrite Hi.
    destruct (c <? Search.MaximumSearchResults K) eqn:Hlt.
    + apply Z.ltb_lt in Hlt.
      match goal with |- match Pattern.Replay _ _ _ _ ?s1 with _ => _ end =>
        specialize (IH s1 (c + 1)) end.
      cbn [Search.NextIndex Search.SaveMatch Search.IndexToArrayOfResults
           Search.CountOfOccurance] in IH.
      rewrite Hi, Hc in IH. rewrite wrap32_small in IH by lia.
      specialize (IH eq_refl eq_refl ltac:(lia)).
      destruct (Pattern.Replay _ _ _ _ _); cbn [length]; lia.
    + apply Z.ltb_ge in Hlt.
      cbn [Search.SaveMatch Search.CountOfOccurance length]. rewrite Hc.
      rewrite wrap32_small by lia. lia.
Qed.

(** Where the bookkeeping stores each match when the debuggee is not
    paused: match number [k] of the list goes to index [c + k], for every
    index up to and including [MaximumSearchResults]; no other entry is
    written. *)
Lemma Replay_results (ms : list Z) :
  forall (s : Search.Scan) (c : Z),
    Search.IndexToArrayOfResults s = c ->
    0 <= c <= Search.MaximumSearchResults K ->
    let R := Search.AddressToSaveResults
               (Pattern.ExitState (Pattern.Replay K false SearchMemRequest ms s)) in
    (forall (k : nat) (m : Z),
        ms !! k = Some m -> c + Z.of_nat k <= Search.MaximumSearchResults K ->
        R (c + Z.of_nat k) = Pattern.SavedValue K SearchMemRequest m)
    /\ (forall j, j < c \/ Search.MaximumSearchResults K < j ->
                 R j = Search.AddressToSaveResults s j).
Proof using Max_fits.
  induction ms as [| m ms IH]; intros s c Hi Hrange; cbv zeta; cbn [Pattern.Replay].
  - split; [intros k m' Hk; discriminate Hk | reflexivity].
  - cbn [Search.SaveMatch Search.IndexToArrayOfResults]. rewrite Hi.
    destruct (c <? Search.MaximumSearchResults K) eqn:Hlt.
    + apply Z.ltb_lt in Hlt.
      match goal with |- context [Pattern.Replay _ _ _ _ ?s1] =>
        specialize (IH s1 (c + 1)) end.
      cbn [Search.NextIndex Search.SaveMatch Search.IndexToArrayOfResults
           Search.AddressToSaveResults] in IH.
      rewrite Hi in IH. rewrite wrap32_small in IH by lia.
      specialize (IH eq_refl ltac:(lia)). cbv zeta in IH.
      destruct IH as [IHk IHj]. split.
      * intros [| k] m' Hk Hle.
        -- injection Hk as <-. rewrite Z.add_0_r.
           rewrite IHj by lia. apply store_same.
        -- replace (c + Z.of_nat (S k)) with (c + 1 + Z.of_nat k) by lia.
           apply IHk; [exact Hk | lia].
      * intros j Hj. rewrite IHj by lia. apply store_other. lia.
    + apply Z.ltb_ge in Hlt.
      cbn [Pattern.ExitState Search.SaveMatch Search.AddressToSaveResults].
      rewrite ?Hi. split.
      * intros [| k] m' Hk Hle; [| lia].
        injection Hk as <-. rewrite Z.add_0_r. apply store_same.
      * intros j Hj. apply store_other. lia.
Qed.

End Bookkeeping.

Lemma LengthOfEachChunk_pos (b : Search.DEBUGGER_SEARCH_MEMORY_BYTE_SIZE) (Len : Z) :
  Search.LengthOfEachChunk b = Some Len -> 0 < Len.
Proof. destruct b; simpl; intros H; inversion H; lia. Qed.

(** [PerformSearchAddress] on a virtual range that does not reach the top
    of the address space: with enough fuel it returns TRUE, and what it
    reports is what the bookkeeping makes of the passing positions. *)
Lemma PerformSearchAddress_scans (K : Search.Services) (fuel : nat)
  (res : Buffer) (req : Search.DEBUGGER_SEARCH_MEMORY)
  (StartAddress EndAddress : Z) (paused : bool) (c0 Len : Z) :
  Search.LengthOfEachChunk (Search.ByteSize req) = Some Len ->
  Search.MemoryType req = Search.SEARCH_VIRTUAL_MEMORY
  \/ Search.MemoryType req = Search.SEARCH_PHYSICAL_FROM_VIRTUAL_MEMORY ->
  0 <= StartAddress -> EndAddress + Len <= 2 ^ 64 ->
  Z.max 0 (EndAddress - StartAddress) + Len <= Z.of_nat fuel * Len ->
  exists o e,
    Search.PerformSearchAddress K fuel res req StartAddress EndAddress paused c0
    = Some o
    /\ Search.Returned o = true
    /\ Search.CountOfMatchedCases o = Search.CountOfOccurance (Pattern.ExitState e)
    /\ Search.Results o = Search.AddressToSaveResults (Pattern.ExitState e)
    /\ Search.LogLines o = Search.Logged (Pattern.ExitState e)
    /\ Pattern.ExitObservable e
       = Pattern.ExitObservable
           (Pattern.Replay K paused req
              (Pattern.Passing K paused req Len StartAddress EndAddress)
              {| Search.Cmp64 := 0; Search.CountOfOccurance := 0;
                 Search.IndexToArrayOfResults := 0;
                 Search.AddressToSaveResults := res;
                 Search.Logged := []; Search.Compared := [] |}).
Proof.
  intros Hlen Htype Hstart Hend Hfuel.
  pose proof (LengthOfEachChunk_pos _ _ Hlen) as Hpos.
  unfold Search.PerformSearchAddress. rewrite Hlen.
  assert (Hty : bool_decide (Search.MemoryType req = Search.SEARCH_VIRTUAL_MEMORY)
                || bool_decide (Search.MemoryType req
                                = Search.SEARCH_PHYSICAL_FROM_VIRTUAL_MEMORY) = true).
  { destruct Htype as [-> | ->]; reflexivity. }
  rewrite Hty.
  set (s0 := {| Search.Cmp64 := 0; Search.CountOfOccurance := 0;
                Search.IndexToArrayOfResults := 0;
                Search.AddressToSaveResults := res;
                Search.Logged := []; Search.Compared := [] |}).
  assert (Hfit0 : Pattern.Cmp64Fits Len s0).
  { unfold Pattern.Cmp64Fits. simpl. split; [lia | apply Z.pow_pos_nonneg; lia]. }
  destruct (ScanRange_replay K paused req Len Hpos EndAddress Hend fuel
              StartAddress s0 Hstart Hfit0 Hfuel) as (e & He & Hobs).
  rewrite He.
  destruct e as [s | s];
    [eexists; exists (Search.RangeExhausted s)
    | eexists; exists (Search.ResultBufferFull s)];
    (split; [reflexivity |]); repeat split; exact Hobs.
Qed.

Lemma ExitObservable_eq (e e' : Search.LoopExit) :
  Pattern.ExitObservable e = Pattern.ExitObservable e' ->
  Search.CountOfOccurance (Pattern.ExitState e)
  = Search.CountOfOccurance (Pattern.ExitState e')
  /\ Search.AddressToSaveResults (Pattern.ExitState e)
     = Search.AddressToSaveResults (Pattern.ExitState e').
Proof.
  destruct e, e'; unfold Pattern.ExitObservable, Pattern.Observable;
    intros H; injection H; intros; simpl; auto.
Qed.

(** C3, as the code behaves: when the comparisons of the scan pass at more
    than [MaximumSearchResults] positions of the range, the search returns
    TRUE and reports [CountOfMatchedCases = MaximumSearchResults + 1], one
    more than the capacity. *)
Theorem PerformSearchAddress_count_when_buffer_full :
  forall (K : Search.Services) (fuel : nat) (AddressToSaveResults : Buffer)
         (SearchMemRequest : Search.DEBUGGER_SEARCH_MEMORY)
         (StartAddress EndAddress : Z) (IsDebuggeePaused : bool)
         (CountOfMatchedCases Len : Z),
    Search.LengthOfEachChunk (Search.ByteSize SearchMemRequest) = Some Len ->
    Search.MemoryType SearchMemRequest = Search.SEARCH_VIRTUAL_MEMORY
    \/ Search.MemoryType SearchMemRequest = Search.SEARCH_PHYSICAL_FROM_VIRTUAL_MEMORY ->
    0 <= StartAddress -> EndAddress + Len <= 2 ^ 64 ->
    Z.max 0 (EndAddress - StartAddress) + Len <= Z.of_nat fuel * Len ->
    0 <= Search.MaximumSearchResults K /\ Search.MaximumSearchResults K + 1 < 2 ^ 32 ->
    Search.MaximumSearchResults K
    < Z.of_nat (length (Pattern.Passing K IsDebuggeePaused SearchMemRequest Len
                          StartAddress EndAddress)) ->
    exists o,
      Search.PerformSearchAddress K fuel AddressToSaveResults SearchMemRequest
        StartAddress EndAddress IsDebuggeePaused CountOfMatchedCases = Some o
      /\ Search.Returned o = true
      /\ Search.CountOfMatchedCases o = Search.MaximumSearchResults K + 1.
Proof.
  intros K fuel res req Start End paused c0 Len Hlen Htype Hstart Hend Hfuel Hmax Hmany.
  destruct (PerformSearchAddress_scans K fuel res req Start End paused c0 Len
              Hlen Htype Hstart Hend Hfuel)
    as (o & e & Ho & Hret & Hcount & _ & _ & Hobs).
  exists o. split; [exact Ho |]. split; [exact Hret |].
  rewrite Hcount. apply ExitObservable_eq in Hobs as [-> _].
  match goal with |- context [Pattern.Replay _ _ _ ?ms ?s0] =>
    pose proof (Replay_counts K req Hmax paused ms s0 0 eq_refl eq_refl ltac:(lia))
      as Hreplay
  end.
  destruct (Pattern.Replay _ _ _ _ _); cbn [Pattern.ExitState]; lia.
Qed.

Lemma PerformSearchAddress_count_when_buffer_full_witness :
  exists o,
    Search.PerformSearchAddress
      (Scenario.search_services 2 Scenario.all_mapped Scenario.zero_memory) 20
      Scenario.zero_memory (Scenario.search_request 0x1000 0x10 Search.SEARCH_BYTE [0])
      0x1000 0x1010 false 0 = Some o
    /\ Search.Returned o = true
    /\ Search.CountOfMatchedCases o = 3.
Proof.
  apply (PerformSearchAddress_count_when_buffer_full
           (Scenario.search_services 2 Scenario.all_mapped Scenario.zero_memory) 20
           Scenario.zero_memory (Scenario.search_request 0x1000 0x10 Search.SEARCH_BYTE [0])
           0x1000 0x1010 false 0 1).
  - reflexivity.
  - left. reflexivity.
  - lia.
  - lia.
  - simpl. lia.
  - simpl. lia.
  - vm_compute. reflexivity.
Defined.

(** C10: when the debuggee is not paused, the address of every position at
    which the comparisons pass is stored in the result array before the
    bound is tested: match number [k] (from 0) lands at index [k] for every
    [k] up to and including [MaximumSearchResults], and no entry past that
    index is written.  So once [MaximumSearchResults + 1] positions have
    passed, the last store has gone to index [MaximumSearchResults], one
    past the last entry of an array of [MaximumSearchResults] entries, and
    the function returns TRUE with that many matches counted. *)
Theorem PerformSearchAddress_stores_before_bound_check :
  forall (K : Search.Services) (fuel : nat) (AddressToSaveResults : Buffer)
         (SearchMemRequest : Search.DEBUGGER_SEARCH_MEMORY)
         (StartAddress EndAddress CountOfMatchedCases Len : Z),
    Search.LengthOfEachChunk (Search.ByteSize SearchMemRequest) = Some Len ->
    Search.MemoryType SearchMemRequest = Search.SEARCH_VIRTUAL_MEMORY
    \/ Search.MemoryType SearchMemRequest = Search.SEARCH_PHYSICAL_FROM_VIRTUAL_MEMORY ->
    0 <= StartAddress -> EndAddress + Len <= 2 ^ 64 ->
    Z.max 0 (EndAddress - StartAddress) + Len <= Z.of_nat fuel * Len ->
    0 <= Search.MaximumSearchResults K /\ Search.MaximumSearchResults K + 1 < 2 ^ 32 ->
    let passing :=
      Pattern.Passing K false SearchMemRequest Len StartAddress EndAddress in
    exists o,
      Search.PerformSearchAddress K fuel AddressToSaveResults SearchMemRequest
        StartAddress EndAddress false CountOfMatchedCases = Some o
      /\ Search.Returned o = true
      /\ (forall (k : nat) (m : Z),
            passing !! k = Some m ->
            Z.of_nat k <= Search.MaximumSearchResults K ->
            Search.Results o (Z.of_nat k) = Pattern.SavedValue K SearchMemRequest m)
      /\ (forall j, Search.MaximumSearchResults K < j ->
                    Search.Results o j = AddressToSaveResults j)
      /\ (Search.MaximumSearchResults K < Z.of_nat (length passing) ->
          Search.CountOfMatchedCases o = Search.MaximumSearchResults K + 1
          /\ exists m,
               passing !! Z.to_nat (Search.MaximumSearchResults K) = Some m
               /\ Search.Results o (Search.MaximumSearchResults K)
                  = Pattern.SavedValue K SearchMemRequest m).
Proof.
  intros K fuel res req Start End c0 Len Hlen Htype Hstart Hend Hfuel Hmax passing.
  destruct (PerformSearchAddress_scans K fuel res req Start End false c0 Len
              Hlen Htype Hstart Hend Hfuel)
    as (o & e & Ho & Hret & Hcount & Hres & _ & Hobs).
  fold passing in Hobs.
  exists o. split; [exact Ho |]. split; [exact Hret |].
  apply ExitObservable_eq in Hobs as [Hsamecount Hsame].
  rewrite Hcount, Hsamecount, Hres, Hsame.
  set (s0 := {| Search.Cmp64 := 0; Search.CountOfOccurance := 0;
                Search.IndexToArrayOfResults := 0;
                Search.AddressToSaveResults := res;
                Search.Logged := []; Search.Compared := [] |}).
  pose proof (Replay_results K req Hmax passing s0 0 eq_refl ltac:(lia))
    as [Hstored Hrest].
  pose proof (Replay_counts K req Hmax false passing s0 0 eq_refl eq_refl ltac:(lia))
    as Hreplay.
  assert (Hat : forall (k : nat) (m : Z),
             passing !! k = Some m ->
             Z.of_nat k <= Search.MaximumSearchResults K ->
             Search.AddressToSaveResults
               (Pattern.ExitState (Pattern.Replay K false req passing s0))
               (Z.of_nat k)
             = Pattern.SavedValue K req m).
  { intros k m Hk Hle. apply (Hstored k m Hk). lia. }
  split; [exact Hat |].
  split; [intros j Hj; apply Hrest; right; exact Hj |].
  intros Hmany. split.
  - destruct (Pattern.Replay K false req passing s0); cbn [Pattern.ExitState]; lia.
  - destruct (lookup_lt_is_Some_2 passing (Z.to_nat (Search.MaximumSearchResults K)))
      as [m Hm]; [lia |].
    exists m. split; [exact Hm |].
    specialize (Hat _ _ Hm). rewrite Z2Nat.id in Hat by lia. apply Hat. lia.
Qed.

Lemma PerformSearchAddress_stores_before_bound_check_witness :
  exists o,
    Search.PerformSearchAddress
      (Scenario.search_services 2 Scenario.all_mapped Scenario.zero_memory) 20
      Scenario.zero_memory (Scenario.search_request 0x1000 0x10 Search.SEARCH_BYTE [0])
      0x1000 0x1010 false 0 = Some o
    /\ Search.Returned o = true
    /\ Search.Results o 2 = 0x1002.
Proof.
  destruct (PerformSearchAddress_stores_before_bound_check
              (Scenario.search_services 2 Scenario.all_mapped Scenario.zero_memory) 20
              Scenario.zero_memory
              (Scenario.search_request 0x1000 0x10 Search.SEARCH_BYTE [0])
              0x1000 0x1010 0 1)
    as (o & Ho & Hret & Hstored & _).
  - reflexivity.
  - left. reflexivity.
  - lia.
  - lia.
  - simpl. lia.
  - simpl. lia.
  - exists o. split; [exact Ho |]. split; [exact Hret |].
    apply (Hstored 2%nat 0x1002); [vm_compute; reflexivity | simpl; lia].
Defined.

(** For a search by bytes the comparisons of the scan are all the chunks of
    the pattern. *)
Lemma ComparisonsPass_bytes (K : Search.Services) (paused : bool)
  (req : Search.DEBUGGER_SEARCH_MEMORY) (a : Z) :
  0 <= a < 2 ^ 64 -> 0 < Search.CountOf64Chunks req ->
  Pattern.ComparisonsPass K paused req 1 a = Pattern.AllChunksMatch K paused req 1 a.
Proof.
  intros Ha Hcount. unfold Pattern.ComparisonsPass, Pattern.AllChunksMatch.
  rewrite (seqZ_cons 0) by exact Hcount. cbn [forallb].
  replace (Z.pred (Search.CountOf64Chunks req)) with (Search.CountOf64Chunks req - 1)
    by lia.
  f_equal. unfold Pattern.ChunkMatches, wrap64.
  rewrite Z.mul_0_r, Z.add_0_r, Z.mod_small by exact Ha. reflexivity.
Qed.

(** C2, evaluated: a search by dwords for the two chunks 0x11, 0x22 over
    memory that holds 0x11 at 0x1000 and 0x33 at 0x1004.  Chunk 1 does not
    match at 0x1000, yet 0x1000 is reported: the inner loop starts at index
    4, beyond the last chunk, and no chunk is fetched for it (each of the
    four positions of the range is read once, as a candidate). *)
Theorem PerformSearchAddress_skips_chunks_below_granularity :
  let K := Scenario.search_services 0x1000 Scenario.all_mapped
             Scenario.memory_with_two_dwords in
  let req := Scenario.search_request 0x1000 0x10 Search.SEARCH_DWORD [0x11; 0x22] in
  Pattern.ChunkMatches K false req 4 0x1000 0 = true
  /\ Pattern.ChunkMatches K false req 4 0x1000 1 = false
  /\ Pattern.AllChunksMatch K false req 4 0x1000 = false
  /\ exists o,
       Search.PerformSearchAddress K 10 Scenario.zero_memory req 0x1000 0x1010 false 0
       = Some o
       /\ Search.Returned o = true
       /\ Search.CountOfMatchedCases o = 1
       /\ Search.Results o 0 = 0x1000
       /\ Search.ComparedAt o = [0x100c; 0x1008; 0x1004; 0x1000].
Proof.
  cbv zeta. repeat split; try (vm_compute; reflexivity).
  eexists. split; [vm_compute; reflexivity |].
  repeat split; vm_compute; reflexivity.
Qed.

(** *** The page walk of the wrapper *)

Lemma PAGE_ALIGN_spec (Va : Z) :
  Search.PAGE_ALIGN Va = Va / Search.PAGE_SIZE * Search.PAGE_SIZE.
Proof.
  unfold Search.PAGE_ALIGN, Search.PAGE_SIZE.
  rewrite <- Z.ldiff_land. change (4096 - 1) with (Z.ones 12).
  rewrite Z.ldiff_ones_r by lia.
  rewrite Z.shiftl_mul_pow2, Z.shiftr_div_pow2 by lia. reflexivity.
Qed.

Lemma PAGE_ALIGN_bounds (Va : Z) :
  Search.PAGE_ALIGN Va <= Va < Search.PAGE_ALIGN Va + Search.PAGE_SIZE.
Proof.
  rewrite PAGE_ALIGN_spec. unfold Search.PAGE_SIZE.
  pose proof (Z.div_mod Va 4096 ltac:(lia)).
  pose proof (Z.mod_pos_bound Va 4096 ltac:(lia)). lia.
Qed.

(** Once the base address is saved the walk keeps it, and ends at or after
    the page it is at. *)
Lemma WalkPages_saved (K : Search.Services) (EndAddress TempStartAddress : Z)
  (fuel : nat) :
  EndAddress + Search.PAGE_SIZE <= 2 ^ 64 ->
  forall StartAddress BaseAddress : Z,
    0 <= StartAddress ->
    Z.max 0 (EndAddress - StartAddress) + Search.PAGE_SIZE
    <= Z.of_nat fuel * Search.PAGE_SIZE ->
    exists StartAddress',
      Search.WalkPages K EndAddress TempStartAddress fuel StartAddress BaseAddress true
      = Some (StartAddress', BaseAddress, true)
      /\ StartAddress <= StartAddress'.
Proof.
  intros Hend. unfold Search.PAGE_SIZE in *.
  induction fuel as [| fuel IH]; intros S Base HS Hfuel; [simpl in Hfuel; lia |].
  cbn [Search.WalkPages].
  destruct (S <? EndAddress) eqn:Hlt; [| exists S; split; [reflexivity | lia]].
  apply Z.ltb_lt in Hlt.
  destruct (negb (Search.VirtualAddressToPhysicalAddress K S =? 0));
    [| exists S; split; [reflexivity | lia]].
  cbn [negb]. unfold Search.PAGE_SIZE, wrap64.
  rewrite Z.mod_small by lia.
  destruct (IH (S + 4096) Base ltac:(lia)) as (S' & HS' & Hle).
  { rewrite Nat2Z.inj_succ in Hfuel.
    assert (Hroom : EndAddress - S <= Z.of_nat fuel * 4096) by lia.
    clear IH Hfuel. destruct fuel as [| f]; [simpl in Hroom; lia |].
    rewrite Nat2Z.inj_succ in *. lia. }
  exists S'. split; [exact HS' | lia].
Qed.

(** What the wrapper does with a non-empty virtual range below the top of
    the address space: when the first page has a mapping the whole range
    from the start address to [EndAddress] goes to [PerformSearchAddress],
    whatever the mapping of the pages after the first; when it has none the
    search is refused. *)
Lemma SearchAddressWrapper_virtual (K : Search.Services) (fuel : nat)
  (res : Buffer) (req : Search.DEBUGGER_SEARCH_MEMORY)
  (StartAddress EndAddress : Z) (paused : bool) (c0 : Z) :
  Search.MemoryType req = Search.SEARCH_VIRTUAL_MEMORY ->
  0 <= StartAddress < EndAddress ->
  EndAddress + Search.PAGE_SIZE <= 2 ^ 64 ->
  Z.max 0 (EndAddress - Search.PAGE_ALIGN StartAddress) + Search.PAGE_SIZE
  <= Z.of_nat fuel * Search.PAGE_SIZE ->
  Search.SearchAddressWrapper K fuel res req StartAddress EndAddress paused c0
  = if Search.VirtualAddressToPhysicalAddress K (Search.PAGE_ALIGN StartAddress) =? 0
    then Some {| Search.Returned := false; Search.CountOfMatchedCases := 0;
                 Search.Results := res; Search.LogLines := [];
                 Search.ComparedAt := [] |}
    else Search.PerformSearchAddress K fuel res req StartAddress EndAddress paused 0.
Proof.
  intros Hvirt Hrange Hend Hfuel.
  pose proof (PAGE_ALIGN_bounds StartAddress) as Halign.
  assert (Hnonneg : 0 <= Search.PAGE_ALIGN StartAddress).
  { rewrite PAGE_ALIGN_spec. unfold Search.PAGE_SIZE.
    pose proof (Z.div_pos StartAddress 4096 ltac:(lia) ltac:(lia)). lia. }
  unfold Search.SearchAddressWrapper. rewrite Hvirt.
  rewrite bool_decide_eq_true_2 by reflexivity.
  destruct fuel as [| fuel]; [unfold Search.PAGE_SIZE in Hfuel; simpl in Hfuel; lia |].
  cbn [Search.WalkPages].
  assert (Hlt : (Search.PAGE_ALIGN StartAddress <? EndAddress) = true)
    by (apply Z.ltb_lt; lia).
  rewrite Hlt.
  destruct (Search.VirtualAddressToPhysicalAddress K (Search.PAGE_ALIGN StartAddress) =? 0).
  - reflexivity.
  - cbn [negb]. unfold wrap64 at 1. rewrite Z.mod_small by (unfold Search.PAGE_SIZE in *; lia).
    destruct (WalkPages_saved K EndAddress StartAddress fuel Hend
                (Search.PAGE_ALIGN StartAddress + Search.PAGE_SIZE) StartAddress)
      as (S' & HS' & Hle).
    + unfold Search.PAGE_SIZE. lia.
    + rewrite Nat2Z.inj_succ in Hfuel. unfold Search.PAGE_SIZE in *.
      assert (Hroom : EndAddress - Search.PAGE_ALIGN StartAddress
                      <= Z.of_nat fuel * 4096) by lia.
      clear Hfuel. destruct fuel as [| f]; [simpl in Hroom; lia |].
      rewrite Nat2Z.inj_succ in *. lia.
    + rewrite HS'. cbn [andb].
      assert (Hpast : (StartAddress <? S') = true) by (apply Z.ltb_lt; lia).
      rewrite Hpast. reflexivity.
Qed.

(** C1, evaluated: a virtual search of [[0x1000, 0x4000)] where the page at
    0x2000, strictly between the first and the last page, has no mapping.
    The wrapper does not refuse it: it returns TRUE with one match, the
    scan fetched a chunk at 0x2000 inside the unmapped page, and the command
    hands the match at 0x3000, beyond that page, to the user. *)
Theorem SearchAddressWrapper_scans_past_unmapped_page :
  let K := Scenario.search_services 0x1000 Scenario.hole_at_0x2000
             Scenario.memory_with_pattern_at_0x3000 in
  let req := Scenario.search_request 0x1000 0x3000 Search.SEARCH_QWORD
               [0x4141414141414141] in
  Search.VirtualAddressToPhysicalAddress K 0x1000 <> 0
  /\ Search.VirtualAddressToPhysicalAddress K 0x2000 = 0
  /\ Search.VirtualAddressToPhysicalAddress K 0x3000 <> 0
  /\ (exists o,
        Search.SearchAddressWrapper K 2000 Scenario.zero_memory req 0x1000 0x4000 false 0
        = Some o
        /\ Search.Returned o = true
        /\ Search.CountOfMatchedCases o = 1
        /\ Search.Results o 0 = 0x3000
        /\ existsb (Z.eqb 0x2000) (Search.ComparedAt o) = true)
  /\ (exists UsermodeBuffer,
        Search.DebuggerCommandSearchMemory K 2000 req Scenario.zero_memory
        = Some (STATUS_SUCCESS, UsermodeBuffer)
        /\ UsermodeBuffer 0 = 0x3000).
Proof.
  cbv zeta. split; [vm_compute; discriminate |].
  split; [vm_compute; reflexivity |].
  split; [vm_compute; discriminate |].
  split.
  - eexists. split; [vm_compute; reflexivity |].
    repeat split; vm_compute; reflexivity.
  - eexists. split; [vm_compute; reflexivity |]. vm_compute. reflexivity.
Qed.

(** * Further properties *)

(** ** Reading memory from vmx-root *)

(** X1: the vmx-root read returns TRUE exactly when it leaves the success
    status in the request; when it returns FALSE the caller's buffer and
    [*ReturnSize] are as they were, the address mode is not inferred, and
    the status names the check that failed; when it returns TRUE
    [*ReturnSize] is the requested size. *)
Theorem ReadMemoryVmxRoot_validates_before_reading :
  forall (K : Read.Services) (g_BreakpointsListHead : list Bp.DEBUGGEE_BP_DESCRIPTOR)
         (ReadMemRequest : Read.DEBUGGER_READ_MEMORY) (UserBuffer : Buffer)
         (ReturnSize : Z),
    let o :=
      Read.DebuggerCommandReadMemoryVmxRoot K g_BreakpointsListHead ReadMemRequest
        UserBuffer ReturnSize in
    let status := Read.KernelStatus (Read.Request o) in
    (Read.Returned o = true <-> status = DEBUGGER_OPERATION_WAS_SUCCESSFUL)
    /\ (Read.Returned o = true -> Read.ReturnSize o = Read.Size ReadMemRequest)
    /\ (Read.Returned o = false ->
        Read.UserBuffer o = UserBuffer
        /\ Read.ReturnSize o = ReturnSize
        /\ Read.AddressMode (Read.Request o) = Read.AddressMode ReadMemRequest
        /\ match Read.MemoryType ReadMemRequest with
           | Read.DEBUGGER_READ_PHYSICAL_ADDRESS =>
               status = DEBUGGER_ERROR_INVALID_PHYSICAL_ADDRESS
               /\ Read.CheckAddressPhysical K (Read.Address ReadMemRequest) = false
           | Read.DEBUGGER_READ_VIRTUAL_ADDRESS =>
               status = DEBUGGER_ERROR_INVALID_ADDRESS
               /\ Read.CheckAccessValidityAndSafety K (Read.Address ReadMemRequest)
                    (Read.Size ReadMemRequest) = false
           | Read.DEBUGGER_READ_MEMORY_TYPE_RAW _ =>
               status = DEBUGGER_ERROR_MEMORY_TYPE_INVALID
           end).
Proof.
  intros K bps req buf rs. cbv zeta.
  unfold Read.DebuggerCommandReadMemoryVmxRoot.
  destruct (Read.MemoryType req) eqn:Hty.
  - rewrite bool_decide_eq_true_2 by reflexivity.
    destruct (Read.CheckAddressPhysical K (Read.Address req)); simpl;
      (split; [split; intros H; (reflexivity || discriminate H) |]);
      (split; [intros H; (reflexivity || discriminate H) |]);
      intros H; try discriminate H; auto.
  - rewrite bool_decide_eq_false_2 by discriminate.
    rewrite bool_decide_eq_true_2 by reflexivity.
    destruct (Read.CheckAccessValidityAndSafety K _ _); simpl;
      (split; [split; intros H; (reflexivity || discriminate H) |]);
      (split; [intros H; (reflexivity || discriminate H) |]);
      intros H; try discriminate H; auto.
  - rewrite !bool_decide_eq_false_2 by discriminate. simpl.
    split; [split; intros H; discriminate H |].
    split; [intros H; discriminate H |]. auto.
Qed.

Lemma RestoreBreakpointByte_changes (Address_ Size_ : Z) (b : Buffer)
  (d : Bp.DEBUGGEE_BP_DESCRIPTOR) (j : Z) :
  Read.RestoreBreakpointByte Address_ Size_ b d j <> b j ->
  Read.BreakpointInRange Address_ Size_ d = true
  /\ Bp.Address d - Address_ = j
  /\ b j = 0xcc
  /\ Read.RestoreBreakpointByte Address_ Size_ b d j = Bp.PreviousByte d.
Proof.
  unfold Read.RestoreBreakpointByte.
  destruct (Read.BreakpointInRange Address_ Size_ d); [| intros H; now contradiction H].
  destruct (b (Bp.Address d - Address_) =? 204) eqn:Hcc;
    [| intros H; now contradiction H].
  apply Z.eqb_eq in Hcc. unfold store.
  destruct (j =? Bp.Address d - Address_) eqn:Hj; [| intros H; now contradiction H].
  apply Z.eqb_eq in Hj. subst j. auto.
Qed.

Lemma RestoreBreakpointBytes_changes (l : list Bp.DEBUGGEE_BP_DESCRIPTOR)
  (Address_ Size_ : Z) (j : Z) :
  forall b : Buffer,
    (b j <> 0xcc -> Read.RestoreBreakpointBytes l Address_ Size_ b j = b j)
    /\ (Read.RestoreBreakpointBytes l Address_ Size_ b j <> b j ->
        b j = 0xcc
        /\ exists d, In d l
             /\ Read.BreakpointInRange Address_ Size_ d = true
             /\ Bp.Address d - Address_ = j
             /\ Read.RestoreBreakpointBytes l Address_ Size_ b j = Bp.PreviousByte d).
Proof.
  induction l as [| e l IH]; intros b; cbn [Read.RestoreBreakpointBytes].
  - split; [reflexivity | intros H; now contradiction H].
  - set (b' := Read.RestoreBreakpointByte Address_ Size_ b e).
    destruct (IH b') as [IHkeep IHchange].
    destruct (Z.eq_dec (b' j) (b j)) as [Hsame | Hdiff].
    + split.
      * intros Hcc. rewrite IHkeep by (rewrite Hsame; exact Hcc). exact Hsame.
      * intros Hne. rewrite <- Hsame in Hne.
        destruct (IHchange Hne) as (Hcc & d & Hd & Hin & Hoff & Hval).
        split; [rewrite <- Hsame; exact Hcc |].
        exists d. repeat split; try assumption. now right.
    + destruct (RestoreBreakpointByte_changes Address_ Size_ b e j Hdiff)
        as (Hin & Hoff & Hcc & Hval).
      split; [intros Hne; contradiction |].
      intros _. split; [exact Hcc |].
      destruct (Z.eq_dec (Read.RestoreBreakpointBytes l Address_ Size_ b' j) (b' j))
        as [Hkept | Hchanged].
      * exists e. repeat split; try assumption; [now left |].
        rewrite Hkept. exact Hval.
      * destruct (IHchange Hchanged) as (_ & d & Hd & Hin' & Hoff' & Hval').
        exists d. repeat split; try assumption. now right.
Qed.

(** X2: whatever the breakpoint table holds (also several descriptors for
    one address), the vmx-root virtual read returns every byte that did not
    come back as 0xCC as it was read, and a byte it returns changed was
    0xCC and is now the previous byte of a descriptor of the table that
    passes the range test at that offset. *)
Theorem ReadMemoryVmxRoot_changes_only_trap_bytes :
  forall (K : Read.Services) (g_BreakpointsListHead : list Bp.DEBUGGEE_BP_DESCRIPTOR)
         (ReadMemRequest : Read.DEBUGGER_READ_MEMORY) (UserBuffer : Buffer)
         (ReturnSize j : Z),
    let Address_ := Read.Address ReadMemRequest in
    let Size_ := Read.Size ReadMemRequest in
    Read.MemoryType ReadMemRequest = Read.DEBUGGER_READ_VIRTUAL_ADDRESS ->
    Read.CheckAccessValidityAndSafety K Address_ Size_ = true ->
    let raw := Read.MemoryMapperReadMemorySafeOnTargetProcess K Address_ UserBuffer Size_ in
    let o :=
      Read.DebuggerCommandReadMemoryVmxRoot K g_BreakpointsListHead ReadMemRequest
        UserBuffer ReturnSize in
    (raw j <> 0xcc -> Read.UserBuffer o j = raw j)
    /\ (Read.UserBuffer o j <> raw j ->
        raw j = 0xcc
        /\ exists d, In d g_BreakpointsListHead
             /\ Read.BreakpointInRange Address_ Size_ d = true
             /\ Bp.Address d - Address_ = j
             /\ Read.UserBuffer o j = Bp.PreviousByte d).
Proof.
  intros K bps req buf rs j Address_ Size_ Hvirt Hcheck raw o.
  destruct (ReadMemoryVmxRoot_virtual K bps req buf rs Hvirt Hcheck) as (_ & _ & Hbuf).
  fold Address_ Size_ raw o in Hbuf. rewrite Hbuf.
  apply RestoreBreakpointBytes_changes.
Qed.

Lemma ReadMemoryVmxRoot_changes_only_trap_bytes_witness :
  Read.UserBuffer
    (Read.DebuggerCommandReadMemoryVmxRoot Scenario.read_services Scenario.breakpoints
       (Scenario.read_request 4 0x1000 4) Scenario.buffer_of_traps 0) 1
  = 1.
Proof.
  refine (proj1 (ReadMemoryVmxRoot_changes_only_trap_bytes Scenario.read_services
                   Scenario.breakpoints (Scenario.read_request 4 0x1000 4)
                   Scenario.buffer_of_traps 0 1 eq_refl eq_refl) _).
  vm_compute. discriminate.
Defined.

(** X3: a vmx-root read of physical memory that passes the address check
    returns the bytes exactly as the safe physical reader left them: the
    breakpoint table is not consulted, and the address mode is not inferred
    even when the request asks for it. *)
Theorem ReadMemoryVmxRoot_physical_is_not_unshadowed :
  forall (K : Read.Services)
         (g_BreakpointsListHead : list Bp.DEBUGGEE_BP_DESCRIPTOR)
         (ReadMemRequest : Read.DEBUGGER_READ_MEMORY) (UserBuffer : Buffer)
         (ReturnSize : Z),
    Read.MemoryType ReadMemRequest = Read.DEBUGGER_READ_PHYSICAL_ADDRESS ->
    Read.CheckAddressPhysical K (Read.Address ReadMemRequest) = true ->
    let o :=
      Read.DebuggerCommandReadMemoryVmxRoot K g_BreakpointsListHead ReadMemRequest
        UserBuffer ReturnSize in
    Read.Returned o = true
    /\ Read.UserBuffer o
       = Read.MemoryMapperReadMemorySafeByPhysicalAddress K
           (Read.Address ReadMemRequest) UserBuffer (Read.Size ReadMemRequest)
    /\ Read.AddressMode (Read.Request o) = Read.AddressMode ReadMemRequest
    /\ o = Read.DebuggerCommandReadMemoryVmxRoot K [] ReadMemRequest
             UserBuffer ReturnSize.
Proof.
  intros K bps req buf rs Hphys Hcheck o. subst o.
  unfold Read.DebuggerCommandReadMemoryVmxRoot.
  rewrite Hphys, Hcheck. rewrite bool_decide_eq_true_2 by reflexivity.
  rewrite bool_decide_eq_false_2 by discriminate. simpl. auto.
Qed.

Lemma ReadMemoryVmxRoot_physical_is_not_unshadowed_witness :
  Read.UserBuffer
    (Read.DebuggerCommandReadMemoryVmxRoot Scenario.read_services Scenario.breakpoints
       {| Read.Pid := 4; Read.Address := 0x1000; Read.Size := 4;
          Read.GetAddressMode := true;
          Read.AddressMode := Read.DEBUGGER_READ_ADDRESS_MODE_RAW 0;
          Read.MemoryType := Read.DEBUGGER_READ_PHYSICAL_ADDRESS;
          Read.KernelStatus := DEBUGGER_STATUS_RAW 0 |}
       Scenario.buffer_of_traps 0) 2
  = 0xcc.
Proof.
  pose proof (ReadMemoryVmxRoot_physical_is_not_unshadowed Scenario.read_services
                Scenario.breakpoints
                {| Read.Pid := 4; Read.Address := 0x1000; Read.Size := 4;
                   Read.GetAddressMode := true;
                   Read.AddressMode := Read.DEBUGGER_READ_ADDRESS_MODE_RAW 0;
                   Read.MemoryType := Read.DEBUGGER_READ_PHYSICAL_ADDRESS;
                   Read.KernelStatus := DEBUGGER_STATUS_RAW 0 |}
                Scenario.buffer_of_traps 0 eq_refl eq_refl) as (_ & Hbuf & _).
  rewrite Hbuf. reflexivity.
Defined.

Lemma ReadMemoryVmxRoot_validates_before_reading_witness :
  let o :=
    Read.DebuggerCommandReadMemoryVmxRoot Scenario.read_services Scenario.breakpoints
      {| Read.Pid := 4; Read.Address := 0x1000; Read.Size := 4;
         Read.GetAddressMode := true;
         Read.AddressMode := Read.DEBUGGER_READ_ADDRESS_MODE_RAW 0;
         Read.MemoryType := Read.DEBUGGER_READ_MEMORY_TYPE_RAW 7;
         Read.KernelStatus := DEBUGGER_STATUS_RAW 0 |}
      Scenario.buffer_of_traps 9 in
  Read.UserBuffer o = Scenario.buffer_of_traps /\ Read.ReturnSize o = 9.
Proof.
  pose proof (ReadMemoryVmxRoot_validates_before_reading Scenario.read_services
                Scenario.breakpoints
                {| Read.Pid := 4; Read.Address := 0x1000; Read.Size := 4;
                   Read.GetAddressMode := true;
                   Read.AddressMode := Read.DEBUGGER_READ_ADDRESS_MODE_RAW 0;
                   Read.MemoryType := Read.DEBUGGER_READ_MEMORY_TYPE_RAW 7;
                   Read.KernelStatus := DEBUGGER_STATUS_RAW 0 |}
                Scenario.buffer_of_traps 9) as (_ & _ & Hfail).
  destruct (Hfail eq_refl) as (Hbuf & Hsize & _).
  split; [exact Hbuf | exact Hsize].
Defined.

(** ** MSR access on all cores and on one core *)

Lemma fold_alter_lookup (f : MsrState.t -> MsrState.t) (g : list MsrState.t)
  (n : nat) (k : nat) :
  fold_left (fun g i => alter f (Z.to_nat i) g) (seqZ 0 (Z.of_nat n)) g !! k
  = if decide (k < n)%nat then f <$> g !! k else g !! k.
Proof.
  induction n as [| n IH].
  - rewrite seqZ_nil by (simpl; lia). cbn [fold_left].
    destruct (decide (k < 0)%nat); [lia | reflexivity].
  - rewrite seqZ_S, fold_left_app. cbn [fold_left].
    rewrite Z.add_0_l, Nat2Z.id.
    destruct (decide (k = n)) as [-> | Hne].
    + rewrite list_lookup_alter_eq, IH.
      destruct (decide (n < n)%nat); [lia |].
      destruct (decide (n < S n)%nat); [reflexivity | lia].
    + rewrite list_lookup_alter_ne by congruence. rewrite IH.
      destruct (decide (k < n)%nat), (decide (k < S n)%nat); try lia; reflexivity.
Qed.

Lemma fold_alter_length (f : MsrState.t -> MsrState.t) (l : list Z)
  (g : list MsrState.t) :
  length (fold_left (fun g i => alter f (Z.to_nat i) g) l g) = length g.
Proof.
  revert g. induction l as [| i l IH]; intros g; simpl; [reflexivity |].
  rewrite IH. apply length_alter.
Qed.

Lemma fold_store_lookup (v : Z -> Z) (b : Buffer) (n : nat) (j : Z) :
  fold_left (fun b i => store b i (v i)) (seqZ 0 (Z.of_nat n)) b j
  = if (0 <=? j) && (j <? Z.of_nat n) then v j else b j.
Proof.
  induction n as [| n IH].
  - rewrite seqZ_nil by (simpl; lia). cbn [fold_left]. change (Z.of_nat 0) with 0.
    destruct (0 <=? j) eqn:H0; cbn [andb]; [| reflexivity].
    destruct (j <? 0) eqn:H1; [apply Z.ltb_lt in H1; apply Z.leb_le in H0; lia |].
    reflexivity.
  - rewrite seqZ_S, fold_left_app. cbn [fold_left]. rewrite Z.add_0_l.
    unfold store at 1. destruct (j =? Z.of_nat n) eqn:Hj.
    + apply Z.eqb_eq in Hj. subst j.
      replace (0 <=? Z.of_nat n) with true by (symmetry; apply Z.leb_le; lia).
      replace (Z.of_nat n <? Z.of_nat (S n)) with true
        by (symmetry; apply Z.ltb_lt; lia).
      reflexivity.
    + apply Z.eqb_neq in Hj. rewrite IH.
      destruct (0 <=? j); simpl; [| reflexivity].
      destruct (j <? Z.of_nat n) eqn:H1, (j <? Z.of_nat (S n)) eqn:H2;
        try reflexivity;
        [apply Z.ltb_lt in H1; apply Z.ltb_ge in H2 | apply Z.ltb_ge in H1; apply Z.ltb_lt in H2];
        lia.
Qed.

Lemma seqZ_to_nat (m n : Z) : seqZ m n = seqZ m (Z.of_nat (Z.to_nat n)).
Proof. unfold seqZ. now rewrite Nat2Z.id. Qed.

(** X4: a request for all cores stages the MSR number (and, for a write,
    the value) in the slot of every core below the processor count before
    the broadcast runs, keeps the value of a slot staged for a read, leaves
    the slots of no core as they are, and hands exactly that array to the
    broadcast.  A write gives no output: the caller's buffer is untouched
    and the output size is 0. *)
Theorem ReadOrWriteMsr_all_cores_stages_every_slot :
  forall (K : Msr.Services) (g_DbgState : list MsrState.t)
         (ReadOrWriteMsrRequest : Msr.DEBUGGER_READ_AND_WRITE_ON_MSR)
         (UserBuffer : Buffer) (ReturnSize : Z),
    Msr.CoreNumber ReadOrWriteMsrRequest
      = Msr.DEBUGGER_READ_AND_WRITE_ON_MSR_APPLY_ALL_CORES K ->
    let o := Msr.DebuggerReadOrWriteMsr K g_DbgState ReadOrWriteMsrRequest
               UserBuffer ReturnSize in
    let below (k : nat) := Z.of_nat k < Msr.KeQueryActiveProcessorCount K in
    (Msr.ActionType ReadOrWriteMsrRequest = Msr.DEBUGGER_MSR_WRITE ->
     exists staged,
       Msr.g_DbgState o = Msr.KeGenericCallDpc K Msr.DpcRoutineWriteMsrToAllCores staged
       /\ length staged = length g_DbgState
       /\ (forall k s, g_DbgState !! k = Some s -> below k ->
             staged !! k = Some {| MsrState.Msr := Msr.Msr ReadOrWriteMsrRequest;
                                   MsrState.Value := Msr.Value ReadOrWriteMsrRequest |})
       /\ (forall k, ~ below k -> staged !! k = g_DbgState !! k)
       /\ Msr.Status o = STATUS_SUCCESS
       /\ Msr.UserBuffer o = UserBuffer
       /\ Msr.ReturnSize o = 0)
    /\
    (Msr.ActionType ReadOrWriteMsrRequest = Msr.DEBUGGER_MSR_READ ->
     exists staged,
       Msr.g_DbgState o = Msr.KeGenericCallDpc K Msr.DpcRoutineReadMsrToAllCores staged
       /\ length staged = length g_DbgState
       /\ (forall k s, g_DbgState !! k = Some s -> below k ->
             staged !! k = Some {| MsrState.Msr := Msr.Msr ReadOrWriteMsrRequest;
                                   MsrState.Value := MsrState.Value s |})
       /\ (forall k, ~ below k -> staged !! k = g_DbgState !! k)).
Proof.
  intros K g req buf rs Hall o below. subst o.
  unfold Msr.DebuggerReadOrWriteMsr. rewrite Hall, Z.eqb_refl.
  rewrite (seqZ_to_nat 0 (Msr.KeQueryActiveProcessorCount K)).
  assert (Hbelow : forall k, below k <-> (k < Z.to_nat (Msr.KeQueryActiveProcessorCount K))%nat).
  { intros k. unfold below. lia. }
  split; intros Hact; rewrite Hact.
  - rewrite bool_decide_eq_true_2 by reflexivity. cbn -[seqZ].
    eexists. split; [reflexivity |]. split; [apply fold_alter_length |].
    split; [| split].
    + intros k s Hk Hin. rewrite fold_alter_lookup.
      case_decide as Hd; [| apply Hbelow in Hin; contradiction].
      rewrite Hk. reflexivity.
    + intros k Hout. rewrite fold_alter_lookup.
      case_decide as Hd; [apply Hbelow in Hd; contradiction | reflexivity].
    + auto.
  - rewrite bool_decide_eq_false_2 by discriminate.
    rewrite bool_decide_eq_true_2 by reflexivity. cbn -[seqZ].
    eexists. split; [reflexivity |]. split; [apply fold_alter_length |].
    split.
    + intros k s Hk Hin. rewrite fold_alter_lookup.
      case_decide as Hd; [| apply Hbelow in Hin; contradiction].
      rewrite Hk. reflexivity.
    + intros k Hout. rewrite fold_alter_lookup.
      case_decide as Hd; [apply Hbelow in Hd; contradiction | reflexivity].
Qed.

Lemma ReadOrWriteMsr_all_cores_stages_every_slot_witness :
  exists staged,
    Msr.g_DbgState
      (Msr.DebuggerReadOrWriteMsr Scenario.msr_services Scenario.msr_slots
         (Scenario.msr_request Msr.DEBUGGER_MSR_WRITE 0xffffffff)
         Scenario.zero_memory 5)
    = Msr.KeGenericCallDpc Scenario.msr_services Msr.DpcRoutineWriteMsrToAllCores staged
    /\ staged !! 3%nat = Some {| MsrState.Msr := 0xC0000082; MsrState.Value := 0x1234 |}.
Proof.
  destruct (proj1 (ReadOrWriteMsr_all_cores_stages_every_slot Scenario.msr_services
                     Scenario.msr_slots
                     (Scenario.msr_request Msr.DEBUGGER_MSR_WRITE 0xffffffff)
                     Scenario.zero_memory 5 eq_refl) eq_refl)
    as (staged & Hstate & _ & Hstaged & _).
  exists staged. split; [exact Hstate |].
  apply (Hstaged 3%nat {| MsrState.Msr := 4; MsrState.Value := 44 |}).
  - reflexivity.
  - simpl. lia.
Defined.

(** X5: a read on all cores succeeds, reports 8 bytes per processor, and
    fills the caller's buffer in core order: entry [i] is the value found in
    slot [i] after the broadcast, for every core below the processor count,
    and no other entry of the buffer changes. *)
Theorem ReadOrWriteMsr_all_cores_read_gathers_in_core_order :
  forall (K : Msr.Services) (g_DbgState : list MsrState.t)
         (ReadOrWriteMsrRequest : Msr.DEBUGGER_READ_AND_WRITE_ON_MSR)
         (UserBuffer : Buffer) (ReturnSize : Z),
    Msr.ActionType ReadOrWriteMsrRequest = Msr.DEBUGGER_MSR_READ ->
    Msr.CoreNumber ReadOrWriteMsrRequest
      = Msr.DEBUGGER_READ_AND_WRITE_ON_MSR_APPLY_ALL_CORES K ->
    let o := Msr.DebuggerReadOrWriteMsr K g_DbgState ReadOrWriteMsrRequest
               UserBuffer ReturnSize in
    Msr.Status o = STATUS_SUCCESS
    /\ Msr.ReturnSize o = 8 * Msr.KeQueryActiveProcessorCount K
    /\ (forall i, 0 <= i < Msr.KeQueryActiveProcessorCount K ->
          Msr.UserBuffer o i = Msr.SlotValue (Msr.g_DbgState o) i)
    /\ (forall j, ~ (0 <= j < Msr.KeQueryActiveProcessorCount K) ->
          Msr.UserBuffer o j = UserBuffer j).
Proof.
  intros K g req buf rs Hact Hall o. subst o.
  unfold Msr.DebuggerReadOrWriteMsr. rewrite Hact, Hall, Z.eqb_refl.
  rewrite bool_decide_eq_false_2 by discriminate.
  rewrite bool_decide_eq_true_2 by reflexivity.
  cbn -[seqZ]. split; [reflexivity |]. split; [reflexivity |].
  rewrite (seqZ_to_nat 0 (Msr.KeQueryActiveProcessorCount K)).
  split.
  - intros i Hi.
    rewrite (fold_store_lookup (fun i => Msr.SlotValue _ i)).
    replace (0 <=? i) with true by (symmetry; apply Z.leb_le; lia).
    replace (i <? _) with true by (symmetry; apply Z.ltb_lt; lia).
    reflexivity.
  - intros j Hj.
    rewrite (fold_store_lookup (fun i => Msr.SlotValue _ i)).
    destruct (0 <=? j) eqn:H0; simpl; [| reflexivity].
    destruct (j <? _) eqn:H1; [| reflexivity].
    apply Z.leb_le in H0. apply Z.ltb_lt in H1. lia.
Qed.

Lemma ReadOrWriteMsr_all_cores_read_gathers_in_core_order_witness :
  let o := Msr.DebuggerReadOrWriteMsr Scenario.msr_services Scenario.msr_slots
             (Scenario.msr_request Msr.DEBUGGER_MSR_READ 0xffffffff)
             Scenario.zero_memory 0 in
  Msr.ReturnSize o = 32 /\ Msr.UserBuffer o 3 = 3000 + 0xC0000082.
Proof.
  destruct (ReadOrWriteMsr_all_cores_read_gathers_in_core_order Scenario.msr_services
              Scenario.msr_slots (Scenario.msr_request Msr.DEBUGGER_MSR_READ 0xffffffff)
              Scenario.zero_memory 0 eq_refl eq_refl)
    as (_ & Hsize & Hfill & _).
  split; [exact Hsize |].
  rewrite (Hfill 3) by (simpl; lia). reflexivity.
Defined.

(** X6: a read for one core in range stages the MSR number in the slot of
    that core only and dispatches the routine to it.  When the dispatch
    fails its status is returned, the caller's buffer is untouched and the
    output size is 0; when it succeeds entry 0 of the buffer receives the
    value of that core's slot, no other entry changes, and the output size
    is 8. *)
Theorem ReadOrWriteMsr_single_core_read :
  forall (K : Msr.Services) (g_DbgState : list MsrState.t)
         (ReadOrWriteMsrRequest : Msr.DEBUGGER_READ_AND_WRITE_ON_MSR)
         (UserBuffer : Buffer) (ReturnSize : Z),
    Msr.ActionType ReadOrWriteMsrRequest = Msr.DEBUGGER_MSR_READ ->
    let Core := Msr.CoreNumber ReadOrWriteMsrRequest in
    Core <> Msr.DEBUGGER_READ_AND_WRITE_ON_MSR_APPLY_ALL_CORES K ->
    0 <= Core < Msr.KeQueryActiveProcessorCount K ->
    let o := Msr.DebuggerReadOrWriteMsr K g_DbgState ReadOrWriteMsrRequest
               UserBuffer ReturnSize in
    exists staged,
      (forall k, staged !! k
                 = if decide (k = Z.to_nat Core)
                   then MsrState.set_Msr (Msr.Msr ReadOrWriteMsrRequest) <$> g_DbgState !! k
                   else g_DbgState !! k)
      /\ let r := Msr.DpcRoutineRunTaskOnSingleCore K Core Msr.DpcRoutinePerformReadMsr
                    staged in
         Msr.g_DbgState o = snd r
         /\ (fst r <> STATUS_SUCCESS ->
             Msr.Status o = fst r /\ Msr.UserBuffer o = UserBuffer /\ Msr.ReturnSize o = 0)
         /\ (fst r = STATUS_SUCCESS ->
             Msr.Status o = STATUS_SUCCESS
             /\ Msr.UserBuffer o 0 = Msr.SlotValue (snd r) Core
             /\ (forall j, j <> 0 -> Msr.UserBuffer o j = UserBuffer j)
             /\ Msr.ReturnSize o = 8).
Proof.
  intros K g req buf rs Hact Core Hsingle Hrange o. subst o.
  unfold Msr.DebuggerReadOrWriteMsr. fold Core. rewrite Hact.
  rewrite bool_decide_eq_false_2 by discriminate.
  rewrite bool_decide_eq_true_2 by reflexivity.
  apply Z.eqb_neq in Hsingle. rewrite Hsingle.
  replace (Msr.KeQueryActiveProcessorCount K <=? Core) with false
    by (symmetry; apply Z.leb_gt; lia).
  exists (alter (MsrState.set_Msr (Msr.Msr req)) (Z.to_nat Core) g). split.
  - intros k. destruct (decide (k = Z.to_nat Core)) as [-> | Hne].
    + apply list_lookup_alter_eq.
    + apply list_lookup_alter_ne. congruence.
  - cbv zeta.
    destruct (Msr.DpcRoutineRunTaskOnSingleCore K Core Msr.DpcRoutinePerformReadMsr _)
      as [St g2].
    cbn [fst snd]. destruct (decide (St = STATUS_SUCCESS)) as [-> | Hne].
    + rewrite bool_decide_eq_true_2 by reflexivity.
      cbn [negb Msr.Status Msr.g_DbgState Msr.UserBuffer Msr.ReturnSize].
      split; [reflexivity |]. split; [intros H; now contradiction H |].
      intros _. split; [reflexivity |]. split; [apply store_same |].
      split; [intros j Hj; now apply store_other | reflexivity].
    + rewrite bool_decide_eq_false_2 by exact Hne.
      cbn [negb Msr.Status Msr.g_DbgState Msr.UserBuffer Msr.ReturnSize].
      split; [reflexivity |]. split; [auto | intros H; contradiction].
Qed.

Lemma ReadOrWriteMsr_single_core_read_witness :
  let o := Msr.DebuggerReadOrWriteMsr Scenario.msr_services Scenario.msr_slots
             (Scenario.msr_request Msr.DEBUGGER_MSR_READ 2) Scenario.zero_memory 0 in
  Msr.Status o = STATUS_SUCCESS /\ Msr.ReturnSize o = 8.
Proof.
  assert (Hsingle : 2 <> 0xffffffff) by discriminate.
  assert (Hrange : 0 <= 2 < 4) by lia.
  destruct (ReadOrWriteMsr_single_core_read Scenario.msr_services Scenario.msr_slots
              (Scenario.msr_request Msr.DEBUGGER_MSR_READ 2) Scenario.zero_memory 0
              eq_refl Hsingle Hrange)
    as (staged & _ & _ & _ & Hok).
  destruct (Hok eq_refl) as (Hstatus & _ & _ & Hsize).
  split; [exact Hstatus | exact Hsize].
Defined.

(** ** Editing memory *)

Lemma LengthOfEachChunk_cases (E : Edit.ByteSizeEnumerators) (b Len : Z) :
  Edit.LengthOfEachChunk E b = Some Len -> Len = 1 \/ Len = 4 \/ Len = 8.
Proof.
  unfold Edit.LengthOfEachChunk.
  destruct (b =? Edit.EDIT_BYTE E); [intros H; inversion H; auto |].
  destruct (b =? Edit.EDIT_DWORD E); [intros H; inversion H; auto |].
  destruct (b =? Edit.EDIT_QWORD E); [intros H; inversion H; auto |].
  discriminate.
Qed.

Lemma fold_chunks_copies (Write : Z -> Z -> Z -> Buffer -> Buffer)
  (Address_ : Z) (Payload : Buffer) (Len : Z) (m : Buffer) (n : nat) :
  Chunks.CopiesLowBytes Write ->
  0 < Len -> 0 <= Address_ ->
  Address_ + Z.of_nat n * Len <= 2 ^ 64 ->
  let m' :=
    fold_left
      (fun m i => Write (wrap64 (Address_ + i * Len)) (Payload i) Len m)
      (seqZ 0 (Z.of_nat n)) m in
  (forall i j, 0 <= i < Z.of_nat n -> 0 <= j < Len ->
     m' (Address_ + i * Len + j) = Chunks.ByteOf (Payload i) j)
  /\ (forall x, ~ (Address_ <= x < Address_ + Z.of_nat n * Len) -> m' x = m x).
Proof.
  intros Hcopy Hlen Haddr.
  induction n as [| n IH]; intros Hfit; cbv zeta.
  - rewrite seqZ_nil by (simpl; lia). cbn [fold_left].
    split; [intros i j Hi; simpl in Hi; lia | reflexivity].
  - rewrite seqZ_S, fold_left_app. cbn [fold_left]. rewrite Z.add_0_l.
    rewrite Nat2Z.inj_succ in *.
    assert (Hn : 0 <= Z.of_nat n * Len) by (apply Z.mul_nonneg_nonneg; lia).
    destruct IH as [IHin IHout]; [lia |].
    unfold wrap64. rewrite Z.mod_small by lia.
    match goal with |- context [Write ?a ?slot Len ?m0] =>
      destruct (Hcopy a slot Len m0 ltac:(lia) ltac:(lia)) as [Hin Hout] end.
    split.
    + intros i j Hi Hj. destruct (Z.eq_dec i (Z.of_nat n)) as [-> | Hne].
      * apply Hin. exact Hj.
      * rewrite Hout by nia. apply IHin; lia.
    + intros x Hx. rewrite Hout by nia. apply IHout. nia.
Qed.

(** The loop over the chunks, for a writer that copies bytes: chunk [i]
    of the payload lands at [Address + i * Len], and nothing outside the
    edited range changes. *)
Lemma WriteChunks_copies (Write : Z -> Z -> Z -> Buffer -> Buffer)
  (req : Edit.DEBUGGER_EDIT_MEMORY) (Len : Z) (m : Buffer) :
  Chunks.CopiesLowBytes Write ->
  0 < Len -> 0 <= Edit.Address req -> 0 <= Edit.CountOf64Chunks req ->
  Edit.Address req + Edit.CountOf64Chunks req * Len <= 2 ^ 64 ->
  let m' := Edit.WriteChunks Write req Len m in
  (forall i j, 0 <= i < Edit.CountOf64Chunks req -> 0 <= j < Len ->
     m' (Edit.Address req + i * Len + j) = Chunks.ByteOf (Edit.Payload req i) j)
  /\ (forall x,
        ~ (Edit.Address req <= x < Edit.Address req + Edit.CountOf64Chunks req * Len) ->
        m' x = m x).
Proof.
  intros Hcopy Hlen Haddr Hcount Hfit. unfold Edit.WriteChunks.
  pose proof (fold_chunks_copies Write (Edit.Address req) (Edit.Payload req) Len m
                (Z.to_nat (Edit.CountOf64Chunks req)) Hcopy Hlen Haddr) as H.
  rewrite Z2Nat.id in H by exact Hcount. apply H. exact Hfit.
Qed.

Lemma write_bytes_outside (n : nat) :
  forall (a slot : Z) (m : Buffer) (x : Z),
    0 <= a -> a + Z.of_nat n <= 2 ^ 64 ->
    ~ (a <= x < a + Z.of_nat n) ->
    Scenario.write_bytes n a slot m x = m x.
Proof.
  induction n as [| n IH]; intros a slot m x Ha Hfit Hx; cbn [Scenario.write_bytes];
    [reflexivity |].
  rewrite Nat2Z.inj_succ in *.
  destruct n as [| n'].
  - cbn [Scenario.write_bytes]. apply store_other. lia.
  - unfold wrap64. rewrite Z.mod_small by lia.
    rewrite IH by lia. apply store_other. lia.
Qed.

Lemma write_bytes_inside (n : nat) :
  forall (a slot : Z) (m : Buffer) (j : Z),
    0 <= a -> a + Z.of_nat n <= 2 ^ 64 ->
    0 <= j < Z.of_nat n ->
    Scenario.write_bytes n a slot m (a + j) = Chunks.ByteOf slot j.
Proof.
  induction n as [| n IH]; intros a slot m j Ha Hfit Hj; [simpl in Hj; lia |].
  cbn [Scenario.write_bytes]. rewrite Nat2Z.inj_succ in *.
  destruct (Z.eq_dec j 0) as [-> | Hne].
  - rewrite Z.add_0_r. unfold Chunks.ByteOf. rewrite Z.pow_0_r, Z.div_1_r.
    destruct n as [| n'].
    + cbn [Scenario.write_bytes]. apply store_same.
    + unfold wrap64. rewrite Z.mod_small by lia.
      rewrite write_bytes_outside by lia. apply store_same.
  - destruct n as [| n']; [simpl in Hj; lia |].
    unfold wrap64. rewrite Z.mod_small by lia.
    replace (a + j) with (a + 1 + (j - 1)) by lia.
    rewrite IH by lia. unfold Chunks.ByteOf.
    rewrite Z.div_div by (try apply Z.pow_pos_nonneg; lia).
    replace (256 * 256 ^ (j - 1)) with (256 ^ j); [reflexivity |].
    replace j with (1 + (j - 1)) at 1 by lia.
    rewrite Z.pow_add_r by lia. reflexivity.
Qed.

Lemma write_bytes_copies :
  Chunks.CopiesLowBytes (fun a slot n m => Scenario.write_bytes (Z.to_nat n) a slot m).
Proof.
  intros a slot n m Ha Hfit. split.
  - intros j Hj. apply write_bytes_inside; lia.
  - intros x Hx. destruct (Z_le_gt_dec 0 n) as [Hn | Hn].
    + apply write_bytes_outside; lia.
    + replace (Z.to_nat n) with 0%nat by lia. reflexivity.
Qed.

(** X7: a vmx-root edit of virtual memory that passes the check, through a
    writer that copies bytes, over a range below the top of the address
    space: the function returns TRUE with the success status, every byte [j]
    of every chunk [i] is found at [Address + i * LengthOfEachChunk + j]
    (least significant byte first), and no byte outside
    [[Address, Address + CountOf64Chunks * LengthOfEachChunk)] changes. *)
Theorem EditMemoryVmxRoot_writes_the_payload :
  forall (K : Edit.Services Buffer) (EditMemRequest : Edit.DEBUGGER_EDIT_MEMORY)
         (m : Buffer) (Len : Z),
    let Address_ := Edit.Address EditMemRequest in
    let Count := Edit.CountOf64Chunks EditMemRequest in
    Edit.LengthOfEachChunk (Edit.Enumerators K) (Edit.ByteSize EditMemRequest) = Some Len ->
    Edit.MemoryType EditMemRequest = Edit.EDIT_VIRTUAL_MEMORY ->
    Edit.CheckAccessValidityAndSafety K Address_
      (wrap32 (Edit.ByteSize EditMemRequest * Count)) = true ->
    Chunks.CopiesLowBytes (Edit.MemoryMapperWriteMemorySafeOnTargetProcess K) ->
    0 <= Address_ -> 0 <= Count -> Address_ + Count * Len <= 2 ^ 64 ->
    let o := Edit.DebuggerCommandEditMemoryVmxRoot K EditMemRequest m in
    Edit.Returned o = true
    /\ Edit.Result (Edit.Request o) = DEBUGGER_OPERATION_WAS_SUCCESSFUL
    /\ (forall i j, 0 <= i < Count -> 0 <= j < Len ->
          Edit.Mem o (Address_ + i * Len + j)
          = Chunks.ByteOf (Edit.Payload EditMemRequest i) j)
    /\ (forall x, ~ (Address_ <= x < Address_ + Count * Len) -> Edit.Mem o x = m x).
Proof.
  intros K req m Len Address_ Count Hlen Hvirt Hcheck Hcopy Haddr Hcount Hfit o.
  subst o. rewrite (EditMemoryVmxRoot_virtual K req m Len Hlen Hvirt).
  fold Address_ Count. rewrite Hcheck. cbn [Edit.Returned Edit.Request Edit.Mem Edit.set_Result Edit.Result].
  split; [reflexivity |]. split; [reflexivity |].
  apply WriteChunks_copies; try assumption.
  destruct (LengthOfEachChunk_cases _ _ _ Hlen) as [-> | [-> | ->]]; lia.
Qed.

Lemma EditMemoryVmxRoot_writes_the_payload_witness :
  Edit.Mem
    (Edit.DebuggerCommandEditMemoryVmxRoot Example.permissive_edit_services
       (Scenario.edit_request 1 2) Scenario.zero_memory) 0x1004
  = 0xA1.
Proof.
  assert (Haddr : 0 <= 0x1000) by lia.
  assert (Hcount : 0 <= 2) by lia.
  assert (Hfit : 0x1000 + 2 * 4 <= 2 ^ 64) by (simpl; lia).
  destruct (EditMemoryVmxRoot_writes_the_payload Example.permissive_edit_services
              (Scenario.edit_request 1 2) Scenario.zero_memory 4
              eq_refl eq_refl eq_refl write_bytes_copies Haddr Hcount Hfit)
    as (_ & _ & Hin & _).
  exact (Hin 1 0 ltac:(simpl; lia) ltac:(lia)).
Defined.

(** X8: under the same conditions, making the same vmx-root edit a second
    time leaves every byte of memory as the first edit left it. *)
Theorem EditMemoryVmxRoot_twice_is_once :
  forall (K : Edit.Services Buffer) (EditMemRequest : Edit.DEBUGGER_EDIT_MEMORY)
         (m : Buffer) (Len : Z),
    let Address_ := Edit.Address EditMemRequest in
    let Count := Edit.CountOf64Chunks EditMemRequest in
    Edit.LengthOfEachChunk (Edit.Enumerators K) (Edit.ByteSize EditMemRequest) = Some Len ->
    Edit.MemoryType EditMemRequest = Edit.EDIT_VIRTUAL_MEMORY ->
    Edit.CheckAccessValidityAndSafety K Address_
      (wrap32 (Edit.ByteSize EditMemRequest * Count)) = true ->
    Chunks.CopiesLowBytes (Edit.MemoryMapperWriteMemorySafeOnTargetProcess K) ->
    0 <= Address_ -> 0 <= Count -> Address_ + Count * Len <= 2 ^ 64 ->
    let once := Edit.DebuggerCommandEditMemoryVmxRoot K EditMemRequest m in
    let twice := Edit.DebuggerCommandEditMemoryVmxRoot K EditMemRequest (Edit.Mem once) in
    Edit.Returned twice = true
    /\ forall x, Edit.Mem twice x = Edit.Mem once x.
Proof.
  intros K req m Len Address_ Count Hlen Hvirt Hcheck Hcopy Haddr Hcount Hfit once twice.
  assert (Hpos : 0 < Len)
    by (destruct (LengthOfEachChunk_cases _ _ _ Hlen) as [-> | [-> | ->]]; lia).
  assert (Hmem : forall m0,
             Edit.Returned (Edit.DebuggerCommandEditMemoryVmxRoot K req m0) = true
             /\ Edit.Mem (Edit.DebuggerCommandEditMemoryVmxRoot K req m0)
                = Edit.WriteChunks (Edit.MemoryMapperWriteMemorySafeOnTargetProcess K)
                    req Len m0).
  { intros m0. rewrite (EditMemoryVmxRoot_virtual K req m0 Len Hlen Hvirt).
    fold Address_ Count. rewrite Hcheck. split; reflexivity. }
  split; [apply Hmem |]. intros x. subst once twice.
  rewrite (proj2 (Hmem (Edit.Mem _))), (proj2 (Hmem m)).
  set (m1 := Edit.WriteChunks _ req Len m).
  destruct (WriteChunks_copies _ req Len m Hcopy Hpos Haddr Hcount Hfit) as [Hin1 _].
  destruct (WriteChunks_copies _ req Len m1 Hcopy Hpos Haddr Hcount Hfit) as [Hin2 Hout2].
  fold Address_ Count in Hin1, Hin2, Hout2. fold m1 in Hin1.
  destruct (Z_le_gt_dec Address_ x) as [Hlo | Hlo];
    [destruct (Z_lt_ge_dec x (Address_ + Count * Len)) as [Hhi | Hhi] |];
    try (apply Hout2; lia).
  pose proof (Z.div_mod (x - Address_) Len ltac:(lia)) as Hdm.
  pose proof (Z.mod_pos_bound (x - Address_) Len Hpos) as Hj.
  assert (Hi : 0 <= (x - Address_) / Len < Count).
  { split; [apply Z.div_pos; lia | apply Z.div_lt_upper_bound; lia]. }
  replace x with (Address_ + (x - Address_) / Len * Len + (x - Address_) mod Len) by lia.
  rewrite Hin2, Hin1 by assumption. reflexivity.
Qed.

Lemma EditMemoryVmxRoot_twice_is_once_witness :
  Edit.Mem
    (Edit.DebuggerCommandEditMemoryVmxRoot Example.permissive_edit_services
       (Scenario.edit_request 1 2)
       (Edit.Mem
          (Edit.DebuggerCommandEditMemoryVmxRoot Example.permissive_edit_services
             (Scenario.edit_request 1 2) Scenario.zero_memory))) 0x1000
  = Edit.Mem
      (Edit.DebuggerCommandEditMemoryVmxRoot Example.permissive_edit_services
         (Scenario.edit_request 1 2) Scenario.zero_memory) 0x1000.
Proof.
  assert (Haddr : 0 <= 0x1000) by lia.
  assert (Hcount : 0 <= 2) by lia.
  assert (Hfit : 0x1000 + 2 * 4 <= 2 ^ 64) by (simpl; lia).
  exact (proj2 (EditMemoryVmxRoot_twice_is_once Example.permissive_edit_services
                  (Scenario.edit_request 1 2) Scenario.zero_memory 4
                  eq_refl eq_refl eq_refl write_bytes_copies Haddr Hcount Hfit)
           0x1000).
Defined.

(** X9: the vmx-root edit returns TRUE exactly when it leaves the success
    status, and whenever it returns FALSE (unknown chunk size, unknown
    memory type, failed check of a virtual range or of a physical address)
    no writer has run: the memory is the one it was given. *)
Theorem EditMemoryVmxRoot_failure_writes_nothing :
  forall (Memory : Type) (K : Edit.Services Memory)
         (EditMemRequest : Edit.DEBUGGER_EDIT_MEMORY) (m : Memory),
    let o := Edit.DebuggerCommandEditMemoryVmxRoot K EditMemRequest m in
    (Edit.Returned o = true
     <-> Edit.Result (Edit.Request o) = DEBUGGER_OPERATION_WAS_SUCCESSFUL)
    /\ (Edit.Returned o = false ->
        Edit.Mem o = m
        /\ (Edit.Result (Edit.Request o)
              = DEBUGGER_ERROR_EDIT_MEMORY_STATUS_INVALID_PARAMETER
            \/ Edit.Result (Edit.Request o) = DEBUGGER_ERROR_INVALID_ADDRESS)).
Proof.
  intros Memory K req m. cbv zeta. unfold Edit.DebuggerCommandEditMemoryVmxRoot.
  destruct (Edit.LengthOfEachChunk _ _);
    [destruct (bool_decide (Edit.MemoryType req = Edit.EDIT_VIRTUAL_MEMORY));
       [destruct (Edit.CheckAccessValidityAndSafety K _ _)
       | destruct (bool_decide (Edit.MemoryType req = Edit.EDIT_PHYSICAL_MEMORY));
           [destruct (Edit.CheckAddressPhysical K _) |]] |];
    simpl; (split; [split; intros H; (reflexivity || discriminate H) |]);
    intros H; try discriminate H; auto.
Qed.

Lemma EditMemoryVmxRoot_failure_writes_nothing_witness :
  Edit.Mem
    (Edit.DebuggerCommandEditMemoryVmxRoot
       (Scenario.edit_services Scenario.enumerators_in_declaration_order)
       (Scenario.edit_request 7 16) Scenario.zero_memory)
  = Scenario.zero_memory.
Proof.
  exact (proj1 (proj2 (EditMemoryVmxRoot_failure_writes_nothing Buffer
                         (Scenario.edit_services Scenario.enumerators_in_declaration_order)
                         (Scenario.edit_request 7 16) Scenario.zero_memory) eq_refl)).
Defined.

(** *** The normal-context edit *)

(** X10: a normal-context edit of virtual memory validates the first
    address only.  It is refused with the current-process status exactly
    when the request is for the current process and the plain translation
    of [Address] is 0; otherwise with the other-process status exactly when
    the translation by process id is 0 (also for the current process);
    otherwise it succeeds, whatever the number of chunks.  A refused edit
    has written nothing. *)
Theorem EditMemory_virtual_validates_first_address :
  forall (Memory : Type) (K : EditNormal.Services Memory)
         (EditMemRequest : Edit.DEBUGGER_EDIT_MEMORY) (m : Memory) (Len : Z),
    Edit.LengthOfEachChunk (EditNormal.Enumerators K) (Edit.ByteSize EditMemRequest)
      = Some Len ->
    Edit.MemoryType EditMemRequest = Edit.EDIT_VIRTUAL_MEMORY ->
    let o := EditNormal.DebuggerCommandEditMemory K EditMemRequest m in
    let unmapped_here :=
      Edit.ProcessId EditMemRequest = EditNormal.PsGetCurrentProcessId K
      /\ EditNormal.VirtualAddressToPhysicalAddress K (Edit.Address EditMemRequest) = 0 in
    let unmapped_there :=
      EditNormal.VirtualAddressToPhysicalAddressByProcessId K
        (Edit.Address EditMemRequest) (Edit.ProcessId EditMemRequest) = 0 in
    (EditNormal.Result o
       = EditNormal.DEBUGGER_ERROR_EDIT_MEMORY_STATUS_INVALID_ADDRESS_BASED_ON_CURRENT_PROCESS
     <-> unmapped_here)
    /\ (EditNormal.Result o
          = EditNormal.DEBUGGER_ERROR_EDIT_MEMORY_STATUS_INVALID_ADDRESS_BASED_ON_OTHER_PROCESS
        <-> ~ unmapped_here /\ unmapped_there)
    /\ (EditNormal.Returned o = STATUS_SUCCESS <-> ~ unmapped_here /\ ~ unmapped_there)
    /\ (EditNormal.Returned o = STATUS_SUCCESS ->
        EditNormal.Result o = EditNormal.Status DEBUGGER_OPERATION_WAS_SUCCESSFUL
        /\ EditNormal.Mem o
           = Edit.WriteChunks
               (fun Destination Source Size =>
                  EditNormal.MemoryMapperWriteMemoryUnsafe K Destination Source Size
                    (Edit.ProcessId EditMemRequest))
               EditMemRequest Len m)
    /\ (EditNormal.Returned o <> STATUS_SUCCESS ->
        EditNormal.Returned o = STATUS_UNSUCCESSFUL /\ EditNormal.Mem o = m).
Proof.
  intros Memory K req m Len Hlen Hvirt. cbv zeta.
  unfold EditNormal.DebuggerCommandEditMemory. rewrite Hlen, Hvirt.
  rewrite bool_decide_eq_true_2 by reflexivity.
  destruct (Edit.ProcessId req =? EditNormal.PsGetCurrentProcessId K) eqn:Hpid;
    [apply Z.eqb_eq in Hpid | apply Z.eqb_neq in Hpid];
    (destruct (EditNormal.VirtualAddressToPhysicalAddress K (Edit.Address req) =? 0)
       eqn:Hhere; [apply Z.eqb_eq in Hhere | apply Z.eqb_neq in Hhere]);
    cbn [andb];
    try (destruct (EditNormal.VirtualAddressToPhysicalAddressByProcessId K
                     (Edit.Address req) (Edit.ProcessId req) =? 0) eqn:Hthere;
         [apply Z.eqb_eq in Hthere | apply Z.eqb_neq in Hthere]);
    cbn [EditNormal.Result EditNormal.Returned EditNormal.Mem];
    repeat split; intros; try discriminate; try tauto; try congruence.
Qed.

Lemma EditMemory_virtual_validates_first_address_witness :
  let o := EditNormal.DebuggerCommandEditMemory Example.edit_normal_services
             {| Edit.Result := DEBUGGER_STATUS_RAW 0; Edit.Address := 0x5000;
                Edit.ProcessId := 4; Edit.MemoryType := Edit.EDIT_VIRTUAL_MEMORY;
                Edit.ByteSize := 0; Edit.CountOf64Chunks := 3;
                Edit.Payload := fun i => 0xA0 + i |}
             Scenario.zero_memory in
  EditNormal.Returned o = STATUS_UNSUCCESSFUL /\ EditNormal.Mem o = Scenario.zero_memory.
Proof.
  destruct (EditMemory_virtual_validates_first_address Buffer
              Example.edit_normal_services
              {| Edit.Result := DEBUGGER_STATUS_RAW 0; Edit.Address := 0x5000;
                 Edit.ProcessId := 4; Edit.MemoryType := Edit.EDIT_VIRTUAL_MEMORY;
                 Edit.ByteSize := 0; Edit.CountOf64Chunks := 3;
                 Edit.Payload := fun i => 0xA0 + i |}
              Scenario.zero_memory 1 eq_refl eq_refl)
    as (_ & _ & _ & _ & Hfail).
  apply Hfail. discriminate.
Defined.



Lemma WritePhysicalChunks_app {Memory : Type} (K : EditNormal.Services Memory)
  (req : Edit.DEBUGGER_EDIT_MEMORY) (Len : Z) (n1 n2 : nat) :
  forall (i : Z) (m : Memory),
    EditNormal.WritePhysicalChunks K req Len (n1 + n2) i m
    = let '(ok, m1) := EditNormal.WritePhysicalChunks K req Len n1 i m in
      if ok then EditNormal.WritePhysicalChunks K req Len n2 (i + Z.of_nat n1) m1
      else (false, m1).
Proof.
  induction n1 as [| n1 IH]; intros i m.
  - cbn [plus EditNormal.WritePhysicalChunks]. now rewrite Z.add_0_r.
  - cbn [plus EditNormal.WritePhysicalChunks].
    destruct (EditNormal.MemoryManagerWritePhysicalMemoryNormal K _ _ _ _) as [ok m'].
    destruct ok; cbn [negb]; [| reflexivity].
    rewrite IH. replace (i + 1 + Z.of_nat n1) with (i + Z.of_nat (S n1)) by lia.
    reflexivity.
Qed.

(** X12: a normal-context edit of physical memory is not undone when a
    write fails.  If the writes of the first [k] chunks succeed and the
    write of chunk [k] fails, the function returns STATUS_UNSUCCESSFUL with
    the invalid-address status, no later chunk is written, and the memory
    is the one left by the [k] writes that succeeded and by the write that
    failed. *)
Theorem EditMemory_physical_stops_at_failed_write :
  forall (Memory : Type) (K : EditNormal.Services Memory)
         (EditMemRequest : Edit.DEBUGGER_EDIT_MEMORY) (m mk : Memory)
         (Len : Z) (k : nat),
    Edit.LengthOfEachChunk (EditNormal.Enumerators K) (Edit.ByteSize EditMemRequest)
      = Some Len ->
    Edit.MemoryType EditMemRequest = Edit.EDIT_PHYSICAL_MEMORY ->
    EditNormal.CheckAddressPhysical K (Edit.Address EditMemRequest) = true ->
    Z.of_nat k < Edit.CountOf64Chunks EditMemRequest ->
    EditNormal.WritePhysicalChunks K EditMemRequest Len k 0 m = (true, mk) ->
    let failed :=
      EditNormal.MemoryManagerWritePhysicalMemoryNormal K
        (wrap64 (Edit.Address EditMemRequest + Z.of_nat k * Len))
        (Edit.Payload EditMemRequest (Z.of_nat k)) Len mk in
    fst failed = false ->
    let o := EditNormal.DebuggerCommandEditMemory K EditMemRequest m in
    EditNormal.Returned o = STATUS_UNSUCCESSFUL
    /\ EditNormal.Result o = EditNormal.Status DEBUGGER_ERROR_INVALID_ADDRESS
    /\ EditNormal.Mem o = snd failed.
Proof.
  intros Memory K req m mk Len k Hlen Hphys Hcheck Hk Hprefix failed Hfailed o.
  subst o. unfold EditNormal.DebuggerCommandEditMemory. rewrite Hlen, Hphys, Hcheck.
  rewrite bool_decide_eq_false_2 by discriminate.
  rewrite bool_decide_eq_true_2 by reflexivity. cbn [negb].
  replace (Z.to_nat (Edit.CountOf64Chunks req))
    with (k + S (Z.to_nat (Edit.CountOf64Chunks req) - S k))%nat by lia.
  rewrite WritePhysicalChunks_app, Hprefix. cbn [EditNormal.WritePhysicalChunks].
  rewrite Z.add_0_l. fold failed. destruct failed as [ok m']. cbn [fst snd] in *.
  subst ok. cbn [negb]. auto.
Qed.

Lemma EditMemory_physical_stops_at_failed_write_witness :
  let o := EditNormal.DebuggerCommandEditMemory Example.edit_normal_services
             (Example.physical_edit_request 1 3) Scenario.zero_memory in
  EditNormal.Returned o = STATUS_UNSUCCESSFUL /\ EditNormal.Mem o 0x1000 = 0xA0.
Proof.
  assert (Hk : Z.of_nat 1 < 3) by (simpl; lia).
  destruct (EditMemory_physical_stops_at_failed_write Buffer
              Example.edit_normal_services (Example.physical_edit_request 1 3)
              Scenario.zero_memory
              (Scenario.write_bytes 4 0x1000 0xA0 Scenario.zero_memory) 4 1%nat
              eq_refl eq_refl eq_refl Hk eq_refl eq_refl)
    as (Hret & _ & Hmem).
  split; [exact Hret |]. rewrite Hmem. reflexivity.
Defined.

(** ** Searching memory: what reaches the result array and the user *)

Lemma Replay_results_beyond (K : Search.Services)
  (req : Search.DEBUGGER_SEARCH_MEMORY) (paused : bool) (ms : list Z) :
  0 <= Search.MaximumSearchResults K /\ Search.MaximumSearchResults K + 1 < 2 ^ 32 ->
  forall (s : Search.Scan) (c : Z),
    Search.IndexToArrayOfResults s = c ->
    0 <= c <= Search.MaximumSearchResults K ->
    forall j, j < c \/ c + Z.of_nat (length ms) <= j ->
      Search.AddressToSaveResults (Pattern.ExitState (Pattern.Replay K paused req ms s)) j
      = Search.AddressToSaveResults s j.
Proof.
  intros Hmax. induction ms as [| m ms IH]; intros s c Hi Hrange j Hj;
    cbn [Pattern.Replay]; [reflexivity |].
  cbn [Search.SaveMatch Search.IndexToArrayOfResults]. rewrite Hi.
  cbn [length] in Hj. rewrite Nat2Z.inj_succ in Hj.
  assert (Hstore : Search.AddressToSaveResults
                     (Search.SaveMatch K paused req m s) j
                   = Search.AddressToSaveResults s j).
  { cbn [Search.SaveMatch Search.AddressToSaveResults]. rewrite Hi.
    destruct paused; [reflexivity | apply store_other; lia]. }
  destruct (c <? Search.MaximumSearchResults K) eqn:Hlt.
  - apply Z.ltb_lt in Hlt.
    rewrite (IH _ (c + 1)).
    + exact Hstore.
    + cbn [Search.NextIndex Search.SaveMatch Search.IndexToArrayOfResults].
      rewrite Hi. apply wrap32_small. lia.
    + lia.
    + lia.
  - cbn [Pattern.ExitState]. exact Hstore.
Qed.

Lemma Replay_paused (K : Search.Services) (req : Search.DEBUGGER_SEARCH_MEMORY)
  (ms : list Z) :
  0 <= Search.MaximumSearchResults K /\ Search.MaximumSearchResults K + 1 < 2 ^ 32 ->
  forall (s : Search.Scan) (c : Z),
    Search.IndexToArrayOfResults s = c ->
    0 <= c <= Search.MaximumSearchResults K ->
    let e := Pattern.ExitState (Pattern.Replay K true req ms s) in
    Search.AddressToSaveResults e = Search.AddressToSaveResults s
    /\ Search.Logged e
       = rev (map (Pattern.SavedValue K req)
                (take (Z.to_nat (Search.MaximumSearchResults K - c + 1)) ms))
         ++ Search.Logged s.
Proof.
  intros Hmax. induction ms as [| m ms IH]; intros s c Hi Hrange; cbv zeta;
    cbn [Pattern.Replay].
  - rewrite take_nil. split; reflexivity.
  - cbn [Search.SaveMatch Search.IndexToArrayOfResults]. rewrite Hi.
    replace (Z.to_nat (Search.MaximumSearchResults K - c + 1))
      with (S (Z.to_nat (Search.MaximumSearchResults K - c))) by lia.
    cbn [take map rev].
    destruct (c <? Search.MaximumSearchResults K) eqn:Hlt.
    + apply Z.ltb_lt in Hlt.
      match goal with |- context [Pattern.Replay _ _ _ _ ?s1] =>
        specialize (IH s1 (c + 1)) end.
      cbn [Search.NextIndex Search.SaveMatch Search.IndexToArrayOfResults
           Search.AddressToSaveResults Search.Logged] in IH.
      rewrite Hi in IH. rewrite wrap32_small in IH by lia.
      specialize (IH eq_refl ltac:(lia)). cbv zeta in IH.
      destruct IH as [IHres IHlog]. split; [exact IHres |].
      rewrite IHlog.
      replace (Z.to_nat (Search.MaximumSearchResults K - (c + 1) + 1))
        with (Z.to_nat (Search.MaximumSearchResults K - c)) by lia.
      rewrite <- app_assoc. reflexivity.
    + apply Z.ltb_ge in Hlt.
      replace (Z.to_nat (Search.MaximumSearchResults K - c)) with 0%nat by lia.
      rewrite take_0. cbn [Pattern.ExitState Search.SaveMatch
                           Search.AddressToSaveResults Search.Logged map rev app].
      split; reflexivity.
Qed.

Lemma ExitObservable_logged (e e' : Search.LoopExit) :
  Pattern.ExitObservable e = Pattern.ExitObservable e' ->
  Search.Logged (Pattern.ExitState e) = Search.Logged (Pattern.ExitState e').
Proof.
  destruct e, e'; unfold Pattern.ExitObservable, Pattern.Observable;
    intros H; injection H; intros; simpl; auto.
Qed.

(** The candidate positions lie in the range, at multiples of the chunk
    length from its start. *)
Lemma Positions_elem (Len StartAddress EndAddress a : Z) :
  0 < Len ->
  In a (Pattern.Positions Len StartAddress EndAddress) ->
  StartAddress <= a < EndAddress /\ (a - StartAddress) mod Len = 0.
Proof.
  intros Hlen Hin. unfold Pattern.Positions in Hin.
  apply list_elem_of_In, list_elem_of_fmap in Hin as (k & -> & Hk).
  apply elem_of_seqZ in Hk.
  pose proof (Z.mul_div_le (EndAddress - StartAddress + Len - 1) Len Hlen) as Hq.
  split; [nia |].
  replace (StartAddress + Len * k - StartAddress) with (k * Len) by lia.
  apply Z.mod_mul. lia.
Qed.

Lemma Passing_elem (K : Search.Services) (paused : bool)
  (req : Search.DEBUGGER_SEARCH_MEMORY) (Len StartAddress EndAddress a : Z) :
  0 < Len ->
  In a (Pattern.Passing K paused req Len StartAddress EndAddress) ->
  StartAddress <= a < EndAddress /\ (a - StartAddress) mod Len = 0
  /\ Pattern.ComparisonsPass K paused req Len a = true.
Proof.
  intros Hlen Hin. unfold Pattern.Passing in Hin.
  apply List.filter_In in Hin as [Hpos Hpass].
  destruct (Positions_elem Len StartAddress EndAddress a Hlen Hpos). auto.
Qed.

Lemma PerformSearchAddress_within_capacity :
  forall (K : Search.Services) (fuel : nat) (AddressToSaveResults : Buffer)
         (SearchMemRequest : Search.DEBUGGER_SEARCH_MEMORY)
         (StartAddress EndAddress : Z) (IsDebuggeePaused : bool)
         (CountOfMatchedCases Len : Z),
    Search.LengthOfEachChunk (Search.ByteSize SearchMemRequest) = Some Len ->
    Search.MemoryType SearchMemRequest = Search.SEARCH_VIRTUAL_MEMORY
    \/ Search.MemoryType SearchMemRequest = Search.SEARCH_PHYSICAL_FROM_VIRTUAL_MEMORY ->
    0 <= StartAddress -> EndAddress + Len <= 2 ^ 64 ->
    Z.max 0 (EndAddress - StartAddress) + Len <= Z.of_nat fuel * Len ->
    0 <= Search.MaximumSearchResults K /\ Search.MaximumSearchResults K + 1 < 2 ^ 32 ->
    let passing :=
      Pattern.Passing K IsDebuggeePaused SearchMemRequest Len StartAddress EndAddress in
    Z.of_nat (length passing) <= Search.MaximumSearchResults K ->
    exists o,
      Search.PerformSearchAddress K fuel AddressToSaveResults SearchMemRequest
        StartAddress EndAddress IsDebuggeePaused CountOfMatchedCases = Some o
      /\ Search.Returned o = true
      /\ Search.CountOfMatchedCases o = Z.of_nat (length passing)
      /\ (IsDebuggeePaused = false ->
          forall (k : nat) (a : Z), passing !! k = Some a ->
            Search.Results o (Z.of_nat k) = Pattern.SavedValue K SearchMemRequest a)
      /\ (forall j, j < 0 \/ Z.of_nat (length passing) <= j ->
            Search.Results o j = AddressToSaveResults j)
      /\ (forall a, In a passing ->
            StartAddress <= a < EndAddress /\ (a - StartAddress) mod Len = 0).
Proof.
  intros K fuel res req Start End paused c0 Len Hlen Htype Hstart Hend Hfuel Hmax
    passing Hfew.
  pose proof (LengthOfEachChunk_pos _ _ Hlen) as Hpos.
  destruct (PerformSearchAddress_scans K fuel res req Start End paused c0 Len
              Hlen Htype Hstart Hend Hfuel)
    as (o & e & Ho & Hret & Hcount & Hres & _ & Hobs).
  fold passing in Hobs.
  exists o. split; [exact Ho |]. split; [exact Hret |].
  apply ExitObservable_eq in Hobs as [Hsamecount Hsame].
  rewrite Hcount, Hsamecount, Hres, Hsame.
  set (s0 := {| Search.Cmp64 := 0; Search.CountOfOccurance := 0;
                Search.IndexToArrayOfResults := 0;
                Search.AddressToSaveResults := res;
                Search.Logged := []; Search.Compared := [] |}).
  split; [| split; [| split]].
  - pose proof (Replay_counts K req Hmax paused passing s0 0 eq_refl eq_refl ltac:(lia))
      as Hreplay.
    destruct (Pattern.Replay K paused req passing s0); cbn [Pattern.ExitState]; lia.
  - intros -> k a Hk.
    pose proof (Replay_results K req Hmax passing s0 0 eq_refl ltac:(lia)) as [Hstored _].
    apply lookup_lt_Some in Hk as Hlt.
    apply (Hstored k a Hk). lia.
  - intros j Hj.
    apply (Replay_results_beyond K req paused passing Hmax s0 0 eq_refl ltac:(lia)).
    lia.
  - intros a Ha. destruct (Passing_elem K paused req Len Start End a Hpos Ha) as (H1 & H2 & _).
    auto.
Qed.

(** X13: a search that finds no more matches than the result array holds.
    The function returns TRUE and counts exactly the positions of the range
    at which its comparisons pass; when the debuggee is not paused the
    address saved for match number [k] is entry [k] of the array and every
    entry from the count on is left as it was.  Every match lies in
    [[StartAddress, EndAddress)] at a multiple of the chunk length from
    [StartAddress]. *)
Theorem PerformSearchAddress_reports_every_match_within_capacity :
  forall (K : Search.Services) (fuel : nat) (AddressToSaveResults : Buffer)
         (SearchMemRequest : Search.DEBUGGER_SEARCH_MEMORY)
         (StartAddress EndAddress : Z) (IsDebuggeePaused : bool)
         (CountOfMatchedCases Len : Z),
    Search.LengthOfEachChunk (Search.ByteSize SearchMemRequest) = Some Len ->
    Search.MemoryType SearchMemRequest = Search.SEARCH_VIRTUAL_MEMORY
    \/ Search.MemoryType SearchMemRequest = Search.SEARCH_PHYSICAL_FROM_VIRTUAL_MEMORY ->
    0 <= StartAddress -> EndAddress + Len <= 2 ^ 64 ->
    Z.max 0 (EndAddress - StartAddress) + Len <= Z.of_nat fuel * Len ->
    0 <= Search.MaximumSearchResults K /\ Search.MaximumSearchResults K + 1 < 2 ^ 32 ->
    let passing :=
      Pattern.Passing K IsDebuggeePaused SearchMemRequest Len StartAddress EndAddress in
    Z.of_nat (length passing) <= Search.MaximumSearchResults K ->
    exists o,
      Search.PerformSearchAddress K fuel AddressToSaveResults SearchMemRequest
        StartAddress EndAddress IsDebuggeePaused CountOfMatchedCases = Some o
      /\ Search.Returned o = true
      /\ Search.CountOfMatchedCases o = Z.of_nat (length passing)
      /\ (IsDebuggeePaused = false ->
          forall (k : nat) (a : Z), passing !! k = Some a ->
            Search.Results o (Z.of_nat k) = Pattern.SavedValue K SearchMemRequest a)
      /\ (forall j, j < 0 \/ Z.of_nat (length passing) <= j ->
            Search.Results o j = AddressToSaveResults j)
      /\ (forall a, In a passing ->
            StartAddress <= a < EndAddress /\ (a - StartAddress) mod Len = 0).
Proof. exact PerformSearchAddress_within_capacity. Qed.

Lemma PerformSearchAddress_reports_every_match_within_capacity_witness :
  exists o,
    Search.PerformSearchAddress
      (Scenario.search_services 8 Scenario.all_mapped Example.sparse_memory) 20
      Scenario.zero_memory (Scenario.search_request 0x1000 0x10 Search.SEARCH_BYTE [0x41])
      0x1000 0x1010 false 0 = Some o
    /\ Search.CountOfMatchedCases o = 3
    /\ Search.Results o 2 = 0x1009.
Proof.
  destruct (PerformSearchAddress_reports_every_match_within_capacity
              (Scenario.search_services 8 Scenario.all_mapped Example.sparse_memory) 20
              Scenario.zero_memory
              (Scenario.search_request 0x1000 0x10 Search.SEARCH_BYTE [0x41])
              0x1000 0x1010 false 0 1)
    as (o & Ho & _ & Hcount & Hstored & _).
  - reflexivity.
  - left. reflexivity.
  - lia.
  - lia.
  - simpl. lia.
  - simpl. lia.
  - vm_compute. discriminate.
  - exists o. split; [exact Ho |]. split; [exact Hcount |].
    apply (Hstored eq_refl 2%nat 0x1009). vm_compute. reflexivity.
Defined.

(** X14: a search by bytes is exact.  The positions that the scan treats as
    matches are precisely the positions of the range at which every chunk
    of the pattern equals the byte of memory at its offset; within the
    capacity of the result array, they are what the function counts and
    stores, in increasing order. *)
Theorem PerformSearchAddress_by_bytes_is_exact :
  forall (K : Search.Services) (fuel : nat) (AddressToSaveResults : Buffer)
         (SearchMemRequest : Search.DEBUGGER_SEARCH_MEMORY)
         (StartAddress EndAddress CountOfMatchedCases : Z),
    Search.ByteSize SearchMemRequest = Search.SEARCH_BYTE ->
    Search.MemoryType SearchMemRequest = Search.SEARCH_VIRTUAL_MEMORY ->
    0 < Search.CountOf64Chunks SearchMemRequest ->
    0 <= StartAddress -> EndAddress + 1 <= 2 ^ 64 ->
    Z.max 0 (EndAddress - StartAddress) + 1 <= Z.of_nat fuel ->
    0 <= Search.MaximumSearchResults K /\ Search.MaximumSearchResults K + 1 < 2 ^ 32 ->
    let matches :=
      List.filter (Pattern.AllChunksMatch K false SearchMemRequest 1)
        (Pattern.Positions 1 StartAddress EndAddress) in
    Z.of_nat (length matches) <= Search.MaximumSearchResults K ->
    exists o,
      Search.PerformSearchAddress K fuel AddressToSaveResults SearchMemRequest
        StartAddress EndAddress false CountOfMatchedCases = Some o
      /\ Search.Returned o = true
      /\ Search.CountOfMatchedCases o = Z.of_nat (length matches)
      /\ (forall (k : nat) (a : Z), matches !! k = Some a ->
            Search.Results o (Z.of_nat k) = a).
Proof.
  intros K fuel res req Start End c0 Hbyte Hvirt Hcount Hstart Hend Hfuel Hmax
    matches Hfew.
  assert (Hsame : Pattern.Passing K false req 1 Start End = matches).
  { unfold Pattern.Passing. subst matches. apply List.filter_ext_in.
    intros a Ha. apply ComparisonsPass_bytes; [| exact Hcount].
    destruct (Positions_elem 1 Start End a ltac:(lia) Ha) as [Hin _]. lia. }
  destruct (PerformSearchAddress_within_capacity K fuel res req Start End false c0 1)
    as (o & Ho & Hret & Hn & Hstored & _); try assumption.
  - rewrite Hbyte. reflexivity.
  - now left.
  - lia.
  - rewrite Hsame. exact Hfew.
  - rewrite Hsame in Hn, Hstored.
    exists o. split; [exact Ho |]. split; [exact Hret |]. split; [exact Hn |].
    intros k a Hk. rewrite (Hstored eq_refl k a Hk).
    unfold Pattern.SavedValue. rewrite Hvirt.
    rewrite bool_decide_eq_false_2 by discriminate. reflexivity.
Qed.

Lemma PerformSearchAddress_by_bytes_is_exact_witness :
  exists o,
    Search.PerformSearchAddress
      (Scenario.search_services 8 Scenario.all_mapped Example.sparse_memory) 20
      Scenario.zero_memory (Scenario.search_request 0x1000 0x10 Search.SEARCH_BYTE [0x41])
      0x1000 0x1010 false 0 = Some o
    /\ Search.CountOfMatchedCases o = 3
    /\ Search.Results o 1 = 0x1005.
Proof.
  destruct (PerformSearchAddress_by_bytes_is_exact
              (Scenario.search_services 8 Scenario.all_mapped Example.sparse_memory) 20
              Scenario.zero_memory
              (Scenario.search_request 0x1000 0x10 Search.SEARCH_BYTE [0x41])
              0x1000 0x1010 0)
    as (o & Ho & _ & Hcount & Hstored).
  - reflexivity.
  - reflexivity.
  - simpl. lia.
  - lia.
  - lia.
  - simpl. lia.
  - simpl. lia.
  - vm_compute. discriminate.
  - exists o. split; [exact Ho |]. split; [exact Hcount |].
    apply (Hstored 1%nat 0x1005). vm_compute. reflexivity.
Defined.

(** X15: while the debuggee is paused the search stores nothing: the result
    array is returned as it was given, and the addresses of the matches,
    at most [MaximumSearchResults + 1] of them, are sent to the log in the
    order in which they are found ([LogLines] lists the most recent
    first). *)
Theorem PerformSearchAddress_paused_logs_instead_of_storing :
  forall (K : Search.Services) (fuel : nat) (AddressToSaveResults : Buffer)
         (SearchMemRequest : Search.DEBUGGER_SEARCH_MEMORY)
         (StartAddress EndAddress CountOfMatchedCases Len : Z),
    Search.LengthOfEachChunk (Search.ByteSize SearchMemRequest) = Some Len ->
    Search.MemoryType SearchMemRequest = Search.SEARCH_VIRTUAL_MEMORY
    \/ Search.MemoryType SearchMemRequest = Search.SEARCH_PHYSICAL_FROM_VIRTUAL_MEMORY ->
    0 <= StartAddress -> EndAddress + Len <= 2 ^ 64 ->
    Z.max 0 (EndAddress - StartAddress) + Len <= Z.of_nat fuel * Len ->
    0 <= Search.MaximumSearchResults K /\ Search.MaximumSearchResults K + 1 < 2 ^ 32 ->
    let passing :=
      Pattern.Passing K true SearchMemRequest Len StartAddress EndAddress in
    exists o,
      Search.PerformSearchAddress K fuel AddressToSaveResults SearchMemRequest
        StartAddress EndAddress true CountOfMatchedCases = Some o
      /\ Search.Returned o = true
      /\ Search.Results o = AddressToSaveResults
      /\ rev (Search.LogLines o)
         = map (Pattern.SavedValue K SearchMemRequest)
             (take (Z.to_nat (Search.MaximumSearchResults K + 1)) passing).
Proof.
  intros K fuel res req Start End c0 Len Hlen Htype Hstart Hend Hfuel Hmax passing.
  destruct (PerformSearchAddress_scans K fuel res req Start End true c0 Len
              Hlen Htype Hstart Hend Hfuel)
    as (o & e & Ho & Hret & _ & Hres & Hlog & Hobs).
  fold passing in Hobs.
  exists o. split; [exact Ho |]. split; [exact Hret |].
  pose proof (ExitObservable_logged _ _ Hobs) as Hsamelog.
  apply ExitObservable_eq in Hobs as [_ Hsame].
  rewrite Hres, Hsame, Hlog, Hsamelog.
  set (s0 := {| Search.Cmp64 := 0; Search.CountOfOccurance := 0;
                Search.IndexToArrayOfResults := 0;
                Search.AddressToSaveResults := res;
                Search.Logged := []; Search.Compared := [] |}).
  destruct (Replay_paused K req passing Hmax s0 0 eq_refl ltac:(lia)) as [Hr Hl].
  split; [exact Hr |].
  rewrite Hl. cbn [Search.Logged]. rewrite app_nil_r, rev_involutive.
  rewrite Z.sub_0_r. reflexivity.
Qed.

Lemma PerformSearchAddress_paused_logs_instead_of_storing_witness :
  exists o,
    Search.PerformSearchAddress
      (Scenario.search_services 8 Scenario.all_mapped Example.sparse_memory) 20
      Scenario.zero_memory (Scenario.search_request 0x1000 0x10 Search.SEARCH_BYTE [0x41])
      0x1000 0x1010 true 0 = Some o
    /\ Search.Results o = Scenario.zero_memory
    /\ rev (Search.LogLines o) = [0x1003; 0x1005; 0x1009].
Proof.
  destruct (PerformSearchAddress_paused_logs_instead_of_storing
              (Scenario.search_services 8 Scenario.all_mapped Example.sparse_memory) 20
              Scenario.zero_memory
              (Scenario.search_request 0x1000 0x10 Search.SEARCH_BYTE [0x41])
              0x1000 0x1010 0 1)
    as (o & Ho & _ & Hres & Hlog).
  - reflexivity.
  - left. reflexivity.
  - lia.
  - lia.
  - simpl. lia.
  - simpl. lia.
  - exists o. split; [exact Ho |]. split; [exact Hres |].
    rewrite Hlog. vm_compute. reflexivity.
Defined.

(** X16: a search of physical memory (debuggee not paused) is run on the
    virtual addresses of the two ends of the range, and what it stores for
    a match found at the virtual address [a] is the physical address of
    [a]: entry [k] of the result array is the translation of match number
    [k], for every [k] up to [MaximumSearchResults]. *)
Theorem SearchAddressWrapper_physical_reports_physical_addresses :
  forall (K : Search.Services) (fuel : nat) (AddressToSaveResults : Buffer)
         (SearchMemRequest : Search.DEBUGGER_SEARCH_MEMORY)
         (StartAddress EndAddress CountOfMatchedCases Len : Z),
    Search.LengthOfEachChunk (Search.ByteSize SearchMemRequest) = Some Len ->
    Search.MemoryType SearchMemRequest = Search.SEARCH_PHYSICAL_MEMORY ->
    let to_virtual (a : Z) :=
      if Search.ProcessId SearchMemRequest =? Search.PsGetCurrentProcessId K
      then Search.PhysicalAddressToVirtualAddress K a
      else Search.PhysicalAddressToVirtualAddressByProcessId K a
             (Search.ProcessId SearchMemRequest) in
    0 <= to_virtual StartAddress -> to_virtual EndAddress + Len <= 2 ^ 64 ->
    Z.max 0 (to_virtual EndAddress - to_virtual StartAddress) + Len
    <= Z.of_nat fuel * Len ->
    0 <= Search.MaximumSearchResults K /\ Search.MaximumSearchResults K + 1 < 2 ^ 32 ->
    let passing :=
      Pattern.Passing K false SearchMemRequest Len
        (to_virtual StartAddress) (to_virtual EndAddress) in
    exists o,
      Search.SearchAddressWrapper K fuel AddressToSaveResults SearchMemRequest
        StartAddress EndAddress false CountOfMatchedCases = Some o
      /\ Search.Returned o = true
      /\ (forall (k : nat) (a : Z),
            passing !! k = Some a ->
            Z.of_nat k <= Search.MaximumSearchResults K ->
            Search.Results o (Z.of_nat k) = Search.VirtualAddressToPhysicalAddress K a).
Proof.
  intros K fuel res req Start End c0 Len Hlen Hphys to_virtual Hstart Hend Hfuel Hmax
    passing.
  unfold Search.SearchAddressWrapper. rewrite Hphys.
  rewrite bool_decide_eq_false_2 by discriminate.
  rewrite bool_decide_eq_true_2 by reflexivity.
  set (req' := Search.set_Address_MemoryType (to_virtual Start)
                 Search.SEARCH_PHYSICAL_FROM_VIRTUAL_MEMORY req).
  assert (Hcall :
            (let '(Address', EndAddress') :=
               if false then
                 (Search.PhysicalAddressToVirtualAddressOnTargetProcess K Start,
                  Search.PhysicalAddressToVirtualAddressOnTargetProcess K End)
               else if Search.ProcessId req =? Search.PsGetCurrentProcessId K then
                 (Search.PhysicalAddressToVirtualAddress K Start,
                  Search.PhysicalAddressToVirtualAddress K End)
               else
                 (Search.PhysicalAddressToVirtualAddressByProcessId K Start
                    (Search.ProcessId req),
                  Search.PhysicalAddressToVirtualAddressByProcessId K End
                    (Search.ProcessId req)) in
             Search.PerformSearchAddress K fuel res
               (Search.set_Address_MemoryType Address'
                  Search.SEARCH_PHYSICAL_FROM_VIRTUAL_MEMORY req)
               Address' EndAddress' false 0)
            = Search.PerformSearchAddress K fuel res req'
                (to_virtual Start) (to_virtual End) false 0).
  { subst req' to_virtual. cbv beta.
    destruct (Search.ProcessId req =? Search.PsGetCurrentProcessId K); reflexivity. }
  rewrite Hcall.
  destruct (PerformSearchAddress_scans K fuel res req' (to_virtual Start)
              (to_virtual End) false 0 Len Hlen (or_intror eq_refl) Hstart Hend Hfuel)
    as (o & e & Ho & Hret & _ & Hres & _ & Hobs).
  exists o. split; [exact Ho |]. split; [exact Hret |].
  apply ExitObservable_eq in Hobs as [_ Hsame]. rewrite Hres, Hsame.
  intros k a Hk Hle.
  match goal with |- context [Pattern.Replay _ _ _ ?ms ?s0] =>
    pose proof (Replay_results K req' Hmax ms s0 0 eq_refl ltac:(lia)) as [Hstored _]
  end.
  specialize (Hstored k a Hk ltac:(lia)). rewrite Z.add_0_l in Hstored.
  rewrite Hstored. unfold Pattern.SavedValue. subst req'.
  cbn [Search.set_Address_MemoryType Search.MemoryType].
  rewrite bool_decide_eq_true_2 by reflexivity. reflexivity.
Qed.

Lemma SearchAddressWrapper_physical_reports_physical_addresses_witness :
  exists o,
    Search.SearchAddressWrapper
      (Scenario.search_services 8 Scenario.all_mapped Example.sparse_memory) 20
      Scenario.zero_memory
      {| Search.Address := 0x101000; Search.Length := 0x10; Search.ProcessId := 4;
         Search.MemoryType := Search.SEARCH_PHYSICAL_MEMORY;
         Search.ByteSize := Search.SEARCH_BYTE; Search.CountOf64Chunks := 1;
         Search.Payload := fun _ => 0x41 |}
      0x101000 0x101010 false 0 = Some o
    /\ Search.Results o 0 = 0x101003.
Proof.
  destruct (SearchAddressWrapper_physical_reports_physical_addresses
              (Scenario.search_services 8 Scenario.all_mapped Example.sparse_memory) 20
              Scenario.zero_memory
              {| Search.Address := 0x101000; Search.Length := 0x10; Search.ProcessId := 4;
                 Search.MemoryType := Search.SEARCH_PHYSICAL_MEMORY;
                 Search.ByteSize := Search.SEARCH_BYTE; Search.CountOf64Chunks := 1;
                 Search.Payload := fun _ => 0x41 |}
              0x101000 0x101010 0 1)
    as (o & Ho & _ & Hstored).
  - reflexivity.
  - reflexivity.
  - simpl. lia.
  - simpl. lia.
  - simpl. lia.
  - simpl. lia.
  - exists o. split; [exact Ho |].
    apply (Hstored 0%nat 0x1003); [vm_compute; reflexivity | simpl; lia].
Defined.

(** *** Moving the results to the user *)

Lemma MoveResults_spec (Storage : Buffer) (From To : Z) (n : nat) :
  forall (i r : Z) (buf : Buffer),
    0 <= r -> r + Z.of_nat n < 2 ^ 32 ->
    let kept :=
      List.filter (fun v => (From <=? v) && (v <=? To))
        (Compaction.UntilZero (Storage <$> seqZ i (Z.of_nat n))) in
    let out := Search.MoveResults Storage From To n i r buf in
    (forall (k : nat) (v : Z), kept !! k = Some v -> out (r + Z.of_nat k) = v)
    /\ (forall j, j < r \/ r + Z.of_nat (length kept) <= j -> out j = buf j).
Proof.
  induction n as [| n IH]; intros i r buf Hr Hfit; cbv zeta.
  - rewrite seqZ_nil by (simpl; lia). cbn.
    split; [intros k v Hk; discriminate Hk | reflexivity].
  - rewrite seqZ_cons by lia.
    replace (Z.pred (Z.of_nat (S n))) with (Z.of_nat n) by lia.
    replace (Z.succ i) with (i + 1) by lia.
    cbn [fmap list_fmap Compaction.UntilZero Search.MoveResults].
    destruct (Storage i =? 0) eqn:Hzero.
    + cbn. split; [intros k v Hk; discriminate Hk | reflexivity].
    + cbn [List.filter].
      destruct ((From <=? Storage i) && (Storage i <=? To)) eqn:Hin.
      * rewrite wrap32_small by lia.
        specialize (IH (i + 1) (r + 1) (store buf r (Storage i)) ltac:(lia) ltac:(lia)).
        cbv zeta in IH. destruct IH as [IHk IHj]. split.
        -- intros [| k] v Hk.
           ++ injection Hk as <-. rewrite Z.add_0_r.
              rewrite IHj by lia. apply store_same.
           ++ replace (r + Z.of_nat (S k)) with (r + 1 + Z.of_nat k) by lia.
              apply IHk. exact Hk.
        -- intros j Hj. cbn [length] in Hj. rewrite IHj by lia.
           apply store_other. lia.
      * specialize (IH (i + 1) r buf Hr ltac:(lia)). exact IH.
Qed.

Lemma UntilZero_length (l : list Z) : (length (Compaction.UntilZero l) <= length l)%nat.
Proof.
  induction l as [| v l IH]; simpl; [lia |].
  destruct (v =? 0); simpl; lia.
Qed.

Lemma UntilZero_nonzero (l : list Z) (v : Z) :
  In v (Compaction.UntilZero l) -> v <> 0.
Proof.
  induction l as [| w l IH]; simpl; [tauto |].
  destruct (w =? 0) eqn:Hw; [simpl; tauto |].
  intros [<- | Hin]; [now apply Z.eqb_neq | now apply IH].
Qed.

Lemma Moved_length (Storage : Buffer) (From To Max : Z) :
  0 <= Max -> Z.of_nat (length (Compaction.Moved Storage From To Max)) <= Max.
Proof.
  intros HMax. unfold Compaction.Moved.
  pose proof (List.filter_length_le (fun v => (From <=? v) && (v <=? To))
                (Compaction.UntilZero (Storage <$> seqZ 0 Max))) as H1.
  pose proof (UntilZero_length (Storage <$> seqZ 0 Max)) as H2.
  rewrite length_fmap, length_seqZ in H2. lia.
Qed.

(** X17: what the user gets from a search that ran.  The first
    [MaximumSearchResults] entries of the user buffer are cleared, then
    filled, without gaps, with the stored results that precede the first
    zero entry of the storage and lie in [[AddressFrom, AddressTo]], both
    bounds included; the entries after them stay zero, the rest of the
    buffer is untouched, and the status is STATUS_SUCCESS whatever the
    wrapper returned. *)
Theorem SearchMemory_moves_results_in_range :
  forall (K : Search.Services) (fuel : nat)
         (SearchMemRequest : Search.DEBUGGER_SEARCH_MEMORY) (UsermodeBuffer : Buffer)
         (o : Search.Outcome),
    let AddressFrom := Search.Address SearchMemRequest in
    let AddressTo :=
      wrap64 (Search.Address SearchMemRequest + Search.Length SearchMemRequest) in
    Search.ProcessId SearchMemRequest = Search.PsGetCurrentProcessId K
    \/ Search.CommonIsProcessExist K (Search.ProcessId SearchMemRequest) = true ->
    Search.PlatformMemAllocateZeroedNonPagedPool K (Search.MaximumSearchResults K * 8)
      = true ->
    0 <= Search.MaximumSearchResults K < 2 ^ 32 ->
    Search.SearchAddressWrapper K fuel (fun _ => 0) SearchMemRequest
      AddressFrom AddressTo false 0 = Some o ->
    let moved :=
      Compaction.Moved (Search.Results o) AddressFrom AddressTo
        (Search.MaximumSearchResults K) in
    exists out,
      Search.DebuggerCommandSearchMemory K fuel SearchMemRequest UsermodeBuffer
      = Some (STATUS_SUCCESS, out)
      /\ (forall (k : nat) (v : Z), moved !! k = Some v ->
            out (Z.of_nat k) = v /\ v <> 0 /\ AddressFrom <= v <= AddressTo)
      /\ (forall j, Z.of_nat (length moved) <= j < Search.MaximumSearchResults K ->
            out j = 0)
      /\ (forall j, j < 0 \/ Search.MaximumSearchResults K <= j ->
            out j = UsermodeBuffer j).
Proof.
  intros K fuel req buf o From To Hpid Halloc HMax Hwrap moved.
  unfold Search.DebuggerCommandSearchMemory.
  assert (Hgate : negb (Search.ProcessId req =? Search.PsGetCurrentProcessId K)
                  && negb (Search.CommonIsProcessExist K (Search.ProcessId req)) = false).
  { destruct Hpid as [-> | ->]; [rewrite Z.eqb_refl; reflexivity | apply andb_false_r]. }
  rewrite Hgate, Halloc. cbn [negb]. unfold From, To in Hwrap. cbv zeta.
  rewrite Hwrap. fold From To.
  eexists. split; [reflexivity |].
  set (Zeroed := fun j : Z =>
                   if (0 <=? j) && (j <? Search.MaximumSearchResults K) then 0 else buf j).
  pose proof (MoveResults_spec (Search.Results o) From To
                (Z.to_nat (Search.MaximumSearchResults K)) 0 0 Zeroed
                ltac:(lia) ltac:(lia)) as Hmove.
  cbv zeta in Hmove. rewrite Z2Nat.id in Hmove by lia.
  fold (Compaction.Moved (Search.Results o) From To (Search.MaximumSearchResults K))
    in Hmove.
  fold moved in Hmove. destruct Hmove as [Hk Hj].
  pose proof (Moved_length (Search.Results o) From To (Search.MaximumSearchResults K)
                ltac:(lia)) as Hlen.
  fold moved in Hlen.
  split; [| split].
  - intros k v Hkv. split; [apply (Hk k v Hkv) |].
    apply list_elem_of_lookup_2, list_elem_of_In in Hkv.
    unfold moved, Compaction.Moved in Hkv.
    apply List.filter_In in Hkv as [Hlive Hin].
    apply andb_true_iff in Hin as [H1 H2]. apply Z.leb_le in H1, H2.
    split; [now apply UntilZero_nonzero in Hlive | lia].
  - intros j Hj'. rewrite Hj by lia. subst Zeroed. cbv beta.
    replace (0 <=? j) with true by (symmetry; apply Z.leb_le; lia).
    replace (j <? Search.MaximumSearchResults K) with true
      by (symmetry; apply Z.ltb_lt; lia).
    reflexivity.
  - intros j Hj'. rewrite Hj by lia. subst Zeroed. cbv beta.
    destruct Hj' as [Hneg | Hbig].
    + replace (0 <=? j) with false by (symmetry; apply Z.leb_gt; lia). reflexivity.
    + replace (j <? Search.MaximumSearchResults K) with false
        by (symmetry; apply Z.ltb_ge; lia).
      now rewrite andb_false_r.
Qed.

Lemma SearchMemory_moves_results_in_range_witness :
  exists out,
    Search.DebuggerCommandSearchMemory
      (Scenario.search_services 8 Scenario.all_mapped Example.sparse_memory) 20
      (Scenario.search_request 0x1000 0x10 Search.SEARCH_BYTE [0x41])
      Scenario.buffer_of_traps
    = Some (STATUS_SUCCESS, out)
    /\ out 1 = 0x1005.
Proof.
  assert (Hmax : 0 <= 8 < 2 ^ 32) by (simpl; lia).
  assert (exists o,
             Search.SearchAddressWrapper
               (Scenario.search_services 8 Scenario.all_mapped Example.sparse_memory) 20
               (fun _ => 0)
               (Scenario.search_request 0x1000 0x10 Search.SEARCH_BYTE [0x41])
               0x1000 (wrap64 (0x1000 + 0x10)) false 0 = Some o
             /\ Compaction.Moved (Search.Results o) 0x1000 (wrap64 (0x1000 + 0x10)) 8
                  !! 1%nat = Some 0x1005) as (o & Hwrap & Hmoved).
  { eexists. split; vm_compute; reflexivity. }
  destruct (SearchMemory_moves_results_in_range
              (Scenario.search_services 8 Scenario.all_mapped Example.sparse_memory) 20
              (Scenario.search_request 0x1000 0x10 Search.SEARCH_BYTE [0x41])
              Scenario.buffer_of_traps o (or_introl eq_refl) eq_refl Hmax Hwrap)
    as (out & Hout & Hk & _).
  exists out. split; [exact Hout |].
  exact (proj1 (Hk 1%nat 0x1005 Hmoved)).
Defined.

Lemma MoveResults_prefix (Storage : Buffer) (From To : Z) (n : nat) :
  forall (l : list Z) (i r : Z) (buf : Buffer),
    (forall (k : nat) (v : Z), l !! k = Some v -> (k < n)%nat ->
       Storage (i + Z.of_nat k) = v /\ v <> 0 /\ From <= v <= To) ->
    ((length l < n)%nat -> Storage (i + Z.of_nat (length l)) = 0) ->
    0 <= r -> r + Z.of_nat n < 2 ^ 32 ->
    let out := Search.MoveResults Storage From To n i r buf in
    (forall (k : nat) (v : Z), l !! k = Some v -> (k < n)%nat ->
       out (r + Z.of_nat k) = v)
    /\ (forall j, j < r \/ r + Z.of_nat (min (length l) n) <= j -> out j = buf j).
Proof.
  induction n as [| n IH]; intros l i r buf Hl Hend Hr Hfit; cbv zeta.
  - cbn. split; [intros k v _ Hk; lia | reflexivity].
  - cbn [Search.MoveResults]. destruct l as [| v l].
    + pose proof (Hend ltac:(simpl; lia)) as H0. cbn [length] in H0.
      change (Z.of_nat 0) with 0 in H0. rewrite Z.add_0_r in H0.
      rewrite H0. cbn.
      split; [intros k w Hk; discriminate Hk | reflexivity].
    + destruct (Hl 0%nat v eq_refl ltac:(lia)) as (Hv & Hnz & Hin).
      rewrite Z.add_0_r in Hv. rewrite Hv.
      apply Z.eqb_neq in Hnz. rewrite Hnz.
      replace ((From <=? v) && (v <=? To)) with true
        by (symmetry; apply andb_true_iff; split; apply Z.leb_le; lia).
      rewrite wrap32_small by lia.
      specialize (IH l (i + 1) (r + 1) (store buf r v)).
      destruct IH as [IHk IHj].
      * intros k w Hk Hlt.
        replace (i + 1 + Z.of_nat k) with (i + Z.of_nat (S k)) by lia.
        apply Hl; [exact Hk | lia].
      * intros Hlt.
        replace (i + 1 + Z.of_nat (length l)) with (i + Z.of_nat (length (v :: l)))
          by (cbn [length]; lia).
        apply Hend. cbn [length]. lia.
      * lia.
      * lia.
      * split.
        -- intros [| k] w Hk Hlt.
           ++ injection Hk as <-. rewrite Z.add_0_r. rewrite IHj by lia.
              apply store_same.
           ++ replace (r + Z.of_nat (S k)) with (r + 1 + Z.of_nat k) by lia.
              apply IHk; [exact Hk | lia].
        -- intros j Hj. cbn [length] in Hj. rewrite IHj by lia.
           apply store_other. lia.
Qed.

(** What the command makes of a given outcome of the wrapper whose result
    array holds the list [l] of non-zero in-range addresses followed by
    zero. *)
Lemma SearchMemory_with_stored (K : Search.Services) (fuel : nat)
  (req : Search.DEBUGGER_SEARCH_MEMORY) (buf : Buffer) (o : Search.Outcome)
  (l : list Z) :
  Search.ProcessId req = Search.PsGetCurrentProcessId K
  \/ Search.CommonIsProcessExist K (Search.ProcessId req) = true ->
  Search.PlatformMemAllocateZeroedNonPagedPool K (Search.MaximumSearchResults K * 8)
    = true ->
  0 <= Search.MaximumSearchResults K < 2 ^ 32 ->
  Search.SearchAddressWrapper K fuel (fun _ => 0) req (Search.Address req)
    (wrap64 (Search.Address req + Search.Length req)) false 0 = Some o ->
  (forall (k : nat) (v : Z), l !! k = Some v ->
     Z.of_nat k < Search.MaximumSearchResults K ->
     Search.Results o (Z.of_nat k) = v /\ v <> 0
     /\ Search.Address req <= v <= wrap64 (Search.Address req + Search.Length req)) ->
  (Z.of_nat (length l) < Search.MaximumSearchResults K ->
   Search.Results o (Z.of_nat (length l)) = 0) ->
  exists out,
    Search.DebuggerCommandSearchMemory K fuel req buf = Some (STATUS_SUCCESS, out)
    /\ (forall (k : nat) (v : Z), l !! k = Some v ->
          Z.of_nat k < Search.MaximumSearchResults K -> out (Z.of_nat k) = v)
    /\ (forall j, Z.min (Z.of_nat (length l)) (Search.MaximumSearchResults K) <= j
                  < Search.MaximumSearchResults K -> out j = 0)
    /\ (forall j, j < 0 \/ Search.MaximumSearchResults K <= j -> out j = buf j).
Proof.
  intros Hpid Halloc HMax Hwrap Hstored Hzero.
  unfold Search.DebuggerCommandSearchMemory.
  assert (Hgate : negb (Search.ProcessId req =? Search.PsGetCurrentProcessId K)
                  && negb (Search.CommonIsProcessExist K (Search.ProcessId req)) = false).
  { destruct Hpid as [-> | ->]; [rewrite Z.eqb_refl; reflexivity | apply andb_false_r]. }
  rewrite Hgate, Halloc. cbn [negb]. cbv zeta. rewrite Hwrap.
  eexists. split; [reflexivity |].
  set (Zeroed := fun j : Z =>
                   if (0 <=? j) && (j <? Search.MaximumSearchResults K) then 0 else buf j).
  destruct (MoveResults_prefix (Search.Results o) (Search.Address req)
              (wrap64 (Search.Address req + Search.Length req))
              (Z.to_nat (Search.MaximumSearchResults K)) l 0 0 Zeroed)
    as [Hk Hj].
  - intros k v Hkv Hlt. rewrite Z.add_0_l. apply Hstored; [exact Hkv | lia].
  - intros Hlt. rewrite Z.add_0_l. apply Hzero. lia.
  - lia.
  - lia.
  - split; [| split].
    + intros k v Hkv Hlt. specialize (Hk k v Hkv ltac:(lia)).
      rewrite Z.add_0_l in Hk. exact Hk.
    + intros j Hj'. rewrite Hj by lia. subst Zeroed. cbv beta.
      replace (0 <=? j) with true by (symmetry; apply Z.leb_le; lia).
      replace (j <? Search.MaximumSearchResults K) with true
        by (symmetry; apply Z.ltb_lt; lia).
      reflexivity.
    + intros j Hj'. rewrite Hj by lia. subst Zeroed. cbv beta.
      destruct Hj' as [Hneg | Hbig].
      * replace (0 <=? j) with false by (symmetry; apply Z.leb_gt; lia). reflexivity.
      * replace (j <? Search.MaximumSearchResults K) with false
          by (symmetry; apply Z.ltb_ge; lia).
        now rewrite andb_false_r.
Qed.



(** X19: a search of a non-empty virtual range whose first page has no
    mapping is refused by the wrapper, but the command does not report it:
    it returns STATUS_SUCCESS with the first [MaximumSearchResults] entries
    of the user buffer zero and the rest of the buffer untouched. *)
Theorem SearchMemory_refused_search_returns_success :
  forall (K : Search.Services) (fuel : nat)
         (SearchMemRequest : Search.DEBUGGER_SEARCH_MEMORY) (UsermodeBuffer : Buffer),
    let Address_ := Search.Address SearchMemRequest in
    let Length_ := Search.Length SearchMemRequest in
    Search.MemoryType SearchMemRequest = Search.SEARCH_VIRTUAL_MEMORY ->
    Search.ProcessId SearchMemRequest = Search.PsGetCurrentProcessId K
    \/ Search.CommonIsProcessExist K (Search.ProcessId SearchMemRequest) = true ->
    Search.PlatformMemAllocateZeroedNonPagedPool K (Search.MaximumSearchResults K * 8)
      = true ->
    0 <= Address_ -> 0 < Length_ ->
    Address_ + Length_ + Search.PAGE_SIZE <= 2 ^ 64 ->
    Search.VirtualAddressToPhysicalAddress K (Search.PAGE_ALIGN Address_) = 0 ->
    Length_ + 2 <= Z.of_nat fuel ->
    0 <= Search.MaximumSearchResults K < 2 ^ 32 ->
    exists out,
      Search.DebuggerCommandSearchMemory K fuel SearchMemRequest UsermodeBuffer
      = Some (STATUS_SUCCESS, out)
      /\ (forall j, 0 <= j < Search.MaximumSearchResults K -> out j = 0)
      /\ (forall j, j < 0 \/ Search.MaximumSearchResults K <= j ->
            out j = UsermodeBuffer j).
Proof.
  intros K fuel req buf Address_ Length_ Hvirt Hpid Halloc Haddr Hlength Hfit
    Hunmapped Hfuel HMax.
  unfold Search.PAGE_SIZE in Hfit.
  assert (Hto : wrap64 (Address_ + Length_) = Address_ + Length_).
  { unfold wrap64. apply Z.mod_small. lia. }
  pose proof (PAGE_ALIGN_bounds Address_) as Halign. unfold Search.PAGE_SIZE in Halign.
  destruct (SearchMemory_with_stored K fuel req buf
              {| Search.Returned := false; Search.CountOfMatchedCases := 0;
                 Search.Results := fun _ => 0; Search.LogLines := [];
                 Search.ComparedAt := [] |} [] Hpid Halloc HMax)
    as (out & Hout & _ & Hzero & Hrest).
  - fold Address_ Length_. rewrite Hto.
    rewrite (SearchAddressWrapper_virtual K fuel (fun _ => 0) req Address_
               (Address_ + Length_) false 0 Hvirt ltac:(lia)
               ltac:(unfold Search.PAGE_SIZE; lia)
               ltac:(unfold Search.PAGE_SIZE; lia)).
    now rewrite Hunmapped, Z.eqb_refl.
  - intros k v Hk. discriminate Hk.
  - reflexivity.
  - exists out. split; [exact Hout |]. split; [| exact Hrest].
    intros j Hj. apply Hzero. simpl. lia.
Qed.

Lemma SearchMemory_refused_search_returns_success_witness :
  exists out,
    Search.DebuggerCommandSearchMemory
      (Scenario.search_services 2 Scenario.hole_at_0x2000 Example.sparse_memory) 20
      (Scenario.search_request 0x2001 0x10 Search.SEARCH_BYTE [0])
      Scenario.buffer_of_traps
    = Some (STATUS_SUCCESS, out)
    /\ out 0 = 0 /\ out 2 = 0xcc.
Proof.
  destruct (SearchMemory_refused_search_returns_success
              (Scenario.search_services 2 Scenario.hole_at_0x2000 Example.sparse_memory)
              20 (Scenario.search_request 0x2001 0x10 Search.SEARCH_BYTE [0])
              Scenario.buffer_of_traps)
    as (out & Hout & Hzero & Hrest).
  - reflexivity.
  - left. reflexivity.
  - reflexivity.
  - unfold Search.PAGE_SIZE. simpl. lia.
  - unfold Search.PAGE_SIZE. simpl. lia.
  - unfold Search.PAGE_SIZE. simpl. lia.
  - vm_compute. reflexivity.
  - unfold Search.PAGE_SIZE. simpl. lia.
  - unfold Search.PAGE_SIZE. simpl. lia.
  - exists out. split; [exact Hout |].
    split; [apply Hzero; simpl; lia |].
    rewrite Hrest by (right; simpl; lia). reflexivity.
Defined.

(** X20: the normal-context read returns TRUE exactly when it leaves the
    success status, which is exactly when the size and the address are not
    zero and the memory manager returned TRUE; every other call leaves the
    invalid-parameter status.  Of the request only [KernelStatus] and
    [AddressMode] are ever written, the latter only by a successful read of
    a virtual address that asks for the mode.  Once the parameters are
    accepted, the buffer and [*ReturnSize] are whatever the memory manager
    left, also when it failed. *)
Theorem ReadMemory_outcome_follows_memory_manager :
  forall (K : Read.Services) (ReadMemRequest : Read.DEBUGGER_READ_MEMORY)
         (UserBuffer : Buffer) (ReturnSize : Z),
    let o := Read.DebuggerCommandReadMemory K ReadMemRequest UserBuffer ReturnSize in
    let read :=
      Read.MemoryManagerReadProcessMemoryNormal K (Read.Pid ReadMemRequest)
        (Read.Address ReadMemRequest) (Read.MemoryType ReadMemRequest) UserBuffer
        (Read.Size ReadMemRequest) ReturnSize in
    let accepted := Read.Size ReadMemRequest <> 0 /\ Read.Address ReadMemRequest <> 0 in
    (Read.Returned o = true
     <-> Read.KernelStatus (Read.Request o) = DEBUGGER_OPERATION_WAS_SUCCESSFUL)
    /\ (Read.Returned o = true <-> accepted /\ fst (fst read) = true)
    /\ (Read.Returned o = false ->
        Read.KernelStatus (Read.Request o)
        = DEBUGGER_ERROR_READING_MEMORY_INVALID_PARAMETER)
    /\ (accepted ->
        Read.UserBuffer o = snd (fst read) /\ Read.ReturnSize o = snd read)
    /\ Read.Pid (Read.Request o) = Read.Pid ReadMemRequest
    /\ Read.Address (Read.Request o) = Read.Address ReadMemRequest
    /\ Read.Size (Read.Request o) = Read.Size ReadMemRequest
    /\ Read.GetAddressMode (Read.Request o) = Read.GetAddressMode ReadMemRequest
    /\ Read.MemoryType (Read.Request o) = Read.MemoryType ReadMemRequest
    /\ (Read.AddressMode (Read.Request o) <> Read.AddressMode ReadMemRequest ->
        Read.Returned o = true
        /\ Read.MemoryType ReadMemRequest = Read.DEBUGGER_READ_VIRTUAL_ADDRESS
        /\ Read.GetAddressMode ReadMemRequest = true).
Proof.
  intros K req buf rs. cbv zeta. unfold Read.DebuggerCommandReadMemory.
  destruct (Z.eqb_spec (Read.Size req) 0) as [Hs | Hs];
    destruct (Z.eqb_spec (Read.Address req) 0) as [Ha | Ha]; cbn [negb andb].
  1-3: repeat split; cbn; try tauto; try discriminate;
    try (intros H; destruct H as [[? ?] _]; tauto).
  destruct (Read.MemoryManagerReadProcessMemoryNormal K (Read.Pid req)
              (Read.Address req) (Read.MemoryType req) buf (Read.Size req) rs)
    as [[ok buf'] rs'].
  cbn [fst snd]. destruct ok.
  - case_bool_decide as Hvirt; destruct (Read.GetAddressMode req) eqn:Hmode;
      cbn [andb];
      [ destruct ((0xFFFF800000000000 <=? Read.Address req)
                  && (Read.Address req <=? 0xFFFFFFFFFFFFFFFF));
        [| destruct (Read.UserAccessIsWow64Process K (Read.Pid req)) as [[|] |]]
      | | | ];
      repeat split; cbn; try tauto; try discriminate; try congruence.
  - repeat split; cbn; try tauto; try discriminate;
      try (intros H; destruct H as [_ H]; discriminate H).
Qed.

Lemma ReadMemory_outcome_follows_memory_manager_witness :
  Read.KernelStatus
    (Read.Request
       (Read.DebuggerCommandReadMemory Scenario.read_services
          (Scenario.read_request 4 0x1000 0) Scenario.buffer_of_traps 0))
  = DEBUGGER_ERROR_READING_MEMORY_INVALID_PARAMETER.
Proof.
  exact (proj1 (proj2 (proj2 (ReadMemory_outcome_follows_memory_manager
                                Scenario.read_services
                                (Scenario.read_request 4 0x1000 0)
                                Scenario.buffer_of_traps 0))) eq_refl).
Defined.

(** X21: the two failure statuses of the search command.  A request for a
    process that is neither the current one nor an existing one gets
    STATUS_INVALID_PARAMETER; otherwise a failed allocation of the result
    array gets STATUS_INSUFFICIENT_RESOURCES.  Both are returned whatever
    the range, before any search, with the user buffer untouched, and they
    are the only causes of a status other than STATUS_SUCCESS. *)
Theorem SearchMemory_failure_statuses :
  forall (K : Search.Services) (fuel : nat)
         (SearchMemRequest : Search.DEBUGGER_SEARCH_MEMORY) (UsermodeBuffer : Buffer),
    let unknown_process :=
      Search.ProcessId SearchMemRequest <> Search.PsGetCurrentProcessId K
      /\ Search.CommonIsProcessExist K (Search.ProcessId SearchMemRequest) = false in
    let no_storage :=
      Search.PlatformMemAllocateZeroedNonPagedPool K (Search.MaximumSearchResults K * 8)
      = false in
    let r := Search.DebuggerCommandSearchMemory K fuel SearchMemRequest UsermodeBuffer in
    (unknown_process -> r = Some (STATUS_INVALID_PARAMETER, UsermodeBuffer))
    /\ (~ unknown_process -> no_storage ->
        r = Some (STATUS_INSUFFICIENT_RESOURCES, UsermodeBuffer))
    /\ (forall status out, r = Some (status, out) -> status <> STATUS_SUCCESS ->
          out = UsermodeBuffer /\ (unknown_process \/ no_storage)).
Proof.
  intros K fuel req buf. cbv zeta. unfold Search.DebuggerCommandSearchMemory.
  destruct (Z.eqb_spec (Search.ProcessId req) (Search.PsGetCurrentProcessId K))
    as [Hpid | Hpid];
    destruct (Search.CommonIsProcessExist K (Search.ProcessId req)) eqn:Hexists;
    cbn [negb andb].
  4: { split; [reflexivity |]. split; [tauto |].
       intros status out H _. injection H as <- <-. tauto. }
  all: destruct (Search.PlatformMemAllocateZeroedNonPagedPool K
                   (Search.MaximumSearchResults K * 8)) eqn:Halloc; cbn [negb].
  all: split; [intros [? ?]; congruence |].
  all: split; [first [reflexivity | discriminate | intros _ H; discriminate H] |].
  all: intros status out H Hne.
  all: try (injection H as <- <-; tauto).
  all: destruct (Search.SearchAddressWrapper K fuel (fun _ : Z => 0) req
                   (Search.Address req)
                   (wrap64 (Search.Address req + Search.Length req)) false 0);
    [injection H as <- _; congruence | discriminate H].
Qed.

Lemma SearchMemory_failure_statuses_witness :
  Search.DebuggerCommandSearchMemory
    (Example.search_services_without_processes) 20
    (Scenario.search_request 0x1000 0x10 Search.SEARCH_BYTE [0x41])
    Scenario.buffer_of_traps
  = Some (STATUS_INVALID_PARAMETER, Scenario.buffer_of_traps).
Proof.
  apply (SearchMemory_failure_statuses Example.search_services_without_processes 20
           (Scenario.search_request 0x1000 0x10 Search.SEARCH_BYTE [0x41])
           Scenario.buffer_of_traps).
  split; [discriminate | reflexivity].
Defined.
